(** * JsonLogic for Python: the evaluator of [json_logic/__init__.py]

    A shallow embedding of the evaluator and of the part of the Python
    runtime it calls, followed by the properties of the evaluator that the
    specification states.

    Conventions of the embedding.
    - A Python object that can reach the evaluator is a JSON-compatible
      value: [None], [bool], [int], [float], [str], [list], and [dict] with
      [str] keys.  Tuples never arise from JSON and are left out.
    - [int] is [Z]; [float] is IEEE-754 binary64, taken from the standard
      library's [SpecFloat] (53 bits of precision, round to nearest even).
    - [str] is [string]; a character stands for the code point of the same
      number, so strings range over the code points below 256.
    - [dict] is an association list in insertion order: the evaluator reads
      the first key of a rule.  Python dictionaries have distinct keys.
    - A call either returns or raises: [result] carries the exception.
    - Object identity is not represented, nor is the logging side channel
      of the [log] operator, nor the interpreter's limit on the number of
      digits of an integer converted to or from a string.  [sum] adds from
      left to right, as CPython does before version 3.12.  The printf-style
      [str % x] is the one builtin behaviour left out: it is reported as
      [Unmodelled].
    - [jsonLogic] is the recursion as the source has it, without a limit;
      [jsonLogic_within] is the same evaluation under the interpreter's
      limit on nested calls. *)

From Stdlib Require Import ZArith List String Ascii Bool Lia DecimalString.
From Stdlib Require Import Floats.SpecFloat.
From Stdlib Require DecimalPos.
Import ListNotations.
Local Open Scope string_scope.
Local Open Scope Z_scope.

(** ** Exceptions and results *)

(** The [ValueError]s that occur, told apart by their message. *)
Inductive value_error : Type :=
| UnknownVariable (name : string)
| UnrecognizedOperation (op : string)
| InvalidLiteral
| EmptySequence.

(** Exception classes.  [RecursionError] is raised by the interpreter, never
    by a [raise] of the source.  [Unmodelled] is not a Python exception: it
    marks [str % x]; no handler of the source catches it. *)
Inductive exn : Type :=
| ValueError (why : value_error)
| TypeError
| KeyError
| IndexError
| ZeroDivisionError
| OverflowError
| RecursionError
| Unmodelled.

Inductive result (A : Type) : Type :=
| Ok (a : A)
| Raise (e : exn).

Arguments Ok {A} a.
Arguments Raise {A} e.

Definition bind {A B : Type} (r : result A) (k : A -> result B) : result B :=
  match r with
  | Ok a => k a
  | Raise e => Raise e
  end.

Notation "x <- r ;; k" := (bind r (fun x => k))
  (at level 61, r at next level, right associativity).
Notation "' p <- r ;; k" := (bind r (fun p => k))
  (at level 61, p pattern, r at next level, right associativity).

(** The exception classes: what an [except] clause can tell apart. *)
Inductive exn_class : Type :=
| CValueError | CTypeError | CKeyError | CIndexError
| CZeroDivisionError | COverflowError | CRecursionError | CUnmodelled.

Definition class_of (e : exn) : exn_class :=
  match e with
  | ValueError _ => CValueError
  | TypeError => CTypeError
  | KeyError => CKeyError
  | IndexError => CIndexError
  | ZeroDivisionError => CZeroDivisionError
  | OverflowError => COverflowError
  | RecursionError => CRecursionError
  | Unmodelled => CUnmodelled
  end.

(** ** Values *)

#[local] Unset Elimination Schemes.

Inductive value : Type :=
| VNone
| VBool (b : bool)
| VInt (n : Z)
| VFloat (x : spec_float)
| VStr (s : string)
| VList (xs : list value)
| VDict (kvs : list (string * value)).

#[local] Set Elimination Schemes.

Inductive pytype : Type :=
| TNone | TBool | TInt | TFloat | TStr | TList | TDict.

(** [type(v)] *)
Definition type_of (v : value) : pytype :=
  match v with
  | VNone => TNone
  | VBool _ => TBool
  | VInt _ => TInt
  | VFloat _ => TFloat
  | VStr _ => TStr
  | VList _ => TList
  | VDict _ => TDict
  end.

Definition pytype_eqb (s t : pytype) : bool :=
  match s, t with
  | TNone, TNone | TBool, TBool | TInt, TInt | TFloat, TFloat
  | TStr, TStr | TList, TList | TDict, TDict => true
  | _, _ => false
  end.

(** ** Floating point: binary64 *)

Definition prec : Z := 53.
Definition emax : Z := 1024.

Definition fzero : spec_float := S754_zero false.
Definition fone : spec_float := SFone prec emax.

Definition fadd := SFadd prec emax.
Definition fsub := SFsub prec emax.
Definition fmul := SFmul prec emax.
Definition fdiv := SFdiv prec emax.

Definition float_is_zero (x : spec_float) : bool :=
  match x with S754_zero _ => true | _ => false end.

Definition float_is_inf (x : spec_float) : bool :=
  match x with S754_infinity _ => true | _ => false end.

(** The float nearest to an integer. *)
Definition float_of_Z (n : Z) : spec_float :=
  binary_normalize prec emax n 0 false.

(** The float nearest to [m * 10^e10], for [0 <= m], with sign [neg]. *)
Definition float_of_decimal (neg : bool) (m e10 : Z) : spec_float :=
  if m =? 0 then S754_zero neg
  else if 0 <=? e10 then
    binary_normalize prec emax ((if neg then - m else m) * 10 ^ e10) 0 neg
  else
    let '(q, e, l) := SFdiv_core_binary prec emax m 0 (10 ^ (- e10)) 0 in
    binary_round_aux prec emax neg q e l.

(** Exact comparison of an integer with a float; [None] when unordered. *)
Definition compare_Z_float (n : Z) (x : spec_float) : option comparison :=
  match x with
  | S754_nan => None
  | S754_infinity s => Some (if s then Gt else Lt)
  | S754_zero _ => Some (n ?= 0)
  | S754_finite s m e =>
      let v := if s then Z.neg m else Z.pos m in
      Some (if 0 <=? e then n ?= v * 2 ^ e else n * 2 ^ (- e) ?= v)
  end.

(** C's [fmod] on finite, non-zero magnitudes is exact: the remainder of the
    aligned mantissas. *)
Definition float_fmod (x y : spec_float) : spec_float :=
  match x, y with
  | S754_nan, _ | _, S754_nan => S754_nan
  | S754_infinity _, _ => S754_nan
  | _, S754_zero _ => S754_nan
  | _, S754_infinity _ => x
  | S754_zero _, _ => x
  | S754_finite sx mx ex, S754_finite _ my ey =>
      let e := Z.min ex ey in
      let r := (Z.pos mx * 2 ^ (ex - e)) mod (Z.pos my * 2 ^ (ey - e)) in
      binary_normalize prec emax (if sx then - r else r) e sx
  end.

(** [x % y] on floats, for [y] other than zero (CPython's [float_rem]). *)
Definition float_rem (x y : spec_float) : spec_float :=
  let m := float_fmod x y in
  if SFeqb m fzero then S754_zero (SFltb y fzero)
  else if negb (Bool.eqb (SFltb y fzero) (SFltb m fzero)) then fadd m y
  else m.

(** [math.isclose(a, b)] on floats, with the default [rel_tol = 1e-09] and
    [abs_tol = 0.0]. *)
Definition rel_tol : spec_float := float_of_decimal false 1 (-9).

Definition float_isclose (a b : spec_float) : bool :=
  if SFeqb a b then true
  else if float_is_inf a || float_is_inf b then false
  else
    let diff := SFabs (fsub b a) in
    SFleb diff (SFabs (fmul rel_tol b))
    || SFleb diff (SFabs (fmul rel_tol a))
    || SFleb diff fzero.

(** ** Strings and numerals *)

Definition code (c : ascii) : Z := Z.of_N (N_of_ascii c).

Definition char_of (n : Z) : ascii := ascii_of_N (Z.to_N n).

Definition is_digit (c : ascii) : bool := (48 <=? code c) && (code c <=? 57).

Definition digit_value (c : ascii) : Z := code c - 48.

Definition digits_value (ds : list ascii) : Z :=
  fold_left (fun acc c => 10 * acc + digit_value c) ds 0.

(** White space as [int()] and [float()] skip it at both ends. *)
Definition is_space (c : ascii) : bool :=
  let n := code c in
  ((9 <=? n) && (n <=? 13)) || (n =? 32) || (n =? 133) || (n =? 160).

Fixpoint drop_spaces (cs : list ascii) : list ascii :=
  match cs with
  | c :: cs' => if is_space c then drop_spaces cs' else cs
  | [] => []
  end.

Definition strip (cs : list ascii) : list ascii :=
  rev (drop_spaces (rev (drop_spaces cs))).

Definition split_sign (cs : list ascii) : bool * list ascii :=
  match cs with
  | c :: r =>
      if (c =? "-")%char then (true, r)
      else if (c =? "+")%char then (false, r)
      else (false, cs)
  | [] => (false, [])
  end.

Definition is_underscore (c : option ascii) : bool :=
  match c with Some c => (c =? "_")%char | None => false end.

Definition is_digit_opt (c : option ascii) : bool :=
  match c with Some c => is_digit c | None => false end.

(** Numerals may group digits with single underscores: an underscore stands
    only between two digits. *)
Fixpoint remove_underscores_after (prev : option ascii) (cs : list ascii)
  : option (list ascii) :=
  match cs with
  | [] => if is_underscore prev then None else Some []
  | c :: cs' =>
      if (c =? "_")%char then
        if is_digit_opt prev then remove_underscores_after (Some c) cs'
        else None
      else if is_underscore prev && negb (is_digit c) then None
      else option_map (cons c) (remove_underscores_after (Some c) cs')
  end.

Definition remove_underscores (cs : list ascii) : option (list ascii) :=
  remove_underscores_after None cs.

Definition nonempty {A : Type} (l : list A) : bool :=
  match l with [] => false | _ :: _ => true end.

(** [int(s)] for a string [s], base ten: [None] stands for [ValueError]. *)
Definition int_of_string (s : string) : option Z :=
  let '(neg, body) := split_sign (strip (list_ascii_of_string s)) in
  match remove_underscores body with
  | Some ds =>
      if nonempty ds && forallb is_digit ds
      then Some (if neg then - digits_value ds else digits_value ds)
      else None
  | None => None
  end.

Fixpoint span_digits (cs : list ascii) : list ascii * list ascii :=
  match cs with
  | c :: cs' =>
      if is_digit c then let '(ds, r) := span_digits cs' in (c :: ds, r)
      else ([], cs)
  | [] => ([], [])
  end.

Definition lower (c : ascii) : ascii :=
  if (65 <=? code c) && (code c <=? 90) then char_of (code c + 32) else c.

Definition lower_string (cs : list ascii) : string :=
  string_of_list_ascii (map lower cs).

(** The decimal part of a float literal: digits, an optional point and
    digits (one digit at least), an optional exponent. *)
Definition decimal_literal (neg : bool) (cs : list ascii) : option spec_float :=
  let '(ip, r1) := span_digits cs in
  let '(fp, r2) :=
    match r1 with
    | c :: r => if (c =? ".")%char then span_digits r else ([], r1)
    | [] => ([], [])
    end in
  let m := digits_value (ip ++ fp)%list in
  let scale := Z.of_nat (List.length fp) in
  if negb (nonempty (ip ++ fp)%list) then None
  else
    match r2 with
    | [] => Some (float_of_decimal neg m (- scale))
    | c :: r3 =>
        if ((c =? "e") || (c =? "E"))%char then
          let '(eneg, ed) := split_sign r3 in
          if nonempty ed && forallb is_digit ed then
            let e := if eneg then - digits_value ed else digits_value ed in
            Some (float_of_decimal neg m (e - scale))
          else None
        else None
    end.

(** [float(s)] for a string [s]: [None] stands for [ValueError]. *)
Definition float_of_string (s : string) : option spec_float :=
  match remove_underscores (strip (list_ascii_of_string s)) with
  | None => None
  | Some cs =>
      let '(neg, body) := split_sign cs in
      let word := lower_string body in
      if String.eqb word "inf" || String.eqb word "infinity"
      then Some (S754_infinity neg)
      else if String.eqb word "nan" then Some S754_nan
      else decimal_literal neg body
  end.

(** [s.split(".")] *)
Fixpoint split_dot (s : string) : list string :=
  match s with
  | EmptyString => [EmptyString]
  | String c s' =>
      if (c =? ".")%char then EmptyString :: split_dot s'
      else
        match split_dot s' with
        | h :: t => String c h :: t
        | [] => [String c EmptyString]
        end
  end.

(** ["." in s] *)
Definition contains_dot (s : string) : bool :=
  existsb (fun c => (c =? ".")%char) (list_ascii_of_string s).

(** [a in b] for strings *)
Fixpoint is_substring (a b : string) : bool :=
  prefix a b
  || match b with
     | EmptyString => false
     | String _ b' => is_substring a b'
     end.

(** [str(n)] for an integer *)
Definition string_of_Z (n : Z) : string := NilZero.string_of_int (Z.to_int n).

(** *** [repr] of a string *)

Definition double_quote : ascii := char_of 34.
Definition single_quote : ascii := char_of 39.
Definition backslash : ascii := char_of 92.

Definition hex_digit (n : Z) : ascii :=
  if n <? 10 then char_of (48 + n) else char_of (87 + n).

Definition printable (c : ascii) : bool :=
  let n := code c in
  negb ((n <? 32) || (n =? 127) || ((128 <=? n) && (n <=? 160)) || (n =? 173)).

Definition repr_char (quote c : ascii) : string :=
  let n := code c in
  if ((c =? quote) || (c =? backslash))%char then String backslash (String c "")
  else if n =? 9 then String backslash "t"
  else if n =? 10 then String backslash "n"
  else if n =? 13 then String backslash "r"
  else if printable c then String c ""
  else String backslash (String "x" (String (hex_digit (n / 16)) (String (hex_digit (n mod 16)) ""))).

Definition str_repr (s : string) : string :=
  let cs := list_ascii_of_string s in
  let has c := existsb (Ascii.eqb c) cs in
  let quote := if has single_quote && negb (has double_quote)
               then double_quote else single_quote in
  String quote (String.concat "" (map (repr_char quote) cs) ++ String quote "").

(** *** [repr] of a float: the shortest decimal that reads back *)

Fixpoint find_scale (fuel : nat) (n d j : Z) : Z :=
  match fuel with
  | O => j
  | S fuel' => if d <=? n * 10 ^ j then j else find_scale fuel' n d (j + 1)
  end.

(** The position of the decimal point of [n / d]: the [k] with
    [10^(k-1) <= n/d < 10^k], for positive [n] and [d]. *)
Definition decimal_point (n d : Z) : Z :=
  if d <=? n then Z.of_nat (String.length (string_of_Z (n / d)))
  else 1 - find_scale (String.length (string_of_Z d)) n d 1.

Fixpoint drop_zeros (cs : list ascii) : list ascii :=
  match cs with
  | c :: cs' => if (c =? "0")%char then drop_zeros cs' else cs
  | [] => []
  end.

Definition strip_trailing_zeros (s : string) : string :=
  string_of_list_ascii (rev (drop_zeros (rev (list_ascii_of_string s)))).

(** The decimals of [p] significant digits next to [x = n / d] that read
    back as [x], nearest first; a candidate is [c * 10^(-s)], given as
    [(c, s)]. *)
Definition candidates (x : spec_float) (n d decpt p : Z) : list (Z * Z) :=
  let s := p - decpt in
  let a := n * 10 ^ (Z.max s 0) in
  let b := d * 10 ^ (Z.max (- s) 0) in
  let lo := a / b in
  let r := a mod b in
  let near := if r =? 0 then [lo]
              else if 2 * r <? b then [lo; lo + 1]
              else [lo + 1; lo] in
  map (fun c => (c, s))
      (filter (fun c => SFeqb (float_of_decimal false c (- s)) x) near).

Fixpoint shortest (fuel : nat) (x : spec_float) (n d decpt p : Z) : Z * Z :=
  match fuel with
  | O => (n * 10 ^ (Z.max (p - decpt) 0) / (d * 10 ^ (Z.max (decpt - p) 0)), p - decpt)
  | S fuel' =>
      match candidates x n d decpt p with
      | c :: _ => c
      | [] => shortest fuel' x n d decpt (p + 1)
      end
  end.

Fixpoint zeros (n : nat) : string :=
  match n with O => "" | S n' => String "0" (zeros n') end.

(** Layout of the digits [ds] with the decimal point after [decpt] digits:
    exponent notation below 1e-4 and from 1e16 on. *)
Definition layout (ds : string) (decpt : Z) : string :=
  let nd := Z.of_nat (String.length ds) in
  if (decpt <=? -4) || (16 <? decpt) then
    let e := decpt - 1 in
    let ee := string_of_Z (Z.abs e) in
    let mant := match ds with
                | String c EmptyString => ds
                | String c rest => String c (String "." rest)
                | EmptyString => ds
                end in
    mant ++ "e" ++ (if e <? 0 then "-" else "+")
         ++ (if Z.abs e <? 10 then "0" else "") ++ ee
  else if decpt <=? 0 then "0." ++ zeros (Z.to_nat (- decpt)) ++ ds
  else if nd <=? decpt then ds ++ zeros (Z.to_nat (decpt - nd)) ++ ".0"
  else substring 0 (Z.to_nat decpt) ds ++ "."
       ++ substring (Z.to_nat decpt) (Z.to_nat (nd - decpt)) ds.

(** [repr(x)], which is also [str(x)], for a float *)
Definition float_repr (x : spec_float) : string :=
  match x with
  | S754_nan => "nan"
  | S754_infinity s => if s then "-inf" else "inf"
  | S754_zero s => if s then "-0.0" else "0.0"
  | S754_finite s m e =>
      let n := if 0 <=? e then Z.pos m * 2 ^ e else Z.pos m in
      let d := if 0 <=? e then 1 else 2 ^ (- e) in
      let decpt := decimal_point n d in
      let '(c, sc) := shortest 17 (S754_finite false m e) n d decpt 1 in
      let all := string_of_Z c in
      (if s then "-" else "")
        ++ layout (strip_trailing_zeros all) (Z.of_nat (String.length all) - sc)
  end.

(** ** Python's operations on values *)

(** [bool(v)]: the truth value. *)
Definition truthy (v : value) : bool :=
  match v with
  | VNone => false
  | VBool b => b
  | VInt n => negb (n =? 0)
  | VFloat x => negb (float_is_zero x)
  | VStr s => negb (String.eqb s "")
  | VList xs => nonempty xs
  | VDict kvs => nonempty kvs
  end.

(** [d[k]] on the entries of a dictionary *)
Fixpoint dict_get (k : string) (kvs : list (string * value)) : option value :=
  match kvs with
  | [] => None
  | (k', v) :: r => if String.eqb k k' then Some v else dict_get k r
  end.

(** *** Numbers: [bool] and [int] as integers, [float] *)

Inductive number : Type :=
| NInt (n : Z)
| NFloat (x : spec_float).

(** [isinstance(v, numbers.Number)], with the number *)
Definition as_number (v : value) : option number :=
  match v with
  | VBool b => Some (NInt (if b then 1 else 0))
  | VInt n => Some (NInt n)
  | VFloat x => Some (NFloat x)
  | _ => None
  end.

Definition num_compare (x y : number) : option comparison :=
  match x, y with
  | NInt m, NInt n => Some (m ?= n)
  | NInt m, NFloat b => compare_Z_float m b
  | NFloat a, NInt n => option_map CompOpp (compare_Z_float n a)
  | NFloat a, NFloat b => SFcompare a b
  end.

Definition num_eqb (x y : number) : bool :=
  match num_compare x y with Some Eq => true | _ => false end.

Definition num_ltb (x y : number) : bool :=
  match num_compare x y with Some Lt => true | _ => false end.

(** An integer as a float: [OverflowError] beyond the largest float. *)
Definition float_of_int (n : Z) : result spec_float :=
  let x := float_of_Z n in
  if float_is_inf x then Raise OverflowError else Ok x.

Definition num_to_float (x : number) : result spec_float :=
  match x with
  | NInt n => float_of_int n
  | NFloat a => Ok a
  end.

(** Integer arithmetic on two integers, float arithmetic otherwise. *)
Definition num_arith (fi : Z -> Z -> Z)
  (ff : spec_float -> spec_float -> spec_float) (x y : number) : result value :=
  match x, y with
  | NInt m, NInt n => Ok (VInt (fi m n))
  | _, _ =>
      a <- num_to_float x ;;
      b <- num_to_float y ;;
      Ok (VFloat (ff a b))
  end.

Definition arith (fi : Z -> Z -> Z)
  (ff : spec_float -> spec_float -> spec_float) (a b : value) : result value :=
  match as_number a, as_number b with
  | Some x, Some y => num_arith fi ff x y
  | _, _ => Raise TypeError
  end.

(** [a + b] for a number [a]: the running total of [sum], which starts at
    the integer 0, so that no concatenation of sequences applies. *)
Definition py_add : value -> value -> result value := arith Z.add fadd.

(** [a - b] *)
Definition py_sub : value -> value -> result value := arith Z.sub fsub.

(** [a * b] for a number [a] *)
Definition py_mul : value -> value -> result value := arith Z.mul fmul.

(** [-a] *)
Definition py_neg (a : value) : result value :=
  match as_number a with
  | Some (NInt n) => Ok (VInt (- n))
  | Some (NFloat x) => Ok (VFloat (SFopp x))
  | None => Raise TypeError
  end.

(** [a % b] *)
Definition py_mod (a b : value) : result value :=
  match a with
  | VStr _ => Raise Unmodelled
  | _ =>
      match as_number a, as_number b with
      | Some (NInt m), Some (NInt n) =>
          if n =? 0 then Raise ZeroDivisionError else Ok (VInt (m mod n))
      | Some x, Some y =>
          u <- num_to_float x ;;
          w <- num_to_float y ;;
          if float_is_zero w then Raise ZeroDivisionError
          else Ok (VFloat (float_rem u w))
      | _, _ => Raise TypeError
      end
  end.

(** [float(v)] *)
Definition py_float (v : value) : result spec_float :=
  match v with
  | VBool b => Ok (if b then fone else fzero)
  | VInt n => float_of_int n
  | VFloat x => Ok x
  | VStr s =>
      match float_of_string s with
      | Some x => Ok x
      | None => Raise (ValueError InvalidLiteral)
      end
  | VNone | VList _ | VDict _ => Raise TypeError
  end.

(** [int(s)] for a string *)
Definition py_int (s : string) : result Z :=
  match int_of_string s with
  | Some n => Ok n
  | None => Raise (ValueError InvalidLiteral)
  end.

(** [x / y] on floats *)
Definition float_truediv (x y : spec_float) : result spec_float :=
  if float_is_zero y then Raise ZeroDivisionError else Ok (fdiv x y).

(** *** Equality and order *)

(** [a == b] *)
Fixpoint py_eq (a b : value) {struct a} : bool :=
  match a, b with
  | VNone, VNone => true
  | VStr s, VStr t => String.eqb s t
  | VList xs, VList ys =>
      (fix all2 (xs ys : list value) {struct xs} : bool :=
         match xs, ys with
         | [], [] => true
         | x :: xs', y :: ys' => py_eq x y && all2 xs' ys'
         | _, _ => false
         end) xs ys
  | VDict kvs, VDict kvs' =>
      Nat.eqb (List.length kvs) (List.length kvs')
      && (fix all (kvs : list (string * value)) : bool :=
            match kvs with
            | [] => true
            | (k, v) :: r =>
                match dict_get k kvs' with
                | Some v' => py_eq v v'
                | None => false
                end && all r
            end) kvs
  | _, _ =>
      match as_number a, as_number b with
      | Some x, Some y => num_eqb x y
      | _, _ => false
      end
  end.

(** [a < b]: numbers, strings by code point, lists lexicographically;
    [TypeError] for every other pair. *)
Fixpoint py_lt (a b : value) {struct a} : result bool :=
  match a, b with
  | VStr s, VStr t => Ok (String.ltb s t)
  | VList xs, VList ys =>
      (fix lex (xs ys : list value) {struct xs} : result bool :=
         match xs, ys with
         | [], [] => Ok false
         | [], _ :: _ => Ok true
         | _ :: _, [] => Ok false
         | x :: xs', y :: ys' => if py_eq x y then lex xs' ys' else py_lt x y
         end) xs ys
  | _, _ =>
      match as_number a, as_number b with
      | Some x, Some y => Ok (num_ltb x y)
      | _, _ => Raise TypeError
      end
  end.

(** [a > b] *)
Definition py_gt (a b : value) : result bool := py_lt b a.

(** [a >= b] for an integer [a] *)
Definition int_ge (n : Z) (b : value) : result bool :=
  match as_number b with
  | Some y => Ok (match num_compare (NInt n) y with
                  | Some (Gt | Eq) => true
                  | _ => false
                  end)
  | None => Raise TypeError
  end.

(** *** Text *)

(** [repr(v)] *)
Fixpoint py_repr (v : value) : string :=
  match v with
  | VNone => "None"
  | VBool b => if b then "True" else "False"
  | VInt n => string_of_Z n
  | VFloat x => float_repr x
  | VStr s => str_repr s
  | VList xs => "[" ++ String.concat ", " (map py_repr xs) ++ "]"
  | VDict kvs =>
      "{" ++ String.concat ", "
               (map (fun kv => str_repr (fst kv) ++ ": " ++ py_repr (snd kv)) kvs)
          ++ "}"
  end.

(** [str(v)] *)
Definition py_str (v : value) : string :=
  match v with
  | VStr s => s
  | _ => py_repr v
  end.

(** *** Containers *)

Definition char_strings (s : string) : list value :=
  map (fun c => VStr (String c "")) (list_ascii_of_string s).

(** The items a [for] loop draws from [v] *)
Definition py_iter (v : value) : result (list value) :=
  match v with
  | VList xs => Ok xs
  | VStr s => Ok (char_strings s)
  | VDict kvs => Ok (map (fun kv => VStr (fst kv)) kvs)
  | VNone | VBool _ | VInt _ | VFloat _ => Raise TypeError
  end.

(** [data[key]] for a string [key] *)
Definition getitem_str (data : value) (key : string) : result value :=
  match data with
  | VDict kvs =>
      match dict_get key kvs with
      | Some v => Ok v
      | None => Raise KeyError
      end
  | _ => Raise TypeError
  end.

(** Position [i] of a sequence of [len] items, counting from the end when
    negative *)
Definition seq_index (i len : Z) : option nat :=
  let j := if i <? 0 then i + len else i in
  if (0 <=? j) && (j <? len) then Some (Z.to_nat j) else None.

(** [data[i]] for an integer [i] *)
Definition getitem_int (data : value) (i : Z) : result value :=
  match data with
  | VList xs =>
      match seq_index i (Z.of_nat (List.length xs)) with
      | Some j => match nth_error xs j with
                  | Some v => Ok v
                  | None => Raise IndexError
                  end
      | None => Raise IndexError
      end
  | VStr s =>
      match seq_index i (Z.of_nat (String.length s)) with
      | Some j => match String.get j s with
                  | Some c => Ok (VStr (String c ""))
                  | None => Raise IndexError
                  end
      | None => Raise IndexError
      end
  | VDict _ => Raise KeyError
  | VNone | VBool _ | VInt _ | VFloat _ => Raise TypeError
  end.

(** ["__contains__" in dir(b)] *)
Definition has_contains (b : value) : bool :=
  match b with
  | VStr _ | VList _ | VDict _ => true
  | VNone | VBool _ | VInt _ | VFloat _ => false
  end.

(** [a in b], for [b] with [__contains__] *)
Definition py_in (a b : value) : result bool :=
  match b with
  | VStr t =>
      match a with
      | VStr s => Ok (is_substring s t)
      | _ => Raise TypeError
      end
  | VList ys => Ok (existsb (fun y => py_eq y a) ys)
  | VDict kvs =>
      match a with
      | VStr k => Ok (match dict_get k kvs with Some _ => true | None => false end)
      | VList _ | VDict _ => Raise TypeError
      | VNone | VBool _ | VInt _ | VFloat _ => Ok false
      end
  | VNone | VBool _ | VInt _ | VFloat _ => Raise TypeError
  end.

(** [min(args)] and [max(args)] for the tuple of arguments *)
Fixpoint select_from (better : value -> value -> result bool)
  (cur : value) (rest : list value) : result value :=
  match rest with
  | [] => Ok cur
  | x :: r =>
      b <- better x cur ;;
      select_from better (if b then x else cur) r
  end.

Definition py_min (args : list value) : result value :=
  match args with
  | [] => Raise (ValueError EmptySequence)
  | x :: r => select_from py_lt x r
  end.

Definition py_max (args : list value) : result value :=
  match args with
  | [] => Raise (ValueError EmptySequence)
  | x :: r => select_from py_gt x r
  end.

(** ** The operators of [json_logic/__init__.py] *)

(** [if_] on its arguments: the pairs (condition, result) in turn, then the odd last
    argument.  The result comes with its position among the arguments;
    [(None, None)] is [(VNone, None)]. *)
Fixpoint if_from (i : nat) (args : list value) : value * option nat :=
  match args with
  | cond :: result :: rest =>
      if truthy cond then (result, Some (S i)) else if_from (S (S i)) rest
  | [last] => (last, Some i)
  | [] => (VNone, None)
  end.

Definition if_ (args : list value) : value * option nat := if_from 0 args.

Definition soft_equals (a b : value) : bool :=
  match a, b with
  | VStr _, _ | _, VStr _ => String.eqb (py_str a) (py_str b)
  | VBool _, _ | _, VBool _ => Bool.eqb (truthy a) (truthy b)
  | _, _ => py_eq a b
  end.

(** [math.isclose(a, b)]: both arguments are converted to floats first. *)
Definition isclose (x y : number) : result bool :=
  a <- num_to_float x ;;
  b <- num_to_float y ;;
  Ok (float_isclose a b).

Definition almost_equal (a b : value) : result bool :=
  match as_number a, as_number b with
  | Some x, Some y => isclose x y
  | _, _ => Ok false
  end.

Definition hard_equals (a b : value) : result bool :=
  if negb (pytype_eqb (type_of a) (type_of b)) then Ok false
  else if py_eq a b then Ok true
  else almost_equal a b.

(** [float in types or int in types], for [types = {type(a), type(b)}] *)
Definition float_or_int (a b : value) : bool :=
  match type_of a, type_of b with
  | (TFloat | TInt), _ | _, (TFloat | TInt) => true
  | _, _ => false
  end.

(** [less(a, b, *args)].  Only a [TypeError] of the two conversions is
    handled; the comparison itself is outside the [try]. *)
Fixpoint less (a b : value) (args : list value) {struct args} : result bool :=
  let compare (a b : value) : result bool :=
    lt <- py_lt a b ;;
    if lt then
      match args with
      | [] => Ok true
      | c :: rest => less b c rest
      end
    else Ok false in
  if float_or_int a b then
    match (x <- py_float a ;; y <- py_float b ;; Ok (x, y)) with
    | Ok (x, y) => compare (VFloat x) (VFloat y)
    | Raise TypeError => Ok false
    | Raise e => Raise e
    end
  else compare a b.

Fixpoint less_or_equal (a b : value) (args : list value) {struct args}
  : result bool :=
  lt <- less a b [] ;;
  if lt || soft_equals a b then
    match args with
    | [] => Ok true
    | c :: rest => less_or_equal b c rest
    end
  else Ok false.

Definition to_numeric (arg : value) : result value :=
  match arg with
  | VStr s =>
      if contains_dot s then x <- py_float arg ;; Ok (VFloat x)
      else n <- py_int s ;; Ok (VInt n)
  | _ => Ok arg
  end.

(** [reduce(f, args, init)] for an [f] that may raise *)
Fixpoint reduce (f : value -> value -> result value) (args : list value)
  (total : value) : result value :=
  match args with
  | [] => Ok total
  | arg :: rest => t <- f total arg ;; reduce f rest t
  end.

(** [sum(to_numeric(arg) for arg in args)]: each argument is converted when
    the sum reaches it. *)
Definition plus (args : list value) : result value :=
  reduce (fun total arg => x <- to_numeric arg ;; py_add total x) args (VInt 0).

Definition minus (args : list value) : result value :=
  match args with
  | [a] => x <- to_numeric a ;; py_neg x
  | a :: b :: _ => x <- to_numeric a ;; y <- to_numeric b ;; py_sub x y
  | [] => Raise IndexError
  end.

Definition merge (args : list value) : list value :=
  flat_map (fun arg => match arg with VList xs => xs | _ => [arg] end) args.

(** The body of the [try] of [get_var]: one lookup per segment of the
    path, by key and, on a [TypeError], by index. *)
Fixpoint walk (data : value) (keys : list string) : result value :=
  match keys with
  | [] => Ok data
  | key :: rest =>
      match getitem_str data key with
      | Ok v => walk v rest
      | Raise TypeError => i <- py_int key ;; v <- getitem_int data i ;; walk v rest
      | Raise e => Raise e
      end
  end.

Definition lookup (data var_name : value) : result value :=
  walk data (split_dot (py_str var_name)).

(** [except (KeyError, TypeError, ValueError)] *)
Definition handled (e : exn) : bool :=
  match e with
  | KeyError | TypeError | ValueError _ => true
  | _ => false
  end.

(** [get_var(data, var_name, not_found)]; [not_found] defaults to [None]. *)
Definition get_var (data var_name not_found : value) : result value :=
  match lookup data var_name with
  | Ok v => Ok v
  | Raise e =>
      if handled e then
        match not_found with
        | VNone => Raise (ValueError (UnknownVariable (py_str var_name)))
        | _ => Ok not_found
        end
      else Raise e
  end.

(** [get_var(data, arg, not_found) is not_found] for a fresh object
    [not_found], which no lookup can return. *)
Definition not_found_in (data arg : value) : result bool :=
  match lookup data arg with
  | Ok _ => Ok false
  | Raise e => if handled e then Ok true else Raise e
  end.

Fixpoint missing_loop (data : value) (args : list value) : result (list value) :=
  match args with
  | [] => Ok []
  | arg :: rest =>
      nf <- not_found_in data arg ;;
      ret <- missing_loop data rest ;;
      Ok (if nf then arg :: ret else ret)
  end.

Definition missing (data : value) (args : list value) : result (list value) :=
  match args with
  | VList names :: _ => missing_loop data names
  | _ => missing_loop data args
  end.

(** The loop of [missing_some]: [ret] in reverse, [found] so far. *)
Fixpoint missing_some_loop (data min_required : value) (args : list value)
  (found : Z) (ret : list value) : result (list value) :=
  match args with
  | [] => Ok (rev ret)
  | arg :: rest =>
      nf <- not_found_in data arg ;;
      if nf then missing_some_loop data min_required rest found (arg :: ret)
      else
        enough <- int_ge (found + 1) min_required ;;
        if enough then Ok []
        else missing_some_loop data min_required rest (found + 1) ret
  end.

Definition missing_some (data min_required args : value) : result (list value) :=
  few <- py_lt min_required (VInt 1) ;;
  if few then Ok []
  else
    names <- py_iter args ;;
    missing_some_loop data min_required names 0 [].

(** ** The table [operations] *)

(** A call with the wrong number of arguments is a [TypeError]. *)
Definition unary (f : value -> result value) (args : list value) : result value :=
  match args with
  | [a] => f a
  | _ => Raise TypeError
  end.

Definition binary (f : value -> value -> result value) (args : list value)
  : result value :=
  match args with
  | [a; b] => f a b
  | _ => Raise TypeError
  end.

Definition ternary (f : value -> value -> value -> result value)
  (args : list value) : result value :=
  match args with
  | [a; b; c] => f a b c
  | _ => Raise TypeError
  end.

(** A function of two parameters and [*args] *)
Definition chained (f : value -> value -> list value -> result bool)
  (args : list value) : result value :=
  match args with
  | a :: b :: rest => r <- f a b rest ;; Ok (VBool r)
  | _ => Raise TypeError
  end.

Definition boolean (r : result bool) : result value :=
  b <- r ;; Ok (VBool b).

(** The entries of the table: the operators return a value, [if_] returns a
    value and the position of the branch. *)
Inductive callable : Type :=
| Operator (f : list value -> result value)
| Selector (f : list value -> value * option nat).

Definition greater_or_equal (a b : value) : result bool :=
  lt <- less b a [] ;; Ok (lt || soft_equals a b).

Definition and_ (total arg : value) : value := if truthy total then arg else total.

Definition or_ (total arg : value) : value := if truthy total then total else arg.

Definition times (total arg : value) : result value :=
  x <- py_float arg ;; py_mul total (VFloat x).

Definition divide (args : list value) : result value :=
  match args with
  | [a] | [a; VNone] => Ok a
  | [a; b] =>
      x <- py_float a ;;
      y <- py_float b ;;
      q <- float_truediv x y ;;
      Ok (VFloat q)
  | _ => Raise TypeError
  end.

Definition operations : list (string * callable) :=
  [ ("==", Operator (binary (fun a b => Ok (VBool (soft_equals a b)))));
    ("===", Operator (binary (fun a b => boolean (hard_equals a b))));
    ("!=", Operator (binary (fun a b => Ok (VBool (negb (soft_equals a b))))));
    ("!==", Operator (binary (fun a b => e <- hard_equals a b ;; Ok (VBool (negb e)))));
    (">", Operator (binary (fun a b => boolean (less b a []))));
    (">=", Operator (binary (fun a b => boolean (greater_or_equal a b))));
    ("<", Operator (chained less));
    ("<=", Operator (chained less_or_equal));
    ("!", Operator (unary (fun a => Ok (VBool (negb (truthy a))))));
    ("!!", Operator (fun args =>
                       match args with
                       | [] => Ok (VBool false)
                       | [a] => Ok (VBool (truthy a))
                       | _ => Raise TypeError
                       end));
    ("%", Operator (binary py_mod));
    ("and", Operator (fun args => Ok (fold_left and_ args (VBool true))));
    ("or", Operator (fun args => Ok (fold_left or_ args (VBool false))));
    ("?:", Operator (ternary (fun a b c => Ok (if truthy a then b else c))));
    ("if", Selector if_);
    ("log", Operator (unary (fun a => Ok a)));
    ("in", Operator (binary (fun a b =>
                               if has_contains b then boolean (py_in a b)
                               else Ok (VBool false))));
    ("cat", Operator (fun args => Ok (VStr (String.concat "" (map py_str args)))));
    ("+", Operator plus);
    ("*", Operator (fun args => reduce times args (VInt 1)));
    ("-", Operator minus);
    ("/", Operator divide);
    ("min", Operator py_min);
    ("max", Operator py_max);
    ("merge", Operator (fun args => Ok (VList (merge args))));
    ("count", Operator (fun args =>
                          Ok (VInt (Z.of_nat (List.length (filter truthy args))))))
  ].

(** [operations[name]], with [None] for [name not in operations] *)
Fixpoint table_get (name : string) (table : list (string * callable))
  : option callable :=
  match table with
  | [] => None
  | (k, f) :: r => if String.eqb name k then Some f else table_get name r
  end.

(** ** The evaluator [jsonLogic] *)

(** [data or {}] *)
Definition or_empty (data : value) : value :=
  if truthy data then data else VDict [].

(** [get_var(data, *new_values)] *)
Definition call_get_var (data : value) (new_values : list value) : result value :=
  match new_values with
  | [var_name] => get_var data var_name VNone
  | [var_name; not_found] => get_var data var_name not_found
  | _ => Raise TypeError
  end.

(** [missing_some(data, *new_values)] *)
Definition call_missing_some (data : value) (new_values : list value)
  : result (list value) :=
  match new_values with
  | [min_required; args] => missing_some data min_required args
  | _ => Raise TypeError
  end.

(** What [jsonLogic] does once the operands are evaluated: [new_values] are
    their values and [executed] their traces. *)
Definition dispatch (operator : string) (data : value)
  (new_values executed : list value) : result (value * value) :=
  let executed_logic := VDict [(operator, VList executed)] in
  if String.eqb operator "var" then
    v <- call_get_var data new_values ;; Ok (v, executed_logic)
  else if String.eqb operator "missing" then
    v <- missing data new_values ;; Ok (VList v, executed_logic)
  else if String.eqb operator "missing_some" then
    v <- call_missing_some data new_values ;; Ok (VList v, executed_logic)
  else
    match table_get operator operations with
    | None => Raise (ValueError (UnrecognizedOperation operator))
    | Some (Selector f) =>
        let '(result, branch_taken) := f new_values in
        match branch_taken with
        | None => Ok (result, VDict [])
        | Some k =>
            match nth_error executed k with
            | Some branch => Ok (result, branch)
            | None => Raise IndexError
            end
        end
    | Some (Operator f) => v <- f new_values ;; Ok (v, executed_logic)
    end.

(** The loop over the operands, for an evaluator [eval] of one operand. *)
Fixpoint eval_operands (eval : value -> result (value * value))
  (values : list value) : result (list value * list value) :=
  match values with
  | [] => Ok ([], [])
  | val :: rest =>
      '(v, executed) <- eval val ;;
      '(vs, es) <- eval_operands eval rest ;;
      Ok (v :: vs, executed :: es)
  end.

(** [jsonLogic(tests, data)]: the value and the executed logic.  The
    recursion follows the rule; the source has no counter of its depth. *)
Fixpoint jsonLogic (tests data : value) {struct tests} : result (value * value) :=
  match tests with
  | VDict kvs =>
      let data := or_empty data in
      match kvs with
      | [] => Raise IndexError
      | (operator, values) :: _ =>
          '(new_values, executed) <-
            match values with
            | VList vals =>
                (fix loop (vals : list value) : result (list value * list value) :=
                   match vals with
                   | [] => Ok ([], [])
                   | val :: rest =>
                       '(v, e) <- jsonLogic val data ;;
                       '(vs, es) <- loop rest ;;
                       Ok (v :: vs, e :: es)
                   end) vals
            | _ => '(v, e) <- jsonLogic values data ;; Ok ([v], [e])
            end ;;
          dispatch operator data new_values executed
      end
  | _ => Ok (tests, tests)
  end.

(** [values], made a list when it is not one *)
Definition operands (values : value) : list value :=
  match values with
  | VList vals => vals
  | _ => [values]
  end.

(** One activation of [jsonLogic], with [eval] for the recursive calls. *)
Definition activation (eval : value -> value -> result (value * value))
  (tests data : value) : result (value * value) :=
  match tests with
  | VDict kvs =>
      let data := or_empty data in
      match kvs with
      | [] => Raise IndexError
      | (operator, values) :: _ =>
          '(new_values, executed) <-
            eval_operands (fun val => eval val data) (operands values) ;;
          dispatch operator data new_values executed
      end
  | _ => Ok (tests, tests)
  end.

(** ** The interpreter's limit on nested calls

    The source keeps no count of its recursion.  The interpreter counts the
    calls that are under way and raises [RecursionError] at a call beyond
    its limit; no handler of the source catches that error.  A call of a
    function, of a lambda or of a generator expression of the source counts
    for one.  A call with the wrong number of arguments raises [TypeError]
    before it is under way and counts for none. *)

(** The [b] that [less] passes on to [less(b, *args)], after
    [a, b = float(a), float(b)]. *)
Definition passed_on (a b : value) : value :=
  if float_or_int a b then
    match py_float b with
    | Ok y => VFloat y
    | Raise _ => b
    end
  else b.

(** The calls nested by [less(a, b, *args)], its own included: [less] calls
    itself on the rest of the chain when [a < b] holds and arguments
    remain. *)
Fixpoint less_calls (a b : value) (args : list value) {struct args} : nat :=
  S (match less a b [], args with
     | Ok true, c :: rest => less_calls (passed_on a b) c rest
     | _, _ => O
     end).

(** The calls nested by [less_or_equal(a, b, *args)]: under its own call,
    [less(a, b)] and [soft_equals(a, b)], then [less_or_equal(b, *args)]
    when the comparison holds and arguments remain. *)
Fixpoint less_or_equal_calls (a b : value) (args : list value) {struct args}
  : nat :=
  S (match less a b [], args with
     | Ok lt, c :: rest =>
         if lt || soft_equals a b then less_or_equal_calls b c rest else 1%nat
     | _, _ => 1%nat
     end).

(** [hard_equals(a, b)] calls [almost_equal] when the types agree and
    [a == b] does not hold. *)
Definition hard_equals_calls (a b : value) : nat :=
  if negb (pytype_eqb (type_of a) (type_of b)) then 1%nat
  else if py_eq a b then 1%nat
  else 2%nat.

(** [missing(data, *args)] calls [get_var] when there is a name. *)
Definition missing_calls (args : list value) : nat :=
  match (match args with VList names :: _ => names | _ => args end) with
  | [] => 1%nat
  | _ :: _ => 2%nat
  end.

(** [missing_some(data, min_required, args)] calls [get_var] when
    [min_required < 1] is false and there is a name. *)
Definition missing_some_calls (new_values : list value) : nat :=
  match new_values with
  | [min_required; args] =>
      match py_lt min_required (VInt 1) with
      | Ok false =>
          match py_iter args with
          | Ok (_ :: _) => 2%nat
          | _ => 1%nat
          end
      | _ => 1%nat
      end
  | _ => O
  end.

Definition one_argument (n : nat) (args : list value) : nat :=
  match args with
  | [_] => n
  | _ => O
  end.

Definition two_arguments (f : value -> value -> nat) (args : list value) : nat :=
  match args with
  | [a; b] => f a b
  | _ => O
  end.

Definition chain_of_arguments (f : value -> value -> list value -> nat)
  (args : list value) : nat :=
  match args with
  | a :: b :: rest => f a b rest
  | _ => O
  end.

(** A function that is called once for each argument, under the call of
    the operator and of what iterates: the lambda of [reduce], and
    [to_numeric] under the generator expression of [plus]. *)
Definition per_argument (none some : nat) (args : list value) : nat :=
  match args with
  | [] => none
  | _ :: _ => some
  end.

(** The calls nested by the call of [operations[operator]], entry by entry of
    the table: the function or lambda of the entry, and under it the
    functions, lambdas and generator expressions of the source that it
    calls.  [bool] is no function of the source.  [logger.info] counts for
    the one call that the source makes. *)
Definition operation_calls : list (string * (list value -> nat)) :=
  [ ("==", two_arguments (fun _ _ => 1%nat));
    ("===", two_arguments hard_equals_calls);
    ("!=", two_arguments (fun _ _ => 2%nat));
    ("!==", two_arguments (fun a b => S (hard_equals_calls a b)));
    (">", two_arguments (fun _ _ => 2%nat));
    (">=", two_arguments (fun _ _ => 2%nat));
    ("<", chain_of_arguments less_calls);
    ("<=", chain_of_arguments less_or_equal_calls);
    ("!", one_argument 1);
    ("!!", fun _ => O);
    ("%", two_arguments (fun _ _ => 1%nat));
    ("and", per_argument 1 2);
    ("or", per_argument 1 2);
    ("?:", fun args => match args with [_; _; _] => 1%nat | _ => O end);
    ("if", fun _ => 1%nat);
    ("log", one_argument 2);
    ("in", two_arguments (fun _ _ => 1%nat));
    ("cat", fun _ => 2%nat);
    ("+", per_argument 2 3);
    ("*", per_argument 1 2);
    ("-", per_argument 1 2);
    ("/", fun args => match args with [_] | [_; _] => 1%nat | _ => O end);
    ("min", fun _ => 1%nat);
    ("max", fun _ => 1%nat);
    ("merge", fun _ => 1%nat);
    ("count", fun _ => 2%nat)
  ].

Fixpoint calls_get (name : string) (table : list (string * (list value -> nat)))
  : option (list value -> nat) :=
  match table with
  | [] => None
  | (k, f) :: r => if String.eqb name k then Some f else calls_get name r
  end.

(** The calls nested by the operator that [jsonLogic] calls on
    [new_values]; an operator that is not recognized is not called. *)
Definition calls (operator : string) (new_values : list value) : nat :=
  if String.eqb operator "var" then
    match new_values with
    | [_] | [_; _] => 1%nat
    | _ => O
    end
  else if String.eqb operator "missing" then missing_calls new_values
  else if String.eqb operator "missing_some" then missing_some_calls new_values
  else
    match calls_get operator operation_calls with
    | Some f => f new_values
    | None => O
    end.

(** What the source does not show: the nested calls that the interpreter
    counts inside the builtins and the library functions, which depend on
    the interpreter and its version.  [body_calls tests] is the count for
    the builtins that the body of [jsonLogic] calls on [tests]
    ([isinstance], [list]), and [builtin_calls operator new_values] the
    count, beyond [calls], inside the builtins and the library functions
    that the operator calls ([float], [str], [==] and [repr] on nested
    values, [reduce], [sum], [logger.info]). *)
Record accounting : Type := {
  body_calls : value -> nat;
  builtin_calls : string -> list value -> nat
}.

(** One activation of [jsonLogic] with [remaining] further nested calls
    allowed, and [eval] for the recursive calls. *)
Definition activation_within (counted : accounting) (remaining : nat)
  (eval : value -> value -> result (value * value))
  (tests data : value) : result (value * value) :=
  if (remaining <? body_calls counted tests)%nat then Raise RecursionError
  else
    match tests with
    | VDict kvs =>
        let data := or_empty data in
        match kvs with
        | [] => Raise IndexError
        | (operator, values) :: _ =>
            '(new_values, executed) <-
              eval_operands (fun val => eval val data) (operands values) ;;
            if (remaining
                <? calls operator new_values
                   + builtin_calls counted operator new_values)%nat
            then Raise RecursionError
            else dispatch operator data new_values executed
        end
    | _ => Ok (tests, tests)
    end.

(** The evaluator run by an interpreter that allows [frames] nested calls
    and raises [RecursionError] beyond: the limit is the interpreter's
    ([sys.getrecursionlimit()] less the depth of the caller).  Each
    activation of [jsonLogic] is a call, each operand is evaluated by a call
    nested in it, and the operator is called when the operands are
    evaluated. *)
Fixpoint jsonLogic_within (counted : accounting) (frames : nat)
  (tests data : value) : result (value * value) :=
  match frames with
  | O => Raise RecursionError
  | S remaining =>
      activation_within counted remaining (jsonLogic_within counted remaining)
        tests data
  end.

(** The nested activations of [jsonLogic] that the evaluation of [tests]
    takes when no operand raises: one for [tests], and under it those of
    the operand that takes the most. *)
Fixpoint nesting (tests : value) : nat :=
  match tests with
  | VDict ((_, values) :: _) =>
      S (match values with
         | VList vals => fold_right (fun val n => Nat.max (nesting val) n) O vals
         | _ => nesting values
         end)
  | _ => 1%nat
  end.

(** The rule [{"<": [0, 1, ..., n - 1]}]: one comparison chained over [n]
    operands. *)
Definition ascending (n : nat) : value :=
  VDict [("<", VList (map (fun i => VInt (Z.of_nat i)) (seq 0 n)))].


(** The nesting of operation nodes along the operands that the evaluator
    visits. *)
Fixpoint depth (tests : value) : nat :=
  match tests with
  | VDict ((_, values) :: _) =>
      S (match values with
         | VList vals => fold_right (fun val d => Nat.max (depth val) d) O vals
         | _ => depth values
         end)
  | _ => O
  end.

(** ** Notions used by the statements *)

(** [tests is None or not isinstance(tests, dict)]: a rule that is not an
    operation node. *)
Definition primitive (tests : value) : bool :=
  match tests with
  | VDict _ => false
  | _ => true
  end.

(** No operation node without a key among the nodes that the evaluator
    visits: the node itself, and the operands of an operation node. *)
Fixpoint no_empty_node (tests : value) : bool :=
  match tests with
  | VDict [] => false
  | VDict ((_, values) :: _) =>
      match values with
      | VList vals => forallb no_empty_node vals
      | _ => no_empty_node values
      end
  | _ => true
  end.

(** The rule [true] under [n] negations: an operation node of depth [n]. *)
Fixpoint negations (n : nat) : value :=
  match n with
  | O => VBool true
  | S n' => VDict [("!", VList [negations n'])]
  end.

(** The rule [{"if": operands}] *)
Definition if_rule (operands : list value) : value :=
  VDict [("if", VList operands)].

(** The conditions of an [if] stand at the even positions that have a
    successor; [first_truthy vals i] says that the condition at [i] is the
    first truthy one. *)
Definition first_truthy (vals : list value) (i : nat) : Prop :=
  Nat.even i = true
  /\ (exists cond, nth_error vals i = Some cond /\ truthy cond = true)
  /\ (S i < List.length vals)%nat
  /\ forall j cond, (j < i)%nat -> Nat.even j = true ->
       nth_error vals j = Some cond -> truthy cond = false.

Definition no_truthy (vals : list value) : Prop :=
  forall j cond, Nat.even j = true -> (S j < List.length vals)%nat ->
    nth_error vals j = Some cond -> truthy cond = false.

(** The rule of the specification's example: freezing, liquid or gas. *)
Definition temperature_operands : list value :=
  [ VDict [("<", VList [VDict [("var", VStr "temp")]; VInt 0])];
    VStr "freezing";
    VDict [("<", VList [VDict [("var", VStr "temp")]; VInt 100])];
    VStr "liquid";
    VStr "gas" ].

Definition temperature_results : list (value * value) :=
  [ (VBool false, VDict [("<", VList [VDict [("var", VList [VStr "temp"])]; VInt 0])]);
    (VStr "freezing", VStr "freezing");
    (VBool true, VDict [("<", VList [VDict [("var", VList [VStr "temp"])]; VInt 100])]);
    (VStr "liquid", VStr "liquid");
    (VStr "gas", VStr "gas") ].

(** The names whose lookup failed, in order, and the number of names found,
    when the lookup of each name is decided: [true] flags a lookup that
    failed. *)
Fixpoint failed_names (names : list value) (flags : list bool) : list value :=
  match names, flags with
  | name :: names', true :: flags' => name :: failed_names names' flags'
  | _ :: names', false :: flags' => failed_names names' flags'
  | _, _ => []
  end.

Definition found_count (flags : list bool) : Z :=
  Z.of_nat (List.length (filter negb flags)).

(** A result other than the interpreter's [RecursionError]. *)
Definition plain {A : Type} (r : result A) : Prop := r <> Raise RecursionError.

(** ** Notions used by the further properties *)

(** [isinstance(values, list)] *)
Definition is_sequence (values : value) : bool :=
  match values with
  | VList _ => true
  | _ => false
  end.

(** The operator is one that [jsonLogic] handles itself or a key of
    [operations]. *)
Definition recognized (operator : string) : bool :=
  String.eqb operator "var" || String.eqb operator "missing"
  || String.eqb operator "missing_some"
  || match table_get operator operations with
     | Some _ => true
     | None => false
     end.

(** The rule [{operator: operands}] *)
Definition node (operator : string) (operands : list value) : value :=
  VDict [(operator, VList operands)].

(** The first operand with the truth value [wanted], or the last operand,
    or [start] when there is no operand. *)
Definition first_or_last (wanted : bool) (start : value) (args : list value)
  : value :=
  match find (fun arg => Bool.eqb (truthy arg) wanted) args with
  | Some arg => arg
  | None => last args start
  end.

(** No segment of the path [str(name)] reads as an integer. *)
Definition no_index (name : value) : bool :=
  forallb (fun key => match int_of_string key with
                      | None => true
                      | Some _ => false
                      end)
    (split_dot (py_str name)).

(** The lookup of [name] fails with an error that [get_var] handles. *)
Definition lookup_fails (data name : value) : bool :=
  match not_found_in data name with
  | Ok true => true
  | _ => false
  end.

(** The operators that take any number of operands of any kind. *)
Definition lenient_operators : list string :=
  ["and"; "or"; "merge"; "count"].

Definition sum_Z (ns : list Z) : Z := fold_right Z.add 0 ns.

(** The operators that [jsonLogic] gives the data context to. *)
Definition reads_data (operator : string) : bool :=
  String.eqb operator "var" || String.eqb operator "missing"
  || String.eqb operator "missing_some".

(** No operator that reads the data context among the nodes that the
    evaluator visits. *)
Fixpoint data_free (tests : value) : bool :=
  match tests with
  | VDict ((operator, values) :: _) =>
      negb (reads_data operator)
      && match values with
         | VList vals => forallb data_free vals
         | _ => data_free values
         end
  | _ => true
  end.

(** The deepest of the rules [vals] *)
Definition deepest (vals : list value) : nat :=
  fold_right (fun val d => Nat.max (depth val) d) O vals.

(** The digits of the longest integer that [str] and [int] convert
    ([sys.int_info.default_max_str_digits]); the conversions are modelled
    within that limit. *)
Definition max_str_digits : Z := 4300.

(** The characters of a numeral *)
Definition digits_of (d : Decimal.uint) : list ascii :=
  list_ascii_of_string (NilEmpty.string_of_uint d).

(** * Properties *)

(** ** Induction over values *)

(** The induction that reaches the items of a list and of a dictionary. *)
Lemma value_nested_ind (P : value -> Prop)
  (HNone : P VNone)
  (HBool : forall b, P (VBool b))
  (HInt : forall n, P (VInt n))
  (HFloat : forall x, P (VFloat x))
  (HStr : forall s, P (VStr s))
  (HList : forall xs, Forall P xs -> P (VList xs))
  (HDict : forall kvs, Forall (fun kv => P (snd kv)) kvs -> P (VDict kvs)) :
  forall v, P v.
Proof.
  fix IH 1.
  intros [ | b | n | x | s | xs | kvs ].
  - exact HNone.
  - apply HBool.
  - apply HInt.
  - apply HFloat.
  - apply HStr.
  - apply HList. induction xs as [ | y ys IHys ]; constructor.
    + apply IH.
    + exact IHys.
  - apply HDict. induction kvs as [ | [k y] r IHr ]; constructor.
    + apply IH.
    + exact IHr.
Qed.

(** A property of every rule may assume it for the operands of the rule. *)
Lemma rule_ind (P : value -> Prop)
  (HPrim : forall tests, primitive tests = true -> P tests)
  (HEmpty : P (VDict []))
  (HNode : forall operator values others,
      Forall P (operands values) -> P (VDict ((operator, values) :: others))) :
  forall tests, P tests.
Proof.
  intros tests.
  enough (H : P tests /\ forall vals, tests = VList vals -> Forall P vals)
    by apply H.
  induction tests as [ | b | n | x | s | xs IHxs | kvs IHkvs ]
    using value_nested_ind;
    try (split; [ apply HPrim; reflexivity | discriminate ]).
  - split.
    + apply HPrim. reflexivity.
    + intros vals E. injection E as <-.
      eapply Forall_impl; [ | exact IHxs ]. intros v Hv. apply Hv.
  - split; [ | discriminate ].
    destruct kvs as [ | [operator values] others ].
    + exact HEmpty.
    + apply HNode. inversion IHkvs as [ | kv r [Hvalues Hitems] _ ]; subst.
      simpl in Hvalues, Hitems.
      destruct values; try (constructor; [ exact Hvalues | constructor ]).
      apply Hitems. reflexivity.
Qed.

(** ** The evaluator and its activations *)

Lemma or_empty_idempotent (data : value) :
  or_empty (or_empty data) = or_empty data.
Proof.
  unfold or_empty. destruct (truthy data) eqn:E.
  - rewrite E. reflexivity.
  - reflexivity.
Qed.

(** The recursive definition is the activation that calls itself. *)
Lemma jsonLogic_activation (tests data : value) :
  jsonLogic tests data = activation jsonLogic tests data.
Proof.
  destruct tests as [ | | | | | | [ | [operator values] others ] ];
    try reflexivity.
  assert (L : forall d vals,
             (fix loop (vals : list value) : result (list value * list value) :=
                match vals with
                | [] => Ok ([], [])
                | val :: rest =>
                    '(v, e) <- jsonLogic val d ;;
                    '(vs, es) <- loop rest ;;
                    Ok (v :: vs, e :: es)
                end) vals
             = eval_operands (fun val => jsonLogic val d) vals).
  { intros d vals. induction vals as [ | val rest IH ]; [ reflexivity | ].
    simpl. rewrite IH. reflexivity. }
  unfold activation, operands. simpl.
  destruct values; try rewrite L; try reflexivity;
    simpl; match goal with
           | |- context [ jsonLogic ?t ?d ] =>
               destruct (jsonLogic t d) as [ [v e] | err ]; reflexivity
           end.
Qed.

(** An operand is evaluated against [data or {}], which changes nothing. *)
Lemma jsonLogic_or_empty (tests data : value) :
  jsonLogic tests (or_empty data) = jsonLogic tests data.
Proof.
  rewrite !jsonLogic_activation.
  destruct tests as [ | | | | | | [ | [operator values] others ] ];
    try reflexivity.
  unfold activation. rewrite or_empty_idempotent. reflexivity.
Qed.

Lemma eval_operands_ext (f g : value -> result (value * value))
  (values : list value) :
  Forall (fun val => f val = g val) values ->
  eval_operands f values = eval_operands g values.
Proof.
  induction 1 as [ | val rest E _ IH ]; [ reflexivity | ].
  simpl. rewrite E, IH. reflexivity.
Qed.

(** The loop succeeds exactly when every operand does, and collects the
    values and the traces in order. *)
Lemma eval_operands_Forall2 (f : value -> result (value * value))
  (values : list value) (results : list (value * value)) :
  Forall2 (fun val r => f val = Ok r) values results ->
  eval_operands f values = Ok (map fst results, map snd results).
Proof.
  induction 1 as [ | val [v e] rest results E _ IH ]; [ reflexivity | ].
  simpl. rewrite E. simpl. rewrite IH. reflexivity.
Qed.

Lemma eval_operands_results (f : value -> result (value * value))
  (values new_values executed : list value) :
  eval_operands f values = Ok (new_values, executed) ->
  Forall2 (fun val r => f val = Ok r) values (combine new_values executed)
  /\ List.length new_values = List.length executed.
Proof.
  revert new_values executed.
  induction values as [ | val rest IH ]; intros new_values executed H.
  - injection H as <- <-. split; [ constructor | reflexivity ].
  - simpl in H. destruct (f val) as [ [v e] | err ] eqn:E; [ | discriminate ].
    simpl in H.
    destruct (eval_operands f rest) as [ [vs es] | err ] eqn:R; [ | discriminate ].
    injection H as <- <-. destruct (IH _ _ eq_refl) as [F L].
    split; [ constructor; assumption | simpl; f_equal; exact L ].
Qed.

(** ** The numerals of the runtime

    [float()], [int()], [repr()] and [math.isclose] on known values. *)

Example float_literals :
  option_map float_repr (float_of_string "0.1") = Some "0.1"
  /\ option_map float_repr (float_of_string " 1_000.5e-2 ") = Some "10.005"
  /\ option_map float_repr (float_of_string "1e16") = Some "1e+16"
  /\ option_map float_repr (float_of_string "0.00001") = Some "1e-05"
  /\ option_map float_repr (float_of_string "-Infinity") = Some "-inf"
  /\ option_map float_repr (float_of_string "1e400") = Some "inf"
  /\ option_map float_repr (float_of_string "9007199254740993")
     = Some "9007199254740992.0"
  /\ float_of_string "abc" = None
  /\ float_of_string "1e" = None
  /\ float_of_string "1__0" = None
  /\ float_of_string "" = None.
Proof. repeat split; vm_compute; reflexivity. Qed.

Example float_arithmetic :
  float_repr (fadd (float_of_decimal false 1 (-1)) (float_of_decimal false 2 (-1)))
  = "0.30000000000000004"
  /\ float_repr (fdiv (float_of_Z 1) (float_of_Z 3)) = "0.3333333333333333"
  /\ float_repr (float_rem (float_of_Z 5) (float_of_Z (-3))) = "-1.0"
  /\ float_of_int (2 ^ 1024) = Raise OverflowError
  /\ rel_tol = S754_finite false 4835703278458517 (-82).
Proof. repeat split; vm_compute; reflexivity. Qed.

Example int_literals :
  int_of_string " 12 " = Some 12
  /\ int_of_string "-0" = Some 0
  /\ int_of_string "1_000" = Some 1000
  /\ int_of_string "" = None
  /\ int_of_string "1.0" = None
  /\ int_of_string "_1" = None.
Proof. repeat split; reflexivity. Qed.

Example text_of_values :
  py_str (VList [VFloat (float_of_decimal false 15 (-1)); VStr "a"; VNone;
                 VBool true; VDict [("k", VList [VInt 1])]])
  = "[1.5, 'a', None, True, {'k': [1]}]".
Proof. vm_compute. reflexivity. Qed.

(** ** The tests of the repository

    The assertions of [tests.py], evaluated in the embedding. *)

Example test_var :
  jsonLogic (VDict [("var", VList [VStr "a"])]) (VDict [("a", VInt 1); ("b", VInt 2)])
  = Ok (VInt 1, VDict [("var", VList [VStr "a"])])
  /\ jsonLogic (VDict [("var", VStr "a")]) (VDict [("a", VInt 1); ("b", VInt 2)])
     = Ok (VInt 1, VDict [("var", VList [VStr "a"])])
  /\ jsonLogic (VDict [("var", VList [VStr "z"; VInt 26])])
       (VDict [("a", VInt 1); ("b", VInt 2)])
     = Ok (VInt 26, VDict [("var", VList [VStr "z"; VInt 26])])
  /\ jsonLogic (VDict [("var", VStr "champ.name")])
       (VDict [("champ", VDict [("name", VStr "Fezzig"); ("height", VInt 223)]);
               ("challenger", VDict [("name", VStr "Dread Pirate Roberts");
                                     ("height", VInt 183)])])
     = Ok (VStr "Fezzig", VDict [("var", VList [VStr "champ.name"])])
  /\ jsonLogic (VDict [("var", VInt 1)])
       (VList [VStr "apple"; VStr "banana"; VStr "carrot"])
     = Ok (VStr "banana", VDict [("var", VList [VInt 1])]).
Proof. repeat split; reflexivity. Qed.

Example test_missing :
  jsonLogic (VDict [("missing", VList [VStr "a"; VStr "b"])])
    (VDict [("a", VStr "apple"); ("c", VStr "carrot")])
  = Ok (VList [VStr "b"], VDict [("missing", VList [VStr "a"; VStr "b"])])
  /\ jsonLogic (VDict [("missing", VList [VStr "a"; VStr "b"])])
       (VDict [("a", VStr "apple"); ("b", VStr "banana")])
     = Ok (VList [], VDict [("missing", VList [VStr "a"; VStr "b"])])
  /\ jsonLogic (VDict [("if", VList [VDict [("missing", VList [VStr "a"; VStr "b"])];
                                     VStr "Not enough fruit"; VStr "OK to proceed"])])
       (VDict [("a", VStr "apple"); ("b", VStr "banana")])
     = Ok (VStr "OK to proceed", VStr "OK to proceed").
Proof. repeat split; reflexivity. Qed.

Example test_missing_some :
  jsonLogic (VDict [("missing_some", VList [VInt 1; VList [VStr "a"; VStr "b"; VStr "c"]])])
    (VDict [("a", VStr "apple")])
  = Ok (VList [],
        VDict [("missing_some", VList [VInt 1; VList [VStr "a"; VStr "b"; VStr "c"]])])
  /\ jsonLogic (VDict [("missing_some", VList [VInt 2; VList [VStr "a"; VStr "b"; VStr "c"]])])
       (VDict [("a", VStr "apple")])
     = Ok (VList [VStr "b"; VStr "c"],
           VDict [("missing_some", VList [VInt 2; VList [VStr "a"; VStr "b"; VStr "c"]])])
  /\ jsonLogic
       (VDict [("if", VList
          [VDict [("merge", VList
             [VDict [("missing", VList [VStr "first_name"; VStr "last_name"])];
              VDict [("missing_some",
                      VList [VInt 1; VList [VStr "cell_phone"; VStr "home_phone"]])]])];
           VStr "We require first name, last name, and one phone number.";
           VStr "OK to proceed"])])
       (VDict [("first_name", VStr "Bruce"); ("last_name", VStr "Wayne")])
     = Ok (VStr "We require first name, last name, and one phone number.",
           VStr "We require first name, last name, and one phone number.").
Proof. repeat split; reflexivity. Qed.

Example test_if :
  jsonLogic (VDict [("if", VList [VBool true; VStr "yes"; VStr "no"])]) VNone
  = Ok (VStr "yes", VStr "yes")
  /\ jsonLogic (VDict [("if", VList [VBool false; VStr "yes"; VStr "no"])]) VNone
     = Ok (VStr "no", VStr "no")
  /\ jsonLogic (if_rule temperature_operands) (VDict [("temp", VInt 200)])
     = Ok (VStr "gas", VStr "gas").
Proof. repeat split; reflexivity. Qed.

Example test_equality :
  jsonLogic (VDict [("==", VList [VInt 1; VInt 1])]) VNone
  = Ok (VBool true, VDict [("==", VList [VInt 1; VInt 1])])
  /\ jsonLogic (VDict [("==", VList [VInt 1; VStr "1"])]) VNone
     = Ok (VBool true, VDict [("==", VList [VInt 1; VStr "1"])])
  /\ jsonLogic (VDict [("==", VList [VInt 0; VBool false])]) VNone
     = Ok (VBool true, VDict [("==", VList [VInt 0; VBool false])])
  /\ jsonLogic (VDict [("===", VList [VInt 1; VInt 1])]) VNone
     = Ok (VBool true, VDict [("===", VList [VInt 1; VInt 1])])
  /\ jsonLogic (VDict [("===", VList [VInt 1; VStr "1"])]) VNone
     = Ok (VBool false, VDict [("===", VList [VInt 1; VStr "1"])])
  /\ jsonLogic (VDict [("!=", VList [VInt 1; VInt 2])]) VNone
     = Ok (VBool true, VDict [("!=", VList [VInt 1; VInt 2])])
  /\ jsonLogic (VDict [("!=", VList [VInt 1; VStr "1"])]) VNone
     = Ok (VBool false, VDict [("!=", VList [VInt 1; VStr "1"])])
  /\ jsonLogic (VDict [("!==", VList [VInt 1; VInt 2])]) VNone
     = Ok (VBool true, VDict [("!==", VList [VInt 1; VInt 2])])
  /\ jsonLogic (VDict [("!==", VList [VInt 1; VStr "1"])]) VNone
     = Ok (VBool true, VDict [("!==", VList [VInt 1; VStr "1"])]).
Proof. repeat split; reflexivity. Qed.

Example test_not :
  jsonLogic (VDict [("!", VList [VBool true])]) VNone
  = Ok (VBool false, VDict [("!", VList [VBool true])])
  /\ jsonLogic (VDict [("!", VBool true)]) VNone
     = Ok (VBool false, VDict [("!", VList [VBool true])]).
Proof. repeat split; reflexivity. Qed.

Example test_or_and :
  jsonLogic (VDict [("or", VList [VBool true; VBool false])]) VNone
  = Ok (VBool true, VDict [("or", VList [VBool true; VBool false])])
  /\ jsonLogic (VDict [("or", VList [VBool false; VStr "apple"])]) VNone
     = Ok (VStr "apple", VDict [("or", VList [VBool false; VStr "apple"])])
  /\ jsonLogic (VDict [("or", VList [VBool false; VNone; VStr "apple"])]) VNone
     = Ok (VStr "apple", VDict [("or", VList [VBool false; VNone; VStr "apple"])])
  /\ jsonLogic (VDict [("and", VList [VBool true; VBool true; VBool true; VBool false])])
       VNone
     = Ok (VBool false,
           VDict [("and", VList [VBool true; VBool true; VBool true; VBool false])])
  /\ jsonLogic (VDict [("and", VList [VBool true; VStr "apple"; VBool false])]) VNone
     = Ok (VBool false, VDict [("and", VList [VBool true; VStr "apple"; VBool false])])
  /\ jsonLogic (VDict [("and", VList [VBool true; VStr "apple";
                                      VFloat (float_of_decimal false 314 (-2))])]) VNone
     = Ok (VFloat (float_of_decimal false 314 (-2)),
           VDict [("and", VList [VBool true; VStr "apple";
                                 VFloat (float_of_decimal false 314 (-2))])]).
Proof. repeat split; reflexivity. Qed.

Example test_cmp_between :
  jsonLogic (VDict [(">", VList [VInt 2; VInt 1])]) VNone
  = Ok (VBool true, VDict [(">", VList [VInt 2; VInt 1])])
  /\ jsonLogic (VDict [(">=", VList [VInt 1; VInt 1])]) VNone
     = Ok (VBool true, VDict [(">=", VList [VInt 1; VInt 1])])
  /\ jsonLogic (VDict [("<", VList [VInt 1; VInt 2; VInt 3])]) VNone
     = Ok (VBool true, VDict [("<", VList [VInt 1; VInt 2; VInt 3])])
  /\ jsonLogic (VDict [("<", VList [VInt 1; VInt 1; VInt 3])]) VNone
     = Ok (VBool false, VDict [("<", VList [VInt 1; VInt 1; VInt 3])])
  /\ jsonLogic (VDict [("<", VList [VInt 1; VInt 4; VInt 3])]) VNone
     = Ok (VBool false, VDict [("<", VList [VInt 1; VInt 4; VInt 3])])
  /\ jsonLogic (VDict [("<=", VList [VInt 1; VInt 1; VInt 3])]) VNone
     = Ok (VBool true, VDict [("<=", VList [VInt 1; VInt 1; VInt 3])])
  /\ jsonLogic (VDict [("<=", VList [VInt 1; VInt 4; VInt 3])]) VNone
     = Ok (VBool false, VDict [("<=", VList [VInt 1; VInt 4; VInt 3])])
  /\ jsonLogic (VDict [("<", VList [VInt 0; VDict [("var", VStr "temp")]; VInt 100])])
       (VDict [("temp", VInt 37)])
     = Ok (VBool true,
           VDict [("<", VList [VInt 0; VDict [("var", VList [VStr "temp"])]; VInt 100])]).
Proof. repeat split; vm_compute; reflexivity. Qed.

Example test_arithmetic :
  jsonLogic (VDict [("max", VList [VInt 1; VInt 2; VInt 3])]) VNone
  = Ok (VInt 3, VDict [("max", VList [VInt 1; VInt 2; VInt 3])])
  /\ jsonLogic (VDict [("min", VList [VInt 1; VInt 2; VInt 3])]) VNone
     = Ok (VInt 1, VDict [("min", VList [VInt 1; VInt 2; VInt 3])])
  /\ jsonLogic (VDict [("+", VList [VInt 1; VInt 1; VInt 1; VInt 1; VInt 1])]) VNone
     = Ok (VInt 5, VDict [("+", VList [VInt 1; VInt 1; VInt 1; VInt 1; VInt 1])])
  /\ jsonLogic (VDict [("*", VList [VInt 2; VInt 3])]) VNone
     = Ok (VFloat (float_of_Z 6), VDict [("*", VList [VInt 2; VInt 3])])
  /\ py_eq (VFloat (float_of_Z 6)) (VInt 6) = true
  /\ jsonLogic (VDict [("-", VList [VInt 3; VInt 2])]) VNone
     = Ok (VInt 1, VDict [("-", VList [VInt 3; VInt 2])])
  /\ jsonLogic (VDict [("-", VList [VInt 2])]) VNone
     = Ok (VInt (-2), VDict [("-", VList [VInt 2])])
  /\ jsonLogic (VDict [("/", VList [VInt 2; VInt 4])]) VNone
     = Ok (VFloat (float_of_decimal false 5 (-1)), VDict [("/", VList [VInt 2; VInt 4])])
  /\ jsonLogic (VDict [("+", VStr "0")]) VNone
     = Ok (VInt 0, VDict [("+", VList [VStr "0"])])
  /\ jsonLogic (VDict [("%", VList [VInt 101; VInt 2])]) VNone
     = Ok (VInt 1, VDict [("%", VList [VInt 101; VInt 2])]).
Proof. repeat split; vm_compute; reflexivity. Qed.

Example test_merge :
  jsonLogic (VDict [("merge", VList [VInt 1; VInt 2; VList [VInt 3; VInt 4]])]) VNone
  = Ok (VList [VInt 1; VInt 2; VInt 3; VInt 4],
        VDict [("merge", VList [VInt 1; VInt 2; VList [VInt 3; VInt 4]])])
  /\ jsonLogic
       (VDict [("missing",
                VDict [("merge", VList
                  [VStr "vin";
                   VDict [("if", VList [VDict [("var", VStr "financing")];
                                        VList [VStr "apr"; VStr "term"]; VList []])]])])])
       (VDict [("financing", VBool true)])
     = Ok (VList [VStr "vin"; VStr "apr"; VStr "term"],
           VDict [("missing",
                   VList [VDict [("merge",
                                  VList [VStr "vin"; VList [VStr "apr"; VStr "term"]])]])])
  /\ jsonLogic
       (VDict [("missing",
                VDict [("merge", VList
                  [VStr "vin";
                   VDict [("if", VList [VDict [("var", VStr "financing")];
                                        VList [VStr "apr"; VStr "term"]; VList []])]])])])
       (VDict [("financing", VBool false)])
     = Ok (VList [VStr "vin"],
           VDict [("missing",
                   VList [VDict [("merge", VList [VStr "vin"; VList []])]])]).
Proof. repeat split; reflexivity. Qed.

Example test_in_cat_log :
  jsonLogic (VDict [("in", VList [VStr "Spring"; VStr "Springfield"])]) VNone
  = Ok (VBool true, VDict [("in", VList [VStr "Spring"; VStr "Springfield"])])
  /\ jsonLogic (VDict [("cat", VList [VStr "I love "; VDict [("var", VStr "filling")];
                                      VStr " pie"])])
       (VDict [("filling", VStr "apple"); ("temp", VInt 110)])
     = Ok (VStr "I love apple pie",
           VDict [("cat", VList [VStr "I love "; VDict [("var", VList [VStr "filling"])];
                                 VStr " pie"])])
  /\ jsonLogic (VDict [("log", VStr "apple")]) VNone
     = Ok (VStr "apple", VDict [("log", VList [VStr "apple"])]).
Proof. repeat split; reflexivity. Qed.

(** ** Primitive rules *)

(** The first test of [jsonLogic]: what is not a dictionary is returned. *)
Lemma jsonLogic_not_dict (tests data : value) :
  primitive tests = true -> jsonLogic tests data = Ok (tests, tests).
Proof.
  destruct tests; simpl; intros H; try reflexivity. discriminate H.
Qed.

(** C7.  A rule that is not an operation node (null, a boolean, a number, a
    string or a sequence) evaluates, against every data context, to itself
    as the value and to itself as the trace. *)
Theorem jsonLogic_primitive (rule data : value) :
  primitive rule = true -> jsonLogic rule data = Ok (rule, rule).
Proof.
  apply jsonLogic_not_dict.
Qed.

Lemma jsonLogic_primitive_witness :
  primitive (VList [VInt 1; VDict [("var", VStr "a")]]) = true
  /\ jsonLogic (VList [VInt 1; VDict [("var", VStr "a")]]) (VDict [("a", VInt 2)])
     = Ok (VList [VInt 1; VDict [("var", VStr "a")]],
           VList [VInt 1; VDict [("var", VStr "a")]]).
Proof.
  split.
  - reflexivity.
  - apply (jsonLogic_primitive (VList [VInt 1; VDict [("var", VStr "a")]])).
    reflexivity.
Defined.

(** ** Errors *)

Example unknown_variable_error :
  jsonLogic (VDict [("var", VStr "z")]) (VDict [("a", VInt 1)])
  = Raise (ValueError (UnknownVariable "z")).
Proof. reflexivity. Qed.

Example unrecognized_operator_error :
  jsonLogic (VDict [("bogus", VList [VInt 1; VInt 2])]) VNone
  = Raise (ValueError (UnrecognizedOperation "bogus")).
Proof. reflexivity. Qed.




(** ** [and] and [or] without operands *)

(** C10.  Against every data context, [{"and": []}] evaluates to [true] and
    [{"or": []}] to [false], the initial values of the two folds; the trace
    is the rule. *)
Theorem jsonLogic_and_or_empty (data : value) :
  jsonLogic (VDict [("and", VList [])]) data
  = Ok (VBool true, VDict [("and", VList [])])
  /\ jsonLogic (VDict [("or", VList [])]) data
     = Ok (VBool false, VDict [("or", VList [])]).
Proof.
  split; reflexivity.
Qed.

(** The folds return the first falsy (truthy) operand, or the last one. *)
Lemma fold_and_falsy (total : value) (args : list value) :
  truthy total = false -> fold_left and_ args total = total.
Proof.
  revert total. induction args as [ | arg rest IH ]; intros total H.
  - reflexivity.
  - simpl. unfold and_ at 2. rewrite H. apply IH, H.
Qed.

Lemma fold_or_truthy (total : value) (args : list value) :
  truthy total = true -> fold_left or_ args total = total.
Proof.
  revert total. induction args as [ | arg rest IH ]; intros total H.
  - reflexivity.
  - simpl. unfold or_ at 2. rewrite H. apply IH, H.
Qed.

(** ** The selector [if_] *)

Lemma list_pairs_ind (A : Type) (P : list A -> Prop)
  (H0 : P [])
  (H1 : forall x, P [x])
  (H2 : forall x y l, P l -> P (x :: y :: l)) :
  forall l, P l.
Proof.
  intros l. enough (H : P l /\ forall x, P (x :: l)) by apply H.
  induction l as [ | y l [IHl IHcons] ].
  - split; [ exact H0 | exact H1 ].
  - split; [ apply IHcons | intros x; apply H2, IHl ].
Qed.

(** The position that [if_] returns holds the value that it returns. *)
Lemma if_from_position (args : list value) :
  forall i result k,
    if_from i args = (result, Some k) ->
    (i <= k)%nat /\ nth_error args (k - i) = Some result.
Proof.
  induction args as [ | last | cond res rest IH ] using list_pairs_ind;
    intros i result k H; simpl in H.
  - discriminate.
  - injection H as <- <-. rewrite Nat.sub_diag. split; [ lia | reflexivity ].
  - destruct (truthy cond).
    + injection H as <- <-. replace (S i - i)%nat with 1%nat by lia.
      split; [ lia | reflexivity ].
    + destruct (IH _ _ _ H) as [Hle Hnth]. split; [ lia | ].
      replace (k - i)%nat with (S (S (k - S (S i))))%nat by lia. exact Hnth.
Qed.

Lemma if_position (args : list value) (result : value) (k : nat) :
  if_ args = (result, Some k) -> nth_error args k = Some result.
Proof.
  intros H. apply if_from_position in H. rewrite Nat.sub_0_r in H. apply H.
Qed.

(** The first truthy condition selects the result that follows it. *)
Lemma if_from_first_truthy (args : list value) :
  forall k i,
    first_truthy args i ->
    exists result,
      nth_error args (S i) = Some result
      /\ if_from k args = (result, Some (k + S i)%nat).
Proof.
  induction args as [ | last | cond res rest IH ] using list_pairs_ind;
    intros k i (Heven & (c & Hc & Htrue) & Hlen & Hfirst).
  - simpl in Hlen. lia.
  - simpl in Hlen. lia.
  - destruct i as [ | [ | i ] ].
    + simpl in Hc. injection Hc as ->. exists res. simpl. rewrite Htrue.
      split; [ reflexivity | do 2 f_equal; lia ].
    + discriminate Heven.
    + assert (Hcond : truthy cond = false)
        by (apply (Hfirst 0%nat cond); [ lia | reflexivity | reflexivity ]).
      destruct (IH (S (S k)) i) as (result & Hres & Hif).
      { repeat split.
        - exact Heven.
        - exists c. split; assumption.
        - simpl in Hlen. lia.
        - intros j cj Hj Hej Hcj.
          apply (Hfirst (S (S j)) cj); [ lia | exact Hej | exact Hcj ]. }
      exists result. simpl. rewrite Hcond, Hif.
      split; [ exact Hres | do 2 f_equal; lia ].
Qed.

(** Conditions all falsy and no odd last argument: no branch. *)
Lemma if_from_no_truthy (args : list value) :
  forall k,
    no_truthy args -> Nat.even (List.length args) = true ->
    if_from k args = (VNone, None).
Proof.
  induction args as [ | last | cond res rest IH ] using list_pairs_ind;
    intros k Hno Heven.
  - reflexivity.
  - discriminate Heven.
  - assert (Hcond : truthy cond = false)
      by (apply (Hno 0%nat cond); [ reflexivity | simpl; lia | reflexivity ]).
    simpl. rewrite Hcond. apply IH.
    + intros j cj Hej Hlen Hcj.
      apply (Hno (S (S j)) cj); [ exact Hej | simpl; lia | exact Hcj ].
    + exact Heven.
Qed.

(** Conditions all falsy and an odd last argument: the else branch. *)
Lemma if_from_else (args : list value) :
  forall k,
    no_truthy args -> Nat.even (List.length args) = false ->
    exists last,
      nth_error args (List.length args - 1) = Some last
      /\ if_from k args = (last, Some (k + (List.length args - 1))%nat).
Proof.
  induction args as [ | last | cond res rest IH ] using list_pairs_ind;
    intros k Hno Hodd.
  - discriminate Hodd.
  - exists last. simpl. split; [ reflexivity | do 2 f_equal; lia ].
  - assert (Hcond : truthy cond = false)
      by (apply (Hno 0%nat cond); [ reflexivity | simpl; lia | reflexivity ]).
    destruct (IH (S (S k))) as (last & Hlast & Hif).
    + intros j cj Hej Hlen Hcj.
      apply (Hno (S (S j)) cj); [ exact Hej | simpl; lia | exact Hcj ].
    + exact Hodd.
    + exists last.
      assert (Hpos : (0 < List.length rest)%nat)
        by (destruct rest; [ discriminate Hodd | simpl; lia ]).
      split.
      * replace (List.length (cond :: res :: rest) - 1)%nat
          with (S (S (List.length rest - 1))) by (simpl; lia).
        exact Hlast.
      * simpl if_from. rewrite Hcond, Hif. do 2 f_equal. simpl. lia.
Qed.

Lemma Forall2_nth_error_right (A B : Type) (R : A -> B -> Prop)
  (l : list A) (l' : list B) :
  Forall2 R l l' ->
  forall n y, nth_error l' n = Some y ->
    exists x, nth_error l n = Some x /\ R x y.
Proof.
  induction 1 as [ | x y0 l l' Hxy _ IH ]; intros n y Hn.
  - destruct n; discriminate.
  - destruct n as [ | n ].
    + injection Hn as <-. exists x. split; [ reflexivity | exact Hxy ].
    + apply (IH n y Hn).
Qed.

(** The evaluation of [{"if": operands}] once the operands are evaluated. *)
Lemma jsonLogic_if (branches : list value) (data : value)
  (results : list (value * value)) :
  Forall2 (fun operand r => jsonLogic operand data = Ok r) branches results ->
  jsonLogic (if_rule branches) data
  = match if_ (map fst results) with
    | (result, None) => Ok (result, VDict [])
    | (result, Some k) =>
        match nth_error (map snd results) k with
        | Some branch => Ok (result, branch)
        | None => Raise IndexError
        end
    end.
Proof.
  intros H. unfold if_rule. rewrite jsonLogic_activation. unfold activation.
  cbn [operands].
  rewrite (eval_operands_Forall2 _ branches results).
  - reflexivity.
  - eapply Forall2_impl; [ | exact H ]. intros operand r E. simpl.
    rewrite jsonLogic_or_empty. exact E.
Qed.

(** C1, as the evaluator has it.  The operands of [{"if": operands}] are
    all evaluated before a branch is selected, the branches that are not
    chosen included.  Let every operand of the rule evaluate.  If the
    condition at position [i] is the first truthy one, the rule evaluates to
    what the operand at [i + 1] alone evaluates to: the value of the paired
    result and, as the trace, the trace of that operand only.  If no
    condition is truthy and there is no trailing else, the rule evaluates to
    the value null and the empty object as the trace. *)
Theorem jsonLogic_if_branch (operands : list value) (data : value)
  (results : list (value * value)) :
  Forall2 (fun operand r => jsonLogic operand data = Ok r) operands results ->
  (forall i, first_truthy (map fst results) i ->
     exists operand r,
       nth_error operands (S i) = Some operand
       /\ jsonLogic operand data = Ok r
       /\ jsonLogic (if_rule operands) data = Ok r)
  /\ (no_truthy (map fst results) -> Nat.even (List.length operands) = true ->
      jsonLogic (if_rule operands) data = Ok (VNone, VDict [])).
Proof.
  intros H. rewrite (jsonLogic_if _ _ _ H). split.
  - intros i Hi.
    destruct (if_from_first_truthy _ 0%nat i Hi) as (result & Hres & Hif).
    unfold if_. rewrite Hif. simpl Nat.add.
    rewrite nth_error_map in Hres.
    destruct (nth_error results (S i)) as [ [v e] | ] eqn:Hr; [ | discriminate ].
    simpl in Hres. injection Hres as <-.
    destruct (Forall2_nth_error_right _ _ _ _ _ H _ _ Hr) as (operand & Ho & He).
    exists operand, (v, e). rewrite nth_error_map, Hr.
    repeat split; assumption.
  - intros Hno Heven. unfold if_. rewrite if_from_no_truthy.
    + reflexivity.
    + exact Hno.
    + rewrite length_map. rewrite <- (Forall2_length H). exact Heven.
Qed.

Lemma jsonLogic_if_branch_witness :
  Forall2 (fun operand r => jsonLogic operand (VDict [("temp", VInt 50)]) = Ok r)
    temperature_operands temperature_results
  /\ first_truthy (map fst temperature_results) 2
  /\ jsonLogic (if_rule temperature_operands) (VDict [("temp", VInt 50)])
     = Ok (VStr "liquid", VStr "liquid").
Proof.
  assert (H : Forall2
                (fun operand r => jsonLogic operand (VDict [("temp", VInt 50)]) = Ok r)
                temperature_operands temperature_results)
    by (repeat constructor).
  assert (F : first_truthy (map fst temperature_results) 2).
  { repeat split.
    - exists (VBool true). split; reflexivity.
    - simpl. lia.
    - intros j cond Hj Hej Hcj.
      destruct j as [ | [ | j ] ]; [ | discriminate Hej | lia ].
      injection Hcj as <-. reflexivity. }
  split; [ exact H | split; [ exact F | ] ].
  destruct (proj1 (jsonLogic_if_branch _ _ _ H) 2%nat F)
    as (operand & r & Ho & He & Hrule).
  injection Ho as <-. rewrite Hrule, <- He. reflexivity.
Defined.

(** The operands are all evaluated before [if_] selects.  The first
    condition is truthy and its result is ["yes"], and yet the rule does not
    evaluate to it: the else branch, which is not chosen, names a variable
    that the data context does not have, and its error is the outcome. *)
Lemma if_evaluates_unchosen_branch :
  first_truthy [VBool true; VStr "yes"] 0
  /\ jsonLogic (VBool true) (VDict []) = Ok (VBool true, VBool true)
  /\ jsonLogic (VStr "yes") (VDict []) = Ok (VStr "yes", VStr "yes")
  /\ jsonLogic (if_rule [VBool true; VStr "yes"; VDict [("var", VStr "z")]])
       (VDict [])
     = Raise (ValueError (UnknownVariable "z"))
  /\ forall r,
       jsonLogic (if_rule [VBool true; VStr "yes"; VDict [("var", VStr "z")]])
         (VDict [])
       <> Ok r.
Proof.
  split.
  { repeat split.
    - exists (VBool true). split; reflexivity.
    - simpl. lia.
    - intros j cond Hj. lia. }
  split; [ reflexivity | split; [ reflexivity | split; [ reflexivity | ] ] ].
  intros r. discriminate.
Qed.

Example if_without_branch :
  jsonLogic (if_rule [VBool false; VInt 1]) VNone = Ok (VNone, VDict []).
Proof. reflexivity. Qed.

(** ** Evaluating the trace again *)

(** [if_] is the one entry of the table that selects. *)
Lemma table_get_selector (operator : string) (f : list value -> value * option nat) :
  table_get operator operations = Some (Selector f) -> f = if_.
Proof.
  intros H. unfold operations in H. simpl in H.
  repeat match type of H with
         | context [ if String.eqb ?a ?b then _ else _ ] =>
             destruct (String.eqb a b)
         end;
    try discriminate H; injection H as <-; reflexivity.
Qed.

(** The trace that [dispatch] returns: the operator over the traces of its
    operands, or the empty object, or the trace of the operand whose value
    is returned. *)
Lemma dispatch_trace (operator : string) (data : value)
  (new_values executed : list value) (v t : value) :
  dispatch operator data new_values executed = Ok (v, t) ->
  t = VDict [(operator, VList executed)]
  \/ t = VDict []
  \/ exists k, nth_error new_values k = Some v /\ nth_error executed k = Some t.
Proof.
  unfold dispatch. intros H.
  destruct (String.eqb operator "var").
  { destruct (call_get_var data new_values); [ | discriminate ].
    injection H as <- <-. left. reflexivity. }
  destruct (String.eqb operator "missing").
  { destruct (missing data new_values); [ | discriminate ].
    injection H as <- <-. left. reflexivity. }
  destruct (String.eqb operator "missing_some").
  { destruct (call_missing_some data new_values); [ | discriminate ].
    injection H as <- <-. left. reflexivity. }
  destruct (table_get operator operations) as [ [ f | f ] | ] eqn:T;
    [ | | discriminate ].
  - destruct (f new_values); [ | discriminate ].
    injection H as <- <-. left. reflexivity.
  - apply table_get_selector in T. subst f.
    destruct (if_ new_values) as [result [ k | ] ] eqn:I.
    + destruct (nth_error executed k) as [ branch | ] eqn:B; [ | discriminate ].
      injection H as <- <-. right. right. exists k.
      split; [ apply if_position, I | exact B ].
    + injection H as <- <-. right. left. reflexivity.
Qed.

Lemma eval_operands_nth (f : value -> result (value * value))
  (values : list value) :
  forall new_values executed k v t,
    eval_operands f values = Ok (new_values, executed) ->
    nth_error new_values k = Some v ->
    nth_error executed k = Some t ->
    exists val, nth_error values k = Some val /\ f val = Ok (v, t).
Proof.
  induction values as [ | val rest IH ]; intros new_values executed k v t H Hv Ht.
  - injection H as <- <-. destruct k; discriminate.
  - simpl in H. destruct (f val) as [ [v0 e0] | err ] eqn:E; [ | discriminate ].
    simpl in H.
    destruct (eval_operands f rest) as [ [vs es] | err ] eqn:R; [ | discriminate ].
    injection H as <- <-. destruct k as [ | k ].
    + injection Hv as <-. injection Ht as <-. exists val.
      split; [ reflexivity | exact E ].
    + apply (IH vs es k v t eq_refl Hv Ht).
Qed.

(** The traces of operands evaluate to the values of the operands, up to
    the first trace with an empty node. *)
Lemma eval_operands_traces (f : value -> result (value * value))
  (values : list value) :
  Forall (fun val => forall v t, f val = Ok (v, t) ->
                       f t = if no_empty_node t then Ok (v, t)
                             else Raise IndexError) values ->
  forall new_values executed,
    eval_operands f values = Ok (new_values, executed) ->
    eval_operands f executed
    = if forallb no_empty_node executed then Ok (new_values, executed)
      else Raise IndexError.
Proof.
  induction 1 as [ | val rest Hval _ IH ]; intros new_values executed H.
  - injection H as <- <-. reflexivity.
  - simpl in H. destruct (f val) as [ [v0 e0] | err ] eqn:E; [ | discriminate ].
    simpl in H.
    destruct (eval_operands f rest) as [ [vs es] | err ] eqn:R; [ | discriminate ].
    injection H as <- <-. cbn [eval_operands forallb].
    rewrite (Hval _ _ eq_refl), (IH _ _ eq_refl).
    destruct (no_empty_node e0); [ | reflexivity ].
    destruct (forallb no_empty_node es); reflexivity.
Qed.

(** C2, as the evaluator has it.  When [evaluate(rule, data)] returns a
    value and a trace, and the trace has no operation node without a key
    (the empty object that an [if] without a taken branch leaves), then
    evaluating the trace against the same data returns the same value, and
    the trace itself as the trace.  When the trace has such a node, its
    evaluation raises [IndexError], at [list(tests.keys())[0]]. *)
Theorem jsonLogic_trace_again (rule data v t : value) :
  jsonLogic rule data = Ok (v, t) ->
  (no_empty_node t = true -> jsonLogic t data = Ok (v, t))
  /\ (no_empty_node t = false -> jsonLogic t data = Raise IndexError).
Proof.
  intros H.
  enough (E : jsonLogic t data
              = if no_empty_node t then Ok (v, t) else Raise IndexError)
    by (rewrite E; split; intros ->; reflexivity).
  revert data v t H.
  induction rule as [ rule Hprim | | operator values others IH ] using rule_ind;
    intros data v t H.
  - rewrite (jsonLogic_not_dict _ _ Hprim) in H. injection H as <- <-.
    rewrite (jsonLogic_not_dict _ _ Hprim).
    destruct rule; try reflexivity. discriminate Hprim.
  - discriminate H.
  - rewrite jsonLogic_activation in H. unfold activation in H.
    destruct (eval_operands (fun val => jsonLogic val (or_empty data))
                (operands values)) as [ [new_values executed] | err ] eqn:E;
      [ | discriminate ].
    cbn [bind] in H.
    destruct (dispatch_trace _ _ _ _ _ _ H) as [ -> | [ -> | (k & Hv & Ht) ] ].
    + rewrite jsonLogic_activation. unfold activation.
      cbn [operands no_empty_node].
      rewrite (eval_operands_traces _ (operands values)) with (new_values := new_values);
        [ | eapply Forall_impl; [ | exact IH ]; intros val Hval; apply Hval | exact E ].
      destruct (forallb no_empty_node executed); [ exact H | reflexivity ].
    + reflexivity.
    + destruct (eval_operands_nth _ _ _ _ _ _ _ E Hv Ht) as (val & Hn & He).
      rewrite Forall_forall in IH.
      rewrite <- jsonLogic_or_empty.
      apply (IH val (nth_error_In _ _ Hn)). exact He.
Qed.

Lemma jsonLogic_trace_again_witness :
  jsonLogic (if_rule temperature_operands) (VDict [("temp", VInt (-5))])
  = Ok (VStr "freezing", VStr "freezing")
  /\ no_empty_node (VStr "freezing") = true
  /\ jsonLogic (VStr "freezing") (VDict [("temp", VInt (-5))])
     = Ok (VStr "freezing", VStr "freezing").
Proof.
  split; [ reflexivity | split; [ reflexivity | ] ].
  apply (proj1 (jsonLogic_trace_again (if_rule temperature_operands)
                  (VDict [("temp", VInt (-5))]) (VStr "freezing")
                  (VStr "freezing") eq_refl)).
  reflexivity.
Defined.

(** The trace of an [if] that takes no branch is the empty object, which
    the evaluator does not evaluate: [list(tests.keys())[0]] raises. *)
Lemma trace_of_if_without_branch :
  exists v t,
    jsonLogic (if_rule [VBool false; VInt 1]) VNone = Ok (v, t)
    /\ jsonLogic t VNone = Raise IndexError
    /\ forall t', jsonLogic t VNone <> Ok (v, t').
Proof.
  exists VNone, (VDict []).
  split; [ reflexivity | split; [ reflexivity | discriminate ] ].
Qed.

Example trace_again_nested :
  jsonLogic (VDict [("cat", VList [VStr "a"; if_rule [VBool false; VInt 1]])]) VNone
  = Ok (VStr "aNone", VDict [("cat", VList [VStr "a"; VDict []])])
  /\ jsonLogic (VDict [("cat", VList [VStr "a"; VDict []])]) VNone
     = Raise IndexError.
Proof. split; reflexivity. Qed.

(** ** No recursion-limit error from the evaluator *)

Lemma plain_bind (A B : Type) (r : result A) (k : A -> result B) :
  plain r -> (forall a, plain (k a)) -> plain (bind r k).
Proof.
  unfold plain. destruct r as [ a | e ]; simpl; intros Hr Hk.
  - apply Hk.
  - intros E. apply Hr. injection E as ->. reflexivity.
Qed.

Create HintDb plain.

Ltac plain_step :=
  match goal with
  | |- plain (Ok _) => unfold plain; discriminate
  | |- plain (Raise _) => unfold plain; discriminate
  | |- plain (bind _ _) => apply plain_bind; [ | intros ]
  | |- plain (match ?x with _ => _ end) =>
      lazymatch type of x with
      | result _ => fail
      | _ => destruct x
      end
  end.

Ltac plain_solve := repeat first [ solve [ auto with plain ] | plain_step ].

(** An error that is passed on comes from a result that is plain. *)
Ltac plain_passed H :=
  exfalso; eapply H; eassumption.

Lemma float_of_int_plain (n : Z) : plain (float_of_int n).
Proof. unfold float_of_int. plain_solve. Qed.

Lemma num_to_float_plain (x : number) : plain (num_to_float x).
Proof. destruct x; simpl; [ apply float_of_int_plain | plain_solve ]. Qed.

#[local] Hint Resolve float_of_int_plain num_to_float_plain : plain.

Lemma arith_plain fi ff (a b : value) : plain (arith fi ff a b).
Proof. unfold arith, num_arith. plain_solve. Qed.

Lemma py_neg_plain (a : value) : plain (py_neg a).
Proof. unfold py_neg. plain_solve. Qed.

Lemma py_mod_plain (a b : value) : plain (py_mod a b).
Proof. unfold py_mod. plain_solve. Qed.

Lemma py_float_plain (v : value) : plain (py_float v).
Proof. unfold py_float. plain_solve. Qed.

Lemma py_int_plain (s : string) : plain (py_int s).
Proof. unfold py_int. plain_solve. Qed.

Lemma float_truediv_plain (x y : spec_float) : plain (float_truediv x y).
Proof. unfold float_truediv. plain_solve. Qed.

#[local] Hint Resolve arith_plain py_neg_plain py_mod_plain py_float_plain
  py_int_plain float_truediv_plain : plain.

Lemma py_lt_plain (a : value) : forall b, plain (py_lt a b).
Proof.
  induction a as [ | | | | | xs IH | kvs _ ] using value_nested_ind;
    intros rhs; destruct rhs as [ | | | | | ys | ]; simpl;
    try (unfold plain; discriminate).
  revert ys. induction IH as [ | x xs Hx _ IHxs ]; intros [ | y ys ];
    try (unfold plain; discriminate).
  destruct (py_eq x y); [ apply IHxs | apply Hx ].
Qed.

Lemma py_gt_plain (a b : value) : plain (py_gt a b).
Proof. apply py_lt_plain. Qed.

#[local] Hint Resolve py_lt_plain py_gt_plain : plain.

Lemma int_ge_plain (n : Z) (b : value) : plain (int_ge n b).
Proof. unfold int_ge. plain_solve. Qed.

Lemma py_iter_plain (v : value) : plain (py_iter v).
Proof. unfold py_iter. plain_solve. Qed.

Lemma getitem_str_plain (data : value) (key : string) :
  plain (getitem_str data key).
Proof. unfold getitem_str. plain_solve. Qed.

Lemma getitem_int_plain (data : value) (i : Z) : plain (getitem_int data i).
Proof. unfold getitem_int. plain_solve. Qed.

Lemma py_in_plain (a b : value) : plain (py_in a b).
Proof. unfold py_in. plain_solve. Qed.

#[local] Hint Resolve int_ge_plain py_iter_plain getitem_str_plain
  getitem_int_plain py_in_plain : plain.

Lemma select_from_plain (better : value -> value -> result bool)
  (rest : list value) :
  (forall a b, plain (better a b)) ->
  forall cur, plain (select_from better cur rest).
Proof.
  intros H. induction rest as [ | x r IH ]; intros cur; simpl.
  - plain_solve.
  - apply plain_bind; [ apply H | intros b; apply IH ].
Qed.

Lemma py_min_plain (args : list value) : plain (py_min args).
Proof.
  destruct args; simpl; [ plain_solve | apply select_from_plain, py_lt_plain ].
Qed.

Lemma py_max_plain (args : list value) : plain (py_max args).
Proof.
  destruct args; simpl; [ plain_solve | ].
  apply select_from_plain. intros a b. apply py_gt_plain.
Qed.

Lemma hard_equals_plain (a b : value) : plain (hard_equals a b).
Proof. unfold hard_equals, almost_equal, isclose. plain_solve. Qed.

#[local] Hint Resolve py_min_plain py_max_plain hard_equals_plain : plain.

Lemma less_plain (args : list value) : forall a b, plain (less a b args).
Proof.
  assert (C : forall a b (more : result bool), plain more ->
                plain (lt <- py_lt a b ;; if lt then more else Ok false)).
  { intros a b more Hmore. apply plain_bind; [ apply py_lt_plain | ].
    intros [ | ]; [ exact Hmore | plain_solve ]. }
  induction args as [ | c rest IH ]; intros a b; cbn [less];
    destruct (float_or_int a b);
    try (apply C; first [ apply IH | plain_solve ]);
    destruct (py_float a) as [ x | e ] eqn:A; cbn [bind];
    try (destruct e; try (unfold plain; discriminate);
         plain_passed (py_float_plain a));
    destruct (py_float b) as [ y | e ] eqn:B; cbn [bind];
    try (destruct e; try (unfold plain; discriminate);
         plain_passed (py_float_plain b));
    apply C; first [ apply IH | plain_solve ].
Qed.

#[local] Hint Resolve less_plain : plain.

Lemma less_or_equal_plain (args : list value) :
  forall a b, plain (less_or_equal a b args).
Proof.
  induction args as [ | c rest IH ]; intros a b; cbn [less_or_equal];
    (apply plain_bind; [ apply less_plain | intros lt ]);
    destruct (lt || soft_equals a b); first [ apply IH | plain_solve ].
Qed.

Lemma to_numeric_plain (arg : value) : plain (to_numeric arg).
Proof. unfold to_numeric. plain_solve. Qed.

#[local] Hint Resolve less_or_equal_plain to_numeric_plain : plain.

Lemma reduce_plain (f : value -> value -> result value) (args : list value) :
  (forall total arg, plain (f total arg)) ->
  forall total, plain (reduce f args total).
Proof.
  intros H. induction args as [ | arg rest IH ]; intros total; simpl.
  - plain_solve.
  - apply plain_bind; [ apply H | intros t; apply IH ].
Qed.

Lemma plus_plain (args : list value) : plain (plus args).
Proof.
  apply reduce_plain. intros total arg. unfold py_add. plain_solve.
Qed.

Lemma minus_plain (args : list value) : plain (minus args).
Proof. unfold minus, py_sub. plain_solve. Qed.

Lemma times_plain (total arg : value) : plain (times total arg).
Proof. unfold times, py_mul. plain_solve. Qed.

Lemma divide_plain (args : list value) : plain (divide args).
Proof. unfold divide. plain_solve. Qed.

#[local] Hint Resolve plus_plain minus_plain times_plain divide_plain : plain.

Lemma walk_plain (keys : list string) : forall data, plain (walk data keys).
Proof.
  induction keys as [ | key rest IH ]; intros data; cbn [walk].
  - plain_solve.
  - destruct (getitem_str data key) as [ v | e ] eqn:G; [ apply IH | ].
    destruct e; try (unfold plain; discriminate).
    + apply plain_bind; [ apply py_int_plain | intros i ].
      apply plain_bind; [ apply getitem_int_plain | intros v; apply IH ].
    + plain_passed (getitem_str_plain data key).
Qed.

Lemma lookup_plain (data var_name : value) : plain (lookup data var_name).
Proof. apply walk_plain. Qed.

Lemma get_var_plain (data var_name not_found : value) :
  plain (get_var data var_name not_found).
Proof.
  unfold get_var. destruct (lookup data var_name) as [ v | e ] eqn:L.
  - plain_solve.
  - destruct e; simpl; try plain_solve. plain_passed (lookup_plain data var_name).
Qed.

Lemma not_found_in_plain (data arg : value) : plain (not_found_in data arg).
Proof.
  unfold not_found_in. destruct (lookup data arg) as [ v | e ] eqn:L.
  - plain_solve.
  - destruct e; simpl; try plain_solve. plain_passed (lookup_plain data arg).
Qed.

#[local] Hint Resolve get_var_plain not_found_in_plain : plain.

Lemma missing_loop_plain (data : value) (args : list value) :
  plain (missing_loop data args).
Proof.
  induction args as [ | arg rest IH ]; simpl; [ plain_solve | ].
  apply plain_bind; [ apply not_found_in_plain | intros nf ].
  apply plain_bind; [ exact IH | intros ret; plain_solve ].
Qed.

Lemma missing_plain (data : value) (args : list value) :
  plain (missing data args).
Proof.
  unfold missing. destruct args as [ | [ ] ? ]; apply missing_loop_plain.
Qed.

Lemma missing_some_loop_plain (data min_required : value) (args : list value) :
  forall found ret, plain (missing_some_loop data min_required args found ret).
Proof.
  induction args as [ | arg rest IH ]; intros found ret; cbn [missing_some_loop].
  - plain_solve.
  - apply plain_bind; [ apply not_found_in_plain | intros [ | ] ].
    + apply IH.
    + apply plain_bind; [ apply int_ge_plain | intros [ | ] ];
        [ plain_solve | apply IH ].
Qed.

Lemma missing_some_plain (data min_required args : value) :
  plain (missing_some data min_required args).
Proof.
  unfold missing_some. apply plain_bind; [ apply py_lt_plain | intros [ | ] ].
  - plain_solve.
  - apply plain_bind; [ apply py_iter_plain | intros names ].
    apply missing_some_loop_plain.
Qed.

#[local] Hint Resolve missing_plain missing_some_plain : plain.

(** No operator of the table raises a recursion-limit error. *)
Lemma table_get_plain (operator : string) (f : list value -> result value) :
  table_get operator operations = Some (Operator f) ->
  forall args, plain (f args).
Proof.
  intros H args. unfold operations in H. cbn [table_get] in H.
  repeat match type of H with
         | context [ if String.eqb ?a ?b then _ else _ ] =>
             destruct (String.eqb a b)
         end;
    try discriminate H;
    match type of H with
    | Some (Operator ?g) = _ => assert (E : g = f) by congruence
    end;
    clear H; subst f;
    cbv beta delta [unary binary ternary chained boolean greater_or_equal];
    plain_solve.
  apply reduce_plain, times_plain.
Qed.

Lemma dispatch_plain (operator : string) (data : value)
  (new_values executed : list value) :
  plain (dispatch operator data new_values executed).
Proof.
  unfold dispatch, call_get_var, call_missing_some.
  destruct (String.eqb operator "var"); [ plain_solve | ].
  destruct (String.eqb operator "missing"); [ plain_solve | ].
  destruct (String.eqb operator "missing_some"); [ plain_solve | ].
  destruct (table_get operator operations) as [ [ f | f ] | ] eqn:T.
  - apply plain_bind; [ apply (table_get_plain _ _ T) | intros; plain_solve ].
  - plain_solve.
  - plain_solve.
Qed.

Lemma eval_operands_plain (f : value -> result (value * value))
  (values : list value) :
  Forall (fun val => plain (f val)) values -> plain (eval_operands f values).
Proof.
  induction 1 as [ | val rest Hval _ IH ]; simpl; [ plain_solve | ].
  apply plain_bind; [ exact Hval | intros [v e] ].
  apply plain_bind; [ exact IH | intros [vs es]; plain_solve ].
Qed.

(** The recursion as written raises no recursion-limit error. *)
Lemma jsonLogic_plain (tests : value) : forall data, plain (jsonLogic tests data).
Proof.
  induction tests as [ tests Hprim | | operator values others IH ] using rule_ind;
    intros data.
  - rewrite (jsonLogic_not_dict _ _ Hprim). plain_solve.
  - simpl. plain_solve.
  - rewrite jsonLogic_activation. unfold activation.
    apply plain_bind.
    + apply eval_operands_plain. eapply Forall_impl; [ | exact IH ].
      intros val Hval. apply Hval.
    + intros [new_values executed]. apply dispatch_plain.
Qed.

(** ** Depth of recursion *)

Lemma depth_operands (operator : string) (values : value)
  (others : list (string * value)) :
  Forall (fun val => (depth val < depth (VDict ((operator, values) :: others)))%nat)
    (operands values).
Proof.
  assert (L : forall vals,
             Forall (fun val =>
                       (depth val <= fold_right (fun val d => Nat.max (depth val) d)
                                       O vals)%nat) vals).
  { induction vals as [ | val rest IH ]; constructor.
    - cbn [fold_right]. apply Nat.le_max_l.
    - eapply Forall_impl; [ | exact IH ]. cbn [fold_right].
      intros v Hv. cbv beta in Hv. etransitivity; [ exact Hv | apply Nat.le_max_r ]. }
  destruct values; cbn [operands depth];
    try (constructor; [ cbn [depth]; apply Nat.lt_succ_diag_r | constructor ]).
  eapply Forall_impl; [ | apply L ].
  intros v Hv. cbv beta in Hv. apply Nat.lt_succ_r, Hv.
Qed.

(** Negations evaluate at every depth. *)
Lemma jsonLogic_negations (n : nat) (data : value) :
  jsonLogic (negations n) data = Ok (VBool (Nat.even n), negations n).
Proof.
  induction n as [ | n IH ]; [ reflexivity | ].
  rewrite jsonLogic_activation. unfold activation. cbn [negations operands].
  cbn [eval_operands]. rewrite jsonLogic_or_empty, IH.
  rewrite Nat.even_succ, <- Nat.negb_even. reflexivity.
Qed.

Lemma depth_negations (n : nat) : depth (negations n) = n.
Proof.
  induction n as [ | n IH ]; [ reflexivity | ]. simpl. rewrite IH. lia.
Qed.

(** No depth is out of reach of the recursion as it is written. *)
Lemma evaluator_sets_no_bound (bound : nat) :
  exists rule,
    (bound < depth rule)%nat
    /\ forall data, exists v t, jsonLogic rule data = Ok (v, t).
Proof.
  exists (negations (S bound)). split.
  - rewrite depth_negations. lia.
  - intros data. eexists. eexists. apply jsonLogic_negations.
Qed.

(** ** Under the interpreter's limit *)

(** An operand that the limit stops makes the loop stop with the same
    error; the operands before it are evaluated as without a limit. *)
Lemma eval_operands_limited (f g : value -> result (value * value))
  (values : list value) :
  Forall (fun val => f val = g val \/ f val = Raise RecursionError) values ->
  eval_operands f values = eval_operands g values
  \/ eval_operands f values = Raise RecursionError.
Proof.
  induction 1 as [ | val rest Hval _ IH ]; [ left; reflexivity | ].
  cbn [eval_operands]. destruct Hval as [ -> | -> ]; [ | right; reflexivity ].
  destruct (g val) as [ [v e] | err ]; cbn [bind]; [ | left; reflexivity ].
  destruct IH as [ -> | -> ]; [ left | right ]; reflexivity.
Qed.

(** The limit changes no outcome but by a [RecursionError]. *)
Lemma jsonLogic_within_or (counted : accounting) (frames : nat) :
  forall tests data,
    jsonLogic_within counted frames tests data = jsonLogic tests data
    \/ jsonLogic_within counted frames tests data = Raise RecursionError.
Proof.
  induction frames as [ | remaining IH ]; intros tests data;
    [ right; reflexivity | ].
  cbn [jsonLogic_within]. unfold activation_within.
  destruct (remaining <? body_calls counted tests)%nat; [ right; reflexivity | ].
  rewrite jsonLogic_activation.
  destruct tests as [ | | | | | | [ | [operator values] others ] ];
    try (left; reflexivity).
  unfold activation.
  destruct (eval_operands_limited
              (fun val => jsonLogic_within counted remaining val (or_empty data))
              (fun val => jsonLogic val (or_empty data)) (operands values))
    as [ -> | -> ].
  - apply Forall_forall. intros val _. apply IH.
  - destruct (eval_operands (fun val => jsonLogic val (or_empty data))
                (operands values)) as [ [new_values executed] | err ];
      cbn [bind]; [ | left; reflexivity ].
    destruct (remaining
              <? calls operator new_values
                 + builtin_calls counted operator new_values)%nat;
      [ right | left ]; reflexivity.
  - right. reflexivity.
Qed.

Lemma nesting_node (operator : string) (values : value)
  (others : list (string * value)) :
  nesting (VDict ((operator, values) :: others))
  = S (fold_right (fun val n => Nat.max (nesting val) n) O (operands values)).
Proof.
  destruct values; cbn [nesting operands fold_right];
    try rewrite Nat.max_0_r; reflexivity.
Qed.

Lemma nested_operand (frames : nat) (vals : list value) :
  (frames < fold_right (fun val n => Nat.max (nesting val) n) O vals)%nat ->
  Exists (fun val => (frames < nesting val)%nat) vals.
Proof.
  induction vals as [ | val rest IH ]; cbn [fold_right]; intros H; [ lia | ].
  destruct (Nat.max_spec (nesting val)
              (fold_right (fun val n => Nat.max (nesting val) n) O rest))
    as [ [_ E] | [_ E] ]; rewrite E in H.
  - apply Exists_cons_tl, IH, H.
  - apply Exists_cons_hd, H.
Qed.

(** The loop raises when an operand does: the error of the first one. *)
Lemma eval_operands_raises (f : value -> result (value * value))
  (values : list value) :
  Exists (fun val => exists e, f val = Raise e) values ->
  exists e, eval_operands f values = Raise e.
Proof.
  induction 1 as [ val rest (e & E) | val rest _ (e & E) ]; cbn [eval_operands].
  - rewrite E. exists e. reflexivity.
  - destruct (f val) as [ [v t] | err ]; cbn [bind].
    + rewrite E. exists e. reflexivity.
    + exists err. reflexivity.
Qed.

(** Nesting beyond the limit: the evaluation raises. *)
Lemma jsonLogic_within_raises (counted : accounting) (frames : nat) :
  forall tests data,
    (frames < nesting tests)%nat ->
    exists e, jsonLogic_within counted frames tests data = Raise e.
Proof.
  induction frames as [ | remaining IH ]; intros tests data H.
  { exists RecursionError. reflexivity. }
  cbn [jsonLogic_within]. unfold activation_within.
  destruct (remaining <? body_calls counted tests)%nat;
    [ exists RecursionError; reflexivity | ].
  destruct tests as [ | | | | | | [ | [operator values] others ] ];
    try (cbn [nesting] in H; lia).
  rewrite nesting_node in H. apply Nat.succ_lt_mono in H.
  destruct (eval_operands_raises
              (fun val => jsonLogic_within counted remaining val (or_empty data))
              (operands values)) as (e & E).
  - eapply Exists_impl; [ | apply (nested_operand _ _ H) ].
    intros val Hval. apply IH, Hval.
  - rewrite E. exists e. reflexivity.
Qed.


Lemma nesting_negations (n : nat) : nesting (negations n) = S n.
Proof.
  induction n as [ | n IH ]; [ reflexivity | ].
  cbn [negations nesting fold_right]. rewrite IH, Nat.max_0_r. reflexivity.
Qed.


Lemma jsonLogic_within_primitive (counted : accounting) (remaining : nat)
  (tests data : value) :
  primitive tests = true ->
  (body_calls counted tests <= remaining)%nat ->
  jsonLogic_within counted (S remaining) tests data = Ok (tests, tests).
Proof.
  intros P B. cbn [jsonLogic_within]. unfold activation_within.
  apply Nat.ltb_ge in B. rewrite B.
  destruct tests; try reflexivity. discriminate P.
Qed.

Lemma jsonLogic_within_node (counted : accounting) (remaining : nat)
  (operator : string) (values data : value) (others : list (string * value)) :
  (body_calls counted (VDict ((operator, values) :: others)) <= remaining)%nat ->
  jsonLogic_within counted (S remaining) (VDict ((operator, values) :: others))
    data
  = ('(new_values, executed) <-
       eval_operands
         (fun val => jsonLogic_within counted remaining val (or_empty data))
         (operands values) ;;
     if (remaining
         <? calls operator new_values
            + builtin_calls counted operator new_values)%nat
     then Raise RecursionError
     else dispatch operator (or_empty data) new_values executed).
Proof.
  intros B. cbn [jsonLogic_within]. unfold activation_within.
  apply Nat.ltb_ge in B. rewrite B. reflexivity.
Qed.


(** Operands that are primitive are returned, or the limit is met. *)
Lemma eval_primitives_limited (counted : accounting) (remaining : nat)
  (data : value) (vals : list value) :
  Forall (fun val => primitive val = true) vals ->
  eval_operands (fun val => jsonLogic_within counted remaining val data) vals
  = Ok (vals, vals)
  \/ eval_operands (fun val => jsonLogic_within counted remaining val data) vals
     = Raise RecursionError.
Proof.
  induction 1 as [ | val rest P _ IH ]; [ left; reflexivity | ].
  cbn [eval_operands].
  destruct (jsonLogic_within_or counted remaining val data) as [ -> | -> ];
    [ | right; reflexivity ].
  rewrite (jsonLogic_not_dict val data P). cbn [bind].
  destruct IH as [ -> | -> ]; [ left | right ]; reflexivity.
Qed.

(** An operator whose calls exceed what the limit leaves under its
    activation of [jsonLogic]: the interpreter stops the evaluation,
    whatever it counts besides. *)
Lemma operator_over_the_limit (counted : accounting) (remaining : nat)
  (operator : string) (vals : list value) (others : list (string * value))
  (data : value) :
  Forall (fun val => primitive val = true) vals ->
  (remaining < calls operator vals)%nat ->
  jsonLogic_within counted (S remaining)
    (VDict ((operator, VList vals) :: others)) data
  = Raise RecursionError.
Proof.
  intros P C. cbn [jsonLogic_within]. unfold activation_within.
  destruct (remaining <? body_calls counted _)%nat; [ reflexivity | ].
  cbn [operands].
  destruct (eval_primitives_limited counted remaining (or_empty data) vals P)
    as [ -> | -> ]; [ | reflexivity ].
  cbn [bind].
  assert (G : (remaining
               <? calls operator vals + builtin_calls counted operator vals)%nat
              = true) by (apply Nat.ltb_lt; lia).
  rewrite G. reflexivity.
Qed.

(** An operator over primitive operands under a limit that allows its
    calls: the evaluation is the one without a limit. *)
Lemma operator_within_the_limit (counted : accounting) (remaining : nat)
  (operator : string) (vals : list value) (others : list (string * value))
  (data : value) :
  (body_calls counted (VDict ((operator, VList vals) :: others))
   <= S remaining)%nat ->
  Forall (fun val => primitive val = true
                     /\ (body_calls counted val <= remaining)%nat) vals ->
  (calls operator vals + builtin_calls counted operator vals <= S remaining)%nat ->
  jsonLogic_within counted (S (S remaining))
    (VDict ((operator, VList vals) :: others)) data
  = jsonLogic (VDict ((operator, VList vals) :: others)) data.
Proof.
  intros B P C. rewrite (jsonLogic_within_node _ _ _ _ _ _ B).
  rewrite jsonLogic_activation. unfold activation. cbn [operands].
  assert (E : eval_operands
                (fun val => jsonLogic_within counted (S remaining) val
                              (or_empty data)) vals
              = eval_operands (fun val => jsonLogic val (or_empty data)) vals).
  { apply eval_operands_ext. eapply Forall_impl; [ | exact P ].
    intros val [Pv Bv]. cbv beta.
    rewrite (jsonLogic_within_primitive _ _ _ _ Pv Bv).
    rewrite (jsonLogic_not_dict _ _ Pv). reflexivity. }
  rewrite E.
  destruct (eval_operands (fun val => jsonLogic val (or_empty data)) vals)
    as [ [new_values executed] | err ] eqn:R; [ | reflexivity ].
  cbn [bind].
  assert (N : new_values = vals).
  { clear E B C. revert new_values executed R.
    induction P as [ | val rest [Pv _] _ IH ]; intros new_values executed R.
    - injection R as <- <-. reflexivity.
    - cbn [eval_operands] in R. rewrite (jsonLogic_not_dict _ _ Pv) in R.
      cbn [bind] in R.
      destruct (eval_operands (fun val => jsonLogic val (or_empty data)) rest)
        as [ [vs es] | err ]; [ | discriminate R ].
      injection R as <- <-. rewrite (IH vs es eq_refl). reflexivity. }
  subst new_values. apply Nat.ltb_ge in C. rewrite C. reflexivity.
Qed.

(** The calls that the operators nest, on some operands: [plus] is under
    way with its generator expression and [to_numeric]; [less] and
    [less_or_equal] are under way once more for each operand that the chain
    passes, and not beyond the comparison that fails; [bool] is no call of
    the source. *)
Example calls_of_operators :
  calls "+" [VInt 1; VInt 2] = 3%nat
  /\ calls "+" [] = 2%nat
  /\ calls "!!" [VInt 1] = 0%nat
  /\ calls "<" [VInt 1; VInt 2; VInt 3] = 2%nat
  /\ calls "<" [VInt 3; VInt 2; VInt 1] = 1%nat
  /\ calls "<" [VInt 1; VStr "abc"; VInt 3] = 1%nat
  /\ calls "<=" [VInt 1; VInt 2; VInt 3] = 3%nat
  /\ calls "<=" [VInt 3; VInt 2; VInt 1] = 2%nat
  /\ calls "===" [VInt 1; VInt 1] = 1%nat
  /\ calls "===" [VInt 1; VInt 2] = 2%nat
  /\ calls "missing" [VList []] = 1%nat
  /\ calls "missing" [VStr "a"] = 2%nat
  /\ calls "var" [] = 0%nat
  /\ calls "bogus" [VInt 1] = 0%nat.
Proof. repeat split; reflexivity. Qed.

(** A chained comparison nests no rule, and [less] is under way once for
    each operand that it has passed: on 1200 operands in ascending order
    the limit of 1000 is met along the chain, whatever the interpreter
    counts besides. *)
Example chained_comparison_over_the_limit :
  nesting (ascending 1200) = 2%nat
  /\ calls "<" (map (fun i => VInt (Z.of_nat i)) (seq 0 1200)) = 1199%nat
  /\ forall counted,
       jsonLogic_within counted 1000 (ascending 1200) VNone
       = Raise RecursionError.
Proof.
  assert (C : calls "<" (map (fun i => VInt (Z.of_nat i)) (seq 0 1200))
              = 1199%nat) by (vm_compute; reflexivity).
  split; [ vm_compute; reflexivity | split; [ exact C | ] ].
  intros counted. unfold ascending. change 1000%nat with (S 999).
  apply operator_over_the_limit.
  - apply Forall_forall. intros val Hin. apply in_map_iff in Hin.
    destruct Hin as (i & <- & _). reflexivity.
  - rewrite C. apply Nat.ltb_lt. vm_compute. reflexivity.
Qed.

(** With calls to spare the comparison is evaluated: under a limit of 100,
    when the interpreter counts up to 10 calls inside the builtins. *)
Example chained_comparison_within_the_limit :
  forall counted,
    (forall tests, (body_calls counted tests <= 10)%nat) ->
    (forall operator new_values,
       (builtin_calls counted operator new_values <= 10)%nat) ->
    jsonLogic_within counted 100 (node "<=" [VInt 1; VInt 2; VInt 3]) VNone
    = Ok (VBool true, node "<=" [VInt 1; VInt 2; VInt 3]).
Proof.
  intros counted B I. unfold node. change 100%nat with (S (S 98)).
  rewrite operator_within_the_limit.
  - reflexivity.
  - etransitivity; [ apply B | lia ].
  - repeat (apply Forall_cons;
              [ split; [ reflexivity | etransitivity; [ apply B | lia ] ] | ]).
    apply Forall_nil.
  - change (calls "<=" [VInt 1; VInt 2; VInt 3]) with 3%nat.
    specialize (I "<=" [VInt 1; VInt 2; VInt 3]). lia.
Qed.

(** ** The comparison [less] *)

(** With an [int] or a [float] among the operands, both are converted to
    floats and compared as floats. *)
Lemma less_converts (a b : value) (x y : spec_float) :
  float_or_int a b = true ->
  py_float a = Ok x -> py_float b = Ok y ->
  less a b [] = Ok (SFltb x y).
Proof.
  intros T A B. unfold less. rewrite T, A, B. simpl.
  unfold num_ltb, num_compare, SFltb.
  destruct (SFcompare x y) as [ [ | | ] | ]; reflexivity.
Qed.

(** A conversion that raises [TypeError] ([None], a list, a dictionary)
    makes the comparison false. *)
Lemma less_type_error (a b : value) (args : list value) :
  float_or_int a b = true ->
  py_float a = Raise TypeError
  \/ (exists x, py_float a = Ok x /\ py_float b = Raise TypeError) ->
  less a b args = Ok false.
Proof.
  intros T [ A | (x & A & B) ]; destruct args; simpl; rewrite T, A;
    try rewrite B; reflexivity.
Qed.

(** A string that is no numeral makes the conversion raise [ValueError],
    which [less] does not handle. *)
Lemma less_value_error (a : value) (s : string) (x : spec_float)
  (args : list value) :
  float_or_int a (VStr s) = true ->
  py_float a = Ok x -> float_of_string s = None ->
  less a (VStr s) args = Raise (ValueError InvalidLiteral).
Proof.
  intros T A B. destruct args; simpl; rewrite T, A; simpl; rewrite B; reflexivity.
Qed.

(** C3, at the input where the source departs from it.  [1 < "abc"]: one
    operand is an [int], so both are converted to floats; ["abc"] is no
    numeral and [float("abc")] raises [ValueError]; the handler of [less]
    takes [TypeError] only, and the evaluation raises instead of returning
    false.  The conversion of [None], which raises [TypeError], does give
    false. *)
Theorem less_non_numeric_string :
  less (VInt 1) (VStr "abc") [] = Raise (ValueError InvalidLiteral)
  /\ jsonLogic (VDict [("<", VList [VInt 1; VStr "abc"])]) VNone
     = Raise (ValueError InvalidLiteral)
  /\ less (VInt 1) VNone [] = Ok false.
Proof.
  repeat split; reflexivity.
Qed.

(** ** Strict equality *)

Lemma pytype_eqb_eq (s t : pytype) : pytype_eqb s t = true <-> s = t.
Proof.
  destruct s, t; simpl; split; intros H; try reflexivity; discriminate H.
Qed.

(** C4, as the evaluator has it.  Operands of different runtime types are
    never strictly equal, an [int] and a [float] of the same magnitude
    included.  Two operands of the same type are strictly equal whenever
    they are equal, and two numbers of the same type also whenever
    [math.isclose] holds of them, that is, whenever their relative
    difference is within 1e-09. *)
Theorem hard_equals_same_type (a b : value) :
  (type_of a <> type_of b -> hard_equals a b = Ok false)
  /\ (type_of a = type_of b -> py_eq a b = true -> hard_equals a b = Ok true)
  /\ (type_of a = type_of b ->
      forall x y, as_number a = Some x -> as_number b = Some y ->
        isclose x y = Ok true -> hard_equals a b = Ok true).
Proof.
  unfold hard_equals. split; [ | split ].
  - intros H. destruct (pytype_eqb (type_of a) (type_of b)) eqn:E.
    + apply pytype_eqb_eq in E. contradiction.
    + reflexivity.
  - intros H Q. apply pytype_eqb_eq in H. rewrite H, Q. reflexivity.
  - intros H x y Hx Hy Hclose. apply pytype_eqb_eq in H. rewrite H. simpl.
    destruct (py_eq a b); [ reflexivity | ].
    unfold almost_equal. rewrite Hx, Hy. exact Hclose.
Qed.

Lemma hard_equals_same_type_witness :
  (type_of (VInt 1) <> type_of (VStr "1")
   /\ hard_equals (VInt 1) (VStr "1") = Ok false)
  /\ (type_of (VInt (2 ^ 1024)) = type_of (VInt (2 ^ 1024))
      /\ py_eq (VInt (2 ^ 1024)) (VInt (2 ^ 1024)) = true
      /\ isclose (NInt (2 ^ 1024)) (NInt (2 ^ 1024)) = Raise OverflowError
      /\ hard_equals (VInt (2 ^ 1024)) (VInt (2 ^ 1024)) = Ok true)
  /\ (type_of (VFloat (float_of_decimal false 1 0))
      = type_of (VFloat (float_of_decimal false 10000000001 (-10)))
      /\ isclose (NFloat (float_of_decimal false 1 0))
           (NFloat (float_of_decimal false 10000000001 (-10))) = Ok true
      /\ hard_equals (VFloat (float_of_decimal false 1 0))
           (VFloat (float_of_decimal false 10000000001 (-10))) = Ok true).
Proof.
  split; [ | split ].
  - split; [ discriminate | ].
    apply (proj1 (hard_equals_same_type (VInt 1) (VStr "1"))). discriminate.
  - assert (Q : py_eq (VInt (2 ^ 1024)) (VInt (2 ^ 1024)) = true)
      by (vm_compute; reflexivity).
    split; [ reflexivity | split; [ exact Q | split ] ].
    + vm_compute. reflexivity.
    + apply (proj1 (proj2 (hard_equals_same_type (VInt (2 ^ 1024))
                             (VInt (2 ^ 1024)))) eq_refl Q).
  - split; [ reflexivity | split; [ vm_compute; reflexivity | ] ].
    apply (proj2 (proj2 (hard_equals_same_type
                           (VFloat (float_of_decimal false 1 0))
                           (VFloat (float_of_decimal false 10000000001 (-10)))))
             eq_refl
             (NFloat (float_of_decimal false 1 0))
             (NFloat (float_of_decimal false 10000000001 (-10)))
             eq_refl eq_refl).
    vm_compute. reflexivity.
Defined.

(** On two floats strict equality is [math.isclose]; on two values of one
    type that are not numbers it is [==]. *)
Lemma hard_equals_floats (x y : spec_float) :
  hard_equals (VFloat x) (VFloat y) = Ok (float_isclose x y).
Proof.
  unfold hard_equals, almost_equal, isclose.
  cbn [type_of pytype_eqb negb py_eq as_number num_to_float bind].
  unfold num_eqb, float_isclose, SFeqb. cbn [num_compare].
  destruct (SFcompare x y) as [ [ | | ] | ]; reflexivity.
Qed.

Lemma hard_equals_not_numbers (a b : value) :
  type_of a = type_of b -> as_number a = None ->
  hard_equals a b = Ok (py_eq a b).
Proof.
  intros T N. unfold hard_equals. apply pytype_eqb_eq in T. rewrite T. simpl.
  destruct (py_eq a b); [ reflexivity | ].
  unfold almost_equal. rewrite N. reflexivity.
Qed.

(** The integer 1 and the float 1.0 are close, their difference is zero,
    and yet not strictly equal: their types differ. *)
Lemma hard_equals_int_float :
  isclose (NInt 1) (NFloat fone) = Ok true
  /\ hard_equals (VInt 1) (VFloat fone) = Ok false
  /\ jsonLogic (VDict [("===", VList [VInt 1; VFloat fone])]) VNone
     = Ok (VBool false, VDict [("===", VList [VInt 1; VFloat fone])]).
Proof.
  repeat split; vm_compute; reflexivity.
Qed.

(** The example of the docstring of [to_numeric]: 0 and 0.0 differ. *)
Example strict_inequality_of_zero :
  jsonLogic (VDict [("!==", VList [VDict [("+", VStr "0")]; VFloat fzero])]) VNone
  = Ok (VBool true,
        VDict [("!==", VList [VDict [("+", VList [VStr "0"])]; VFloat fzero])]).
Proof. reflexivity. Qed.

(** ** Variables *)

(** C5, as the evaluator has it.  The empty path is no special case: the
    empty string is looked up as a key.  The lookup returns the value under
    that key when the data context is a mapping that has it, and signals an
    unknown variable otherwise.  A null path is looked up as the key
    ["None"], and a rule without any path is a [TypeError]. *)
Theorem var_empty_path (data : value) :
  jsonLogic (VDict [("var", VStr "")]) data
  = match or_empty data with
    | VDict kvs =>
        match dict_get "" kvs with
        | Some v => Ok (v, VDict [("var", VList [VStr ""])])
        | None => Raise (ValueError (UnknownVariable ""))
        end
    | _ => Raise (ValueError (UnknownVariable ""))
    end
  /\ jsonLogic (VDict [("var", VNone)]) data
     = match or_empty data with
       | VDict kvs =>
           match dict_get "None" kvs with
           | Some v => Ok (v, VDict [("var", VList [VNone])])
           | None => Raise (ValueError (UnknownVariable "None"))
           end
       | _ => Raise (ValueError (UnknownVariable "None"))
       end
  /\ jsonLogic (VDict [("var", VList [])]) data = Raise TypeError.
Proof.
  repeat split; simpl; unfold dispatch; simpl;
    unfold get_var, lookup; simpl;
    destruct (or_empty data) as [ | | | | | | kvs ]; try reflexivity;
    simpl; match goal with
           | |- context [ dict_get ?k kvs ] => destruct (dict_get k kvs)
           end; reflexivity.
Qed.

(** The whole data context is not what the empty path returns. *)
Lemma empty_path_is_unknown_variable :
  jsonLogic (VDict [("var", VStr "")]) (VDict [("a", VInt 1)])
  = Raise (ValueError (UnknownVariable ""))
  /\ jsonLogic (VDict [("var", VStr "")]) (VInt 1)
     = Raise (ValueError (UnknownVariable "")).
Proof.
  split; reflexivity.
Qed.

(** ** [missing_some] *)

Lemma int_ge_int (m n : Z) : int_ge m (VInt n) = Ok (n <=? m).
Proof.
  unfold int_ge. simpl. f_equal.
  destruct (Z.compare_spec m n) as [ E | L | G ].
  - symmetry. apply Z.leb_le. lia.
  - symmetry. apply Z.leb_gt. lia.
  - symmetry. apply Z.leb_le. lia.
Qed.

Lemma py_lt_int (m n : Z) : py_lt (VInt m) (VInt n) = Ok (m <? n).
Proof.
  simpl. unfold num_ltb, Z.ltb. simpl.
  destruct (m ?= n); reflexivity.
Qed.

(** A required number below one is met at once, whatever the names. *)
Lemma missing_some_below_one (data args : value) (n : Z) :
  n < 1 -> missing_some data (VInt n) args = Ok [].
Proof.
  intros H. unfold missing_some. rewrite py_lt_int.
  apply Z.ltb_lt in H. rewrite H. reflexivity.
Qed.

Lemma missing_some_loop_decided (data : value) (n : Z)
  (names : list value) (flags : list bool) :
  Forall2 (fun name nf => not_found_in data name = Ok nf) names flags ->
  forall found ret,
    found < n ->
    missing_some_loop data (VInt n) names found ret
    = Ok (if n <=? found + found_count flags then []
          else (rev ret ++ failed_names names flags)%list).
Proof.
  induction 1 as [ | name nf names flags Hname _ IH ]; intros found ret Hlt.
  - simpl. unfold found_count. simpl. rewrite Z.add_0_r.
    apply Z.leb_gt in Hlt. rewrite Hlt, app_nil_r. reflexivity.
  - cbn [missing_some_loop]. rewrite Hname. cbn [bind]. destruct nf.
    + rewrite (IH found (name :: ret) Hlt). unfold found_count. simpl.
      rewrite <- app_assoc. reflexivity.
    + rewrite int_ge_int. cbn [bind failed_names].
      assert (E : found_count (false :: flags) = 1 + found_count flags)
        by (unfold found_count; simpl filter; simpl List.length; lia).
      rewrite E.
      assert (P : 0 <= found_count flags) by (unfold found_count; lia).
      destruct (n <=? found + 1) eqn:L.
      * apply Z.leb_le in L.
        replace (n <=? found + (1 + found_count flags)) with true
          by (symmetry; apply Z.leb_le; lia).
        reflexivity.
      * apply Z.leb_gt in L. rewrite (IH (found + 1) ret) by lia.
        replace (found + 1 + found_count flags)
          with (found + (1 + found_count flags)) by lia.
        reflexivity.
Qed.

(** When the lookup of every name is decided, [missing_some] returns the
    empty list if as many names are found as required, and the names whose
    lookup failed, in order, if not. *)
Lemma missing_some_decided (data : value) (n : Z)
  (names : list value) (flags : list bool) :
  1 <= n ->
  Forall2 (fun name nf => not_found_in data name = Ok nf) names flags ->
  missing_some data (VInt n) (VList names)
  = Ok (if n <=? found_count flags then [] else failed_names names flags).
Proof.
  intros Hn H. unfold missing_some. rewrite py_lt_int.
  replace (n <? 1) with false by (symmetry; apply Z.ltb_ge; lia).
  simpl. rewrite (missing_some_loop_decided data n names flags H 0 []) by lia.
  reflexivity.
Qed.

(** The scan stops at the name that meets the requirement: a later name
    whose lookup would raise is not looked up. *)
Example missing_some_stops :
  missing_some (VDict [("a", VInt 1); ("l", VList [VInt 0])]) (VInt 1)
    (VList [VStr "a"; VStr "l.5"]) = Ok []
  /\ missing_some (VDict [("a", VInt 1); ("l", VList [VInt 0])]) (VInt 1)
       (VList [VStr "l.5"; VStr "a"]) = Raise IndexError.
Proof. split; reflexivity. Qed.

(** The lookups that [get_var] handles: an absent key, a segment that is no
    integer on a sequence, a value that cannot be indexed. *)
Example lookups_handled :
  not_found_in (VDict [("a", VInt 1)]) (VStr "b") = Ok true
  /\ not_found_in (VList [VStr "x"]) (VStr "first") = Ok true
  /\ not_found_in (VDict [("a", VInt 1)]) (VStr "a.b") = Ok true
  /\ not_found_in (VList [VStr "x"]) (VStr "0") = Ok false.
Proof. repeat split; reflexivity. Qed.

(** C6, at the input where the source departs from it.  On the data
    context [["x"]] the name ["5"] is an index out of range: [data["5"]]
    raises [TypeError], the retry [data[int("5")]] raises [IndexError], and
    [get_var] handles [KeyError], [TypeError] and [ValueError] only.  The
    lookup does not fail as the lookup of an absent key does: the error
    leaves [missing_some], which returns no list of names. *)
Theorem missing_some_index_out_of_range :
  lookup (VList [VStr "x"]) (VStr "5") = Raise IndexError
  /\ missing_some (VList [VStr "x"]) (VInt 1) (VList [VStr "5"])
     = Raise IndexError
  /\ jsonLogic (VDict [("missing_some", VList [VInt 1; VList [VStr "5"]])])
       (VList [VStr "x"])
     = Raise IndexError.
Proof.
  repeat split; reflexivity.
Qed.

(** * Further properties of the evaluator *)

(** ** Operands *)

(** X1.  An operand that is not a list stands for the list of that one
    operand: [{operator: x}] and [{operator: [x]}] evaluate alike, to the
    same value, the same trace or the same error, for every operator and
    every data context. *)
Theorem unary_sugar (operator : string) (x data : value)
  (others : list (string * value)) :
  is_sequence x = false ->
  jsonLogic (VDict ((operator, x) :: others)) data
  = jsonLogic (VDict ((operator, VList [x]) :: others)) data.
Proof.
  intros H. rewrite !jsonLogic_activation. unfold activation.
  destruct x; try discriminate H; reflexivity.
Qed.

Lemma unary_sugar_witness :
  is_sequence (VStr "a") = false
  /\ jsonLogic (VDict [("var", VStr "a")]) (VDict [("a", VInt 1)])
     = jsonLogic (VDict [("var", VList [VStr "a"])]) (VDict [("a", VInt 1)]).
Proof.
  split; [ reflexivity | ].
  apply (unary_sugar "var" (VStr "a") (VDict [("a", VInt 1)]) []). reflexivity.
Defined.

Lemma eval_operands_or_empty (values : list value) (data : value) :
  eval_operands (fun val => jsonLogic val (or_empty data)) values
  = eval_operands (fun val => jsonLogic val data) values.
Proof.
  apply eval_operands_ext. apply Forall_forall. intros val _.
  apply jsonLogic_or_empty.
Qed.

(** The evaluation of a rule with evaluated operands is the dispatch. *)
Lemma jsonLogic_dispatch (operator : string) (values data : value)
  (others : list (string * value)) (results : list (value * value)) :
  Forall2 (fun val r => jsonLogic val data = Ok r) (operands values) results ->
  jsonLogic (VDict ((operator, values) :: others)) data
  = dispatch operator (or_empty data) (map fst results) (map snd results).
Proof.
  intros H. rewrite jsonLogic_activation. unfold activation.
  rewrite eval_operands_or_empty, (eval_operands_Forall2 _ _ _ H). reflexivity.
Qed.

(** X2.  An operator that is neither [var], [missing], [missing_some] nor a
    key of the table makes the evaluation raise
    [ValueError("Unrecognized operation ...")], once all its operands are
    evaluated. *)
Theorem unrecognized_operator (operator : string) (values data : value)
  (others : list (string * value)) (results : list (value * value)) :
  recognized operator = false ->
  Forall2 (fun val r => jsonLogic val data = Ok r) (operands values) results ->
  jsonLogic (VDict ((operator, values) :: others)) data
  = Raise (ValueError (UnrecognizedOperation operator)).
Proof.
  intros R H. rewrite (jsonLogic_dispatch _ _ _ _ _ H).
  unfold recognized in R. unfold dispatch.
  destruct (String.eqb operator "var"); [ discriminate R | ].
  destruct (String.eqb operator "missing"); [ discriminate R | ].
  destruct (String.eqb operator "missing_some"); [ discriminate R | ].
  destruct (table_get operator operations); [ discriminate R | reflexivity ].
Qed.

Lemma unrecognized_operator_witness :
  recognized "filter" = false
  /\ Forall2 (fun val r => jsonLogic val VNone = Ok r)
       (operands (VList [VInt 1; VInt 2])) [(VInt 1, VInt 1); (VInt 2, VInt 2)]
  /\ jsonLogic (VDict [("filter", VList [VInt 1; VInt 2])]) VNone
     = Raise (ValueError (UnrecognizedOperation "filter")).
Proof.
  assert (H : Forall2 (fun val r => jsonLogic val VNone = Ok r)
                (operands (VList [VInt 1; VInt 2]))
                [(VInt 1, VInt 1); (VInt 2, VInt 2)])
    by (repeat constructor).
  split; [ reflexivity | split; [ exact H | ] ].
  apply (unrecognized_operator "filter" (VList [VInt 1; VInt 2]) VNone [] _
           eq_refl H).
Defined.

Lemma eval_operands_error (f : value -> result (value * value))
  (pre post : list value) (bad : value) (e : exn)
  (results : list (value * value)) :
  Forall2 (fun val r => f val = Ok r) pre results ->
  f bad = Raise e ->
  eval_operands f (pre ++ bad :: post) = Raise e.
Proof.
  intros H B. induction H as [ | val [v t] pre results E _ IH ]; simpl.
  - rewrite B. reflexivity.
  - rewrite E. simpl. rewrite IH. reflexivity.
Qed.

(** X3.  The operands are all evaluated, in order, before the operator is
    looked at: the error of the first operand that fails is the error of
    the rule, whatever the operator is, a known one, [if], [and], [or], or
    one that is not recognized. *)
Theorem operand_error_first (operator : string) (values data : value)
  (others : list (string * value)) (pre post : list value) (bad : value)
  (e : exn) (results : list (value * value)) :
  operands values = (pre ++ bad :: post)%list ->
  Forall2 (fun val r => jsonLogic val data = Ok r) pre results ->
  jsonLogic bad data = Raise e ->
  jsonLogic (VDict ((operator, values) :: others)) data = Raise e.
Proof.
  intros V H B. rewrite jsonLogic_activation. unfold activation.
  rewrite eval_operands_or_empty, V.
  rewrite (eval_operands_error _ pre post bad e results H B). reflexivity.
Qed.

Lemma operand_error_first_witness :
  operands (VList [VBool true; VDict [("var", VStr "z")]])
  = ([VBool true] ++ VDict [("var", VStr "z")] :: [])%list
  /\ Forall2 (fun val r => jsonLogic val VNone = Ok r)
       [VBool true] [(VBool true, VBool true)]
  /\ jsonLogic (VDict [("var", VStr "z")]) VNone
     = Raise (ValueError (UnknownVariable "z"))
  /\ jsonLogic (VDict [("or", VList [VBool true; VDict [("var", VStr "z")]])]) VNone
     = Raise (ValueError (UnknownVariable "z")).
Proof.
  assert (H : Forall2 (fun val r => jsonLogic val VNone = Ok r)
                [VBool true] [(VBool true, VBool true)])
    by (repeat constructor).
  split; [ reflexivity | split; [ exact H | split; [ reflexivity | ] ] ].
  apply (operand_error_first "or"
           (VList [VBool true; VDict [("var", VStr "z")]]) VNone []
           [VBool true] [] (VDict [("var", VStr "z")]) _ _ eq_refl H).
  reflexivity.
Defined.

(** X4.  A data context that is falsy ([None], [False], zero, an empty
    string, list or dictionary) is replaced by the empty dictionary: every
    rule evaluates against it as against [{}]. *)
Theorem falsy_data_is_empty (rule data : value) :
  truthy data = false ->
  jsonLogic rule data = jsonLogic rule (VDict []).
Proof.
  intros H. rewrite !jsonLogic_activation.
  destruct rule as [ | | | | | | [ | [operator values] others ] ];
    try reflexivity.
  unfold activation, or_empty. rewrite H. reflexivity.
Qed.

Lemma falsy_data_is_empty_witness :
  truthy (VList []) = false
  /\ jsonLogic (VDict [("var", VList [VStr "0"; VStr "none"])]) (VList [])
     = jsonLogic (VDict [("var", VList [VStr "0"; VStr "none"])]) (VDict []).
Proof.
  split; [ reflexivity | ].
  apply (falsy_data_is_empty (VDict [("var", VList [VStr "0"; VStr "none"])])
           (VList [])).
  reflexivity.
Defined.

(** ** Traces and branches *)

Lemma table_get_selector_name (operator : string)
  (f : list value -> value * option nat) :
  table_get operator operations = Some (Selector f) -> operator = "if".
Proof.
  intros H. unfold operations in H. cbn [table_get] in H.
  repeat match type of H with
         | context [ if String.eqb ?a ?b then _ else _ ] =>
             destruct (String.eqb a b) eqn:?
         end;
    try discriminate H.
  apply String.eqb_eq. assumption.
Qed.

Lemma map_snd_combine (A B : Type) (l : list A) (l' : list B) :
  List.length l = List.length l' -> map snd (combine l l') = l'.
Proof.
  revert l'. induction l as [ | x l IH ]; intros [ | y l' ] H;
    try discriminate H; [ reflexivity | ].
  simpl. f_equal. apply IH. injection H as H. exact H.
Qed.

(** X5.  The trace of an operation other than [if] is the operator over
    the traces of its operands, one per operand and in their order, the
    operands written as a list; the other keys of the rule are not in it. *)
Theorem trace_shape (operator : string) (values data v t : value)
  (others : list (string * value)) :
  jsonLogic (VDict ((operator, values) :: others)) data = Ok (v, t) ->
  operator <> "if" ->
  exists results,
    Forall2 (fun val r => jsonLogic val data = Ok r) (operands values) results
    /\ t = node operator (map snd results).
Proof.
  intros H N. rewrite jsonLogic_activation in H. unfold activation in H.
  rewrite eval_operands_or_empty in H.
  destruct (eval_operands (fun val => jsonLogic val data) (operands values))
    as [ [new_values executed] | err ] eqn:E; [ | discriminate H ].
  cbn [bind] in H. destruct (eval_operands_results _ _ _ _ E) as [F L].
  exists (combine new_values executed). split; [ exact F | ].
  rewrite (map_snd_combine _ _ _ _ L).
  unfold dispatch in H.
  destruct (String.eqb operator "var").
  { destruct (call_get_var _ _); [ | discriminate H ].
    injection H as _ <-. reflexivity. }
  destruct (String.eqb operator "missing").
  { destruct (missing _ _); [ | discriminate H ].
    injection H as _ <-. reflexivity. }
  destruct (String.eqb operator "missing_some").
  { destruct (call_missing_some _ _); [ | discriminate H ].
    injection H as _ <-. reflexivity. }
  destruct (table_get operator operations) as [ [ f | f ] | ] eqn:T;
    [ | | discriminate H ].
  - destruct (f new_values); [ | discriminate H ].
    injection H as _ <-. reflexivity.
  - apply table_get_selector_name in T. contradiction.
Qed.

Lemma trace_shape_witness :
  jsonLogic (VDict [("!", VDict [("var", VStr "a")]); ("junk", VInt 0)])
    (VDict [("a", VInt 0)])
  = Ok (VBool true, VDict [("!", VList [VDict [("var", VList [VStr "a"])]])])
  /\ "!" <> "if"
  /\ exists results,
       Forall2 (fun val r => jsonLogic val (VDict [("a", VInt 0)]) = Ok r)
         (operands (VDict [("var", VStr "a")])) results
       /\ VDict [("!", VList [VDict [("var", VList [VStr "a"])]])]
          = node "!" (map snd results).
Proof.
  split; [ reflexivity | split; [ discriminate | ] ].
  apply (trace_shape "!" (VDict [("var", VStr "a")]) (VDict [("a", VInt 0)])
           (VBool true) _ [("junk", VInt 0)] eq_refl).
  discriminate.
Defined.

(** X6.  Let every operand of [{"if": operands}] evaluate.  If no
    condition is truthy and the number of operands is odd, the rule
    evaluates to what its last operand, the else, alone evaluates to: its
    value and its trace. *)
Theorem jsonLogic_if_else (operands : list value) (data : value)
  (results : list (value * value)) :
  Forall2 (fun operand r => jsonLogic operand data = Ok r) operands results ->
  no_truthy (map fst results) ->
  Nat.even (List.length operands) = false ->
  exists operand r,
    nth_error operands (List.length operands - 1) = Some operand
    /\ jsonLogic operand data = Ok r
    /\ jsonLogic (if_rule operands) data = Ok r.
Proof.
  intros H Hno Hodd. rewrite (jsonLogic_if _ _ _ H).
  assert (L : List.length (map fst results) = List.length operands)
    by (rewrite length_map; symmetry; apply (Forall2_length H)).
  destruct (if_from_else (map fst results) 0%nat Hno) as (last & Hlast & Hif).
  { rewrite L. exact Hodd. }
  unfold if_. rewrite Hif, L in *. cbn [Nat.add].
  rewrite nth_error_map in Hlast.
  destruct (nth_error results (List.length operands - 1)) as [ [v e] | ] eqn:Hr;
    [ | discriminate Hlast ].
  simpl in Hlast. injection Hlast as <-.
  destruct (Forall2_nth_error_right _ _ _ _ _ H _ _ Hr) as (operand & Ho & He).
  exists operand, (v, e). rewrite nth_error_map, Hr.
  repeat split; assumption.
Qed.

Lemma jsonLogic_if_else_witness :
  Forall2 (fun operand r => jsonLogic operand (VDict [("temp", VInt 200)]) = Ok r)
    temperature_operands
    [ (VBool false, VDict [("<", VList [VDict [("var", VList [VStr "temp"])]; VInt 0])]);
      (VStr "freezing", VStr "freezing");
      (VBool false, VDict [("<", VList [VDict [("var", VList [VStr "temp"])]; VInt 100])]);
      (VStr "liquid", VStr "liquid");
      (VStr "gas", VStr "gas") ]
  /\ jsonLogic (if_rule temperature_operands) (VDict [("temp", VInt 200)])
     = Ok (VStr "gas", VStr "gas").
Proof.
  assert (H : Forall2
                (fun operand r =>
                   jsonLogic operand (VDict [("temp", VInt 200)]) = Ok r)
                temperature_operands
                [ (VBool false,
                   VDict [("<", VList [VDict [("var", VList [VStr "temp"])]; VInt 0])]);
                  (VStr "freezing", VStr "freezing");
                  (VBool false,
                   VDict [("<", VList [VDict [("var", VList [VStr "temp"])]; VInt 100])]);
                  (VStr "liquid", VStr "liquid");
                  (VStr "gas", VStr "gas") ])
    by (repeat constructor).
  split; [ exact H | ].
  destruct (jsonLogic_if_else _ _ _ H) as (operand & r & Ho & He & Hrule).
  - intros j cond Hej Hlen Hcj.
    destruct j as [ | [ | [ | [ | j ] ] ] ];
      try discriminate Hej; try (injection Hcj as <-; reflexivity).
    simpl in Hlen. lia.
  - reflexivity.
  - injection Ho as <-. rewrite Hrule, <- He. reflexivity.
Defined.

(** X7.  On three operands that evaluate, [?:] and [if] return the same
    value, the second operand's when the first is truthy and the third's
    when it is not; [?:] keeps the three traces and [if] the trace of the
    branch only. *)
Theorem ternary_and_if (c a b data vc tc va ta vb tb : value) :
  jsonLogic c data = Ok (vc, tc) ->
  jsonLogic a data = Ok (va, ta) ->
  jsonLogic b data = Ok (vb, tb) ->
  jsonLogic (node "?:" [c; a; b]) data
  = Ok (if truthy vc then va else vb, node "?:" [tc; ta; tb])
  /\ jsonLogic (if_rule [c; a; b]) data
     = Ok (if truthy vc then va else vb, if truthy vc then ta else tb).
Proof.
  intros Hc Ha Hb.
  assert (H : Forall2 (fun val r => jsonLogic val data = Ok r)
                (operands (VList [c; a; b])) [(vc, tc); (va, ta); (vb, tb)])
    by (repeat constructor; assumption).
  unfold node, if_rule. rewrite !(jsonLogic_dispatch _ _ _ _ _ H).
  split.
  - reflexivity.
  - cbn. destruct (truthy vc); reflexivity.
Qed.

Lemma ternary_and_if_witness :
  jsonLogic (VDict [("var", VStr "a")]) (VDict [("a", VInt 0)])
  = Ok (VInt 0, VDict [("var", VList [VStr "a"])])
  /\ jsonLogic (node "?:" [VDict [("var", VStr "a")]; VStr "yes"; VStr "no"])
       (VDict [("a", VInt 0)])
     = Ok (VStr "no",
           node "?:" [VDict [("var", VList [VStr "a"])]; VStr "yes"; VStr "no"])
  /\ jsonLogic (if_rule [VDict [("var", VStr "a")]; VStr "yes"; VStr "no"])
       (VDict [("a", VInt 0)])
     = Ok (VStr "no", VStr "no").
Proof.
  split; [ reflexivity | ].
  apply (ternary_and_if (VDict [("var", VStr "a")]) (VStr "yes") (VStr "no")
           (VDict [("a", VInt 0)]) (VInt 0) (VDict [("var", VList [VStr "a"])])
           (VStr "yes") (VStr "yes") (VStr "no") (VStr "no"));
    reflexivity.
Defined.

(** ** [and] and [or] *)

Lemma last_cons (A : Type) (l : list A) :
  forall a d, last (a :: l) d = last l a.
Proof.
  induction l as [ | x l IH ]; intros a d; [ reflexivity | ].
  change (last (a :: x :: l) d) with (last (x :: l) d).
  rewrite !IH. reflexivity.
Qed.

Lemma fold_and_first_falsy (args : list value) :
  forall total, truthy total = true ->
    fold_left and_ args total = first_or_last false total args.
Proof.
  induction args as [ | arg rest IH ]; intros total H; [ reflexivity | ].
  cbn [fold_left]. unfold and_ at 2. rewrite H.
  unfold first_or_last. cbn [find]. destruct (truthy arg) eqn:T; cbn [Bool.eqb].
  - rewrite (IH arg T). unfold first_or_last. rewrite last_cons. reflexivity.
  - apply fold_and_falsy, T.
Qed.

Lemma fold_or_first_truthy (args : list value) :
  forall total, truthy total = false ->
    fold_left or_ args total = first_or_last true total args.
Proof.
  induction args as [ | arg rest IH ]; intros total H; [ reflexivity | ].
  cbn [fold_left]. unfold or_ at 2. rewrite H.
  unfold first_or_last. cbn [find]. destruct (truthy arg) eqn:T; cbn [Bool.eqb].
  - apply fold_or_truthy, T.
  - rewrite (IH arg T). unfold first_or_last. rewrite last_cons. reflexivity.
Qed.

(** X8.  Once its operands are evaluated, [and] returns the value of the
    first falsy operand, or of the last operand when all are truthy, and
    [or] the value of the first truthy operand, or of the last operand when
    all are falsy: a value of an operand, not a boolean made of it.  No
    operand is skipped: the trace has them all. *)
Theorem and_or_value (operands : list value) (data : value)
  (results : list (value * value)) :
  Forall2 (fun operand r => jsonLogic operand data = Ok r) operands results ->
  jsonLogic (node "and" operands) data
  = Ok (first_or_last false (VBool true) (map fst results),
        node "and" (map snd results))
  /\ jsonLogic (node "or" operands) data
     = Ok (first_or_last true (VBool false) (map fst results),
           node "or" (map snd results)).
Proof.
  intros H. unfold node.
  rewrite !(jsonLogic_dispatch _ (VList operands) _ _ _ H). split.
  - cbn. rewrite fold_and_first_falsy by reflexivity. reflexivity.
  - cbn. rewrite fold_or_first_truthy by reflexivity. reflexivity.
Qed.

Lemma and_or_value_witness :
  Forall2 (fun operand r => jsonLogic operand VNone = Ok r)
    [VBool true; VStr ""; VInt 3]
    [(VBool true, VBool true); (VStr "", VStr ""); (VInt 3, VInt 3)]
  /\ jsonLogic (node "and" [VBool true; VStr ""; VInt 3]) VNone
     = Ok (VStr "", node "and" [VBool true; VStr ""; VInt 3])
  /\ jsonLogic (node "or" [VBool true; VStr ""; VInt 3]) VNone
     = Ok (VBool true, node "or" [VBool true; VStr ""; VInt 3]).
Proof.
  assert (H : Forall2 (fun operand r => jsonLogic operand VNone = Ok r)
                [VBool true; VStr ""; VInt 3]
                [(VBool true, VBool true); (VStr "", VStr ""); (VInt 3, VInt 3)])
    by (repeat constructor).
  split; [ exact H | ].
  apply (and_or_value [VBool true; VStr ""; VInt 3] VNone _ H).
Defined.

(** ** Chained comparisons *)

Lemma less_unfold (a b : value) (args : list value) :
  less a b args
  = if float_or_int a b then
      match (x <- py_float a ;; y <- py_float b ;; Ok (x, y)) with
      | Ok (x, y) =>
          lt <- py_lt (VFloat x) (VFloat y) ;;
          if lt then match args with
                     | [] => Ok true
                     | c :: rest => less (VFloat y) c rest
                     end
          else Ok false
      | Raise TypeError => Ok false
      | Raise e => Raise e
      end
    else
      lt <- py_lt a b ;;
      if lt then match args with
                 | [] => Ok true
                 | c :: rest => less b c rest
                 end
      else Ok false.
Proof.
  destruct args; reflexivity.
Qed.

(** A number and the float it converts to compare alike with what
    follows. *)
Lemma less_of_converted (b c : value) (rest : list value) (y : spec_float) :
  type_of b = TInt \/ type_of b = TFloat ->
  py_float b = Ok y ->
  less (VFloat y) c rest = less b c rest.
Proof.
  intros T B. rewrite (less_unfold (VFloat y)), (less_unfold b).
  assert (F : float_or_int b c = true)
    by (destruct T as [ T | T ]; unfold float_or_int; rewrite T;
        [ reflexivity | destruct (type_of c); reflexivity ]).
  rewrite F, B. reflexivity.
Qed.

(** X9.  A comparison chained over a number is the conjunction of the two
    comparisons that meet at it: when the second operand is an [int] or a
    [float], [less(a, b, c, ...)] is [less(a, b)] and then, if that holds,
    [less(b, c, ...)], with the same errors. *)
Theorem less_chained (a b c : value) (rest : list value) :
  type_of b = TInt \/ type_of b = TFloat ->
  less a b (c :: rest)
  = (lt <- less a b [] ;; if lt then less b c rest else Ok false).
Proof.
  intros T. rewrite (less_unfold a b (c :: rest)), (less_unfold a b []).
  assert (F : float_or_int a b = true)
    by (destruct T as [ T | T ]; unfold float_or_int; rewrite T;
        destruct (type_of a); reflexivity).
  rewrite F.
  destruct (py_float a) as [ x | e ]; cbn [bind].
  - destruct (py_float b) as [ y | e ] eqn:B; cbn [bind].
    + destruct (py_lt (VFloat x) (VFloat y)) as [ [ | ] | e ]; cbn [bind];
        try reflexivity.
      apply (less_of_converted b c rest y T B).
    + destruct e; reflexivity.
  - destruct e; reflexivity.
Qed.

Lemma less_chained_witness :
  (type_of (VInt 2) = TInt \/ type_of (VInt 2) = TFloat)
  /\ less (VInt 1) (VInt 2) [VInt 3]
     = (lt <- less (VInt 1) (VInt 2) [] ;;
        if lt then less (VInt 2) (VInt 3) [] else Ok false).
Proof.
  split; [ left; reflexivity | ].
  apply (less_chained (VInt 1) (VInt 2) (VInt 3) []). left. reflexivity.
Defined.

(** The chain does not split at a string: ["2"] is compared as the float
    2.0 with what follows, and as a string on its own. *)
Example less_chained_string :
  less (VInt 1) (VStr "2") [VStr "10"] = Ok true
  /\ less (VStr "2") (VStr "10") [] = Ok false.
Proof. split; vm_compute; reflexivity. Qed.

(** ** Paths *)

Lemma walk_errors (keys : list string) :
  forall data e,
    walk data keys = Raise e ->
    handled e = true \/ e = IndexError.
Proof.
  induction keys as [ | key rest IH ]; intros data e H; [ discriminate H | ].
  cbn [walk] in H.
  destruct (getitem_str data key) as [ v | err ] eqn:G.
  - apply (IH _ _ H).
  - assert (K : err = KeyError \/ err = TypeError).
    { unfold getitem_str in G. destruct data; try (injection G as <-; auto).
      destruct (dict_get key kvs); [ discriminate G | injection G as <-; auto ]. }
    destruct K as [ -> | -> ].
    + injection H as <-. left. reflexivity.
    + unfold py_int in H. destruct (int_of_string key) as [ i | ].
      * cbn [bind] in H. destruct (getitem_int data i) as [ v | err ] eqn:I.
        -- apply (IH _ _ H).
        -- injection H as <-. unfold getitem_int in I.
           destruct data; try (injection I as <-; auto);
             repeat match type of I with
                    | context [ match ?x with _ => _ end ] => destruct x
                    end;
             try discriminate I; injection I as <-; auto.
      * injection H as <-. left. reflexivity.
Qed.

(** X10.  [get_var] raises in two ways only: [ValueError("Unknown variable:
    ...")], and that only without a default (or with the default [None]),
    and [IndexError], when a segment indexes a list or a string out of
    range.  With a default it returns the value found or the default, or
    raises [IndexError]. *)
Theorem get_var_raises (data var_name not_found : value) (e : exn) :
  get_var data var_name not_found = Raise e ->
  e = IndexError
  \/ (not_found = VNone /\ e = ValueError (UnknownVariable (py_str var_name))).
Proof.
  unfold get_var, lookup. intros H.
  destruct (walk data (split_dot (py_str var_name))) as [ v | err ] eqn:W;
    [ discriminate H | ].
  destruct (walk_errors _ _ _ W) as [ Hh | -> ].
  - rewrite Hh in H. destruct not_found; try discriminate H.
    injection H as <-. right. split; reflexivity.
  - cbn in H. injection H as <-. left. reflexivity.
Qed.

Lemma get_var_raises_witness :
  get_var (VDict [("a", VList [VInt 1])]) (VStr "a.3") (VInt 0) = Raise IndexError
  /\ (IndexError = IndexError
      \/ (VInt 0 = VNone
          /\ IndexError = ValueError (UnknownVariable (py_str (VStr "a.3"))))).
Proof.
  split; [ reflexivity | ].
  apply (get_var_raises (VDict [("a", VList [VInt 1])]) (VStr "a.3") (VInt 0)).
  reflexivity.
Defined.

Lemma split_dot_nonempty (s : string) : split_dot s <> [].
Proof.
  destruct s as [ | c s ]; simpl; [ discriminate | ].
  destruct (c =? ".")%char; [ discriminate | ].
  destruct (split_dot s); discriminate.
Qed.

Lemma split_dot_join (p q : string) :
  split_dot (p ++ "." ++ q) = (split_dot p ++ split_dot q)%list.
Proof.
  induction p as [ | c p IH ].
  - reflexivity.
  - cbn [append split_dot]. cbn [append] in IH. rewrite IH.
    destruct (c =? ".")%char; [ reflexivity | ].
    destruct (split_dot p) as [ | h t ] eqn:E.
    + exfalso. apply (split_dot_nonempty p E).
    + reflexivity.
Qed.

Lemma walk_app (keys more : list string) :
  forall data,
    walk data (keys ++ more) = (v <- walk data keys ;; walk v more).
Proof.
  induction keys as [ | key rest IH ]; intros data; [ reflexivity | ].
  cbn [app walk].
  destruct (getitem_str data key) as [ v | e ].
  - apply IH.
  - destruct e; try reflexivity.
    destruct (py_int key) as [ i | e ]; [ | reflexivity ]. cbn [bind].
    destruct (getitem_int data i) as [ v | e ]; [ | reflexivity ]. cbn [bind].
    apply IH.
Qed.

(** X11.  Paths compose: looking up [p.q] is looking up [p] and then
    looking up [q] in what was found, with the error of the step that
    fails. *)
Theorem lookup_path (data : value) (p q : string) :
  lookup data (VStr (p ++ "." ++ q))
  = (v <- lookup data (VStr p) ;; lookup v (VStr q)).
Proof.
  unfold lookup. cbn [py_str]. rewrite split_dot_join. apply walk_app.
Qed.

(** ** [missing] and [missing_some] *)

Lemma missing_loop_filter (data : value) (names : list value) :
  forall l,
    missing_loop data names = Ok l ->
    l = filter (lookup_fails data) names
    /\ exists flags,
         Forall2 (fun name nf => not_found_in data name = Ok nf) names flags
         /\ l = failed_names names flags
         /\ found_count flags
            = Z.of_nat (List.length names) - Z.of_nat (List.length l).
Proof.
  induction names as [ | name rest IH ]; intros l H.
  - injection H as <-. split; [ reflexivity | ].
    exists []. repeat split. constructor.
  - cbn [missing_loop] in H.
    destruct (not_found_in data name) as [ nf | e ] eqn:N; [ | discriminate H ].
    cbn [bind] in H.
    destruct (missing_loop data rest) as [ ret | e ]; [ | discriminate H ].
    cbn [bind] in H. injection H as <-.
    destruct (IH ret eq_refl) as (Hf & flags & F & Hl & Hc).
    split.
    + cbn [filter]. unfold lookup_fails at 1. rewrite N.
      destruct nf; rewrite <- Hf; reflexivity.
    + exists (nf :: flags). split; [ constructor; assumption | ].
      destruct nf; cbn [failed_names].
      * split; [ rewrite <- Hl; reflexivity | ].
        unfold found_count in *. cbn [filter negb List.length]. lia.
      * split; [ exact Hl | ].
        unfold found_count in *. cbn [filter negb List.length]. lia.
Qed.

(** X12.  When [missing] returns, it returns the names whose lookup fails,
    each once for each time it is given and in the order given; a name that
    is found with the value [None], [False] or zero is not missing. *)
Theorem missing_is_filter (data : value) (names l : list value) :
  missing data [VList names] = Ok l ->
  l = filter (lookup_fails data) names.
Proof.
  intros H. apply (missing_loop_filter data names l H).
Qed.

Lemma missing_is_filter_witness :
  missing (VDict [("a", VNone); ("c", VInt 0)])
    [VList [VStr "b"; VStr "a"; VStr "c"; VStr "b"]]
  = Ok [VStr "b"; VStr "b"]
  /\ [VStr "b"; VStr "b"]
     = filter (lookup_fails (VDict [("a", VNone); ("c", VInt 0)]))
         [VStr "b"; VStr "a"; VStr "c"; VStr "b"].
Proof.
  split; [ reflexivity | ].
  apply (missing_is_filter (VDict [("a", VNone); ("c", VInt 0)])
           [VStr "b"; VStr "a"; VStr "c"; VStr "b"]).
  reflexivity.
Defined.

(** X13.  [missing_some] agrees with [missing]: when [missing] returns the
    list [l] for the names, [missing_some] with a requirement of one or
    more returns the empty list if the names not in [l], the names found,
    are as many as required, and returns [l] if they are fewer. *)
Theorem missing_some_of_missing (data : value) (n : Z) (names l : list value) :
  1 <= n ->
  missing data [VList names] = Ok l ->
  missing_some data (VInt n) (VList names)
  = Ok (if n <=? Z.of_nat (List.length names) - Z.of_nat (List.length l)
        then [] else l).
Proof.
  intros Hn H.
  destruct (missing_loop_filter data names l H) as (_ & flags & F & -> & Hc).
  rewrite (missing_some_decided data n names flags Hn F), Hc. reflexivity.
Qed.

Lemma missing_some_of_missing_witness :
  1 <= 2
  /\ missing (VDict [("a", VStr "apple")]) [VList [VStr "a"; VStr "b"; VStr "c"]]
     = Ok [VStr "b"; VStr "c"]
  /\ missing_some (VDict [("a", VStr "apple")]) (VInt 2)
       (VList [VStr "a"; VStr "b"; VStr "c"])
     = Ok [VStr "b"; VStr "c"].
Proof.
  split; [ lia | split; [ reflexivity | ] ].
  apply (missing_some_of_missing (VDict [("a", VStr "apple")]) 2
           [VStr "a"; VStr "b"; VStr "c"] [VStr "b"; VStr "c"]).
  - lia.
  - reflexivity.
Defined.

Lemma walk_no_index (keys : list string) :
  forallb (fun key => match int_of_string key with
                      | None => true
                      | Some _ => false
                      end) keys = true ->
  forall data e, walk data keys = Raise e -> handled e = true.
Proof.
  induction keys as [ | key rest IH ]; intros K data e H; [ discriminate H | ].
  cbn [forallb] in K. apply andb_prop in K as [Kkey Krest].
  cbn [walk] in H.
  destruct (getitem_str data key) as [ v | err ] eqn:G.
  - apply (IH Krest _ _ H).
  - unfold getitem_str in G. unfold py_int in H.
    destruct (int_of_string key); [ discriminate Kkey | ].
    destruct data; try (injection G as <-; injection H as <-; reflexivity).
    destruct (dict_get key kvs); [ discriminate G | ].
    injection G as <-. injection H as <-. reflexivity.
Qed.

Lemma not_found_in_no_index (data name : value) :
  no_index name = true -> exists nf, not_found_in data name = Ok nf.
Proof.
  intros K. unfold not_found_in, lookup.
  destruct (walk data (split_dot (py_str name))) as [ v | e ] eqn:W.
  - exists false. reflexivity.
  - rewrite (walk_no_index _ K _ _ W). exists true. reflexivity.
Qed.

Lemma decided_no_index (data : value) (names : list value) :
  Forall (fun name => no_index name = true) names ->
  exists flags,
    Forall2 (fun name nf => not_found_in data name = Ok nf) names flags.
Proof.
  induction 1 as [ | name rest K _ (flags & F) ].
  - exists []. constructor.
  - destruct (not_found_in_no_index data name K) as (nf & N).
    exists (nf :: flags). constructor; assumption.
Qed.

Lemma missing_loop_decided (data : value) (names : list value)
  (flags : list bool) :
  Forall2 (fun name nf => not_found_in data name = Ok nf) names flags ->
  missing_loop data names = Ok (failed_names names flags).
Proof.
  induction 1 as [ | name nf names flags N _ IH ]; [ reflexivity | ].
  cbn [missing_loop]. rewrite N, IH. destruct nf; reflexivity.
Qed.

(** X14.  Names without a segment that reads as an integer are looked up
    without an error on every data context, lists and strings included:
    [missing] and [missing_some] return a list for them, and [var] with a
    default returns the value found or the default. *)
Theorem names_without_index (data : value) (n : Z) (names : list value) :
  Forall (fun name => no_index name = true) names ->
  (exists l, missing data [VList names] = Ok l)
  /\ (exists l, missing_some data (VInt n) (VList names) = Ok l)
  /\ (forall name not_found,
        In name names -> not_found <> VNone ->
        exists v, get_var data name not_found = Ok v).
Proof.
  intros K. destruct (decided_no_index data names K) as (flags & F).
  split; [ | split ].
  - eexists. apply (missing_loop_decided data names flags F).
  - destruct (Z.lt_ge_cases n 1) as [ Hlt | Hge ].
    + eexists. apply (missing_some_below_one _ _ _ Hlt).
    + eexists. apply (missing_some_decided data n names flags Hge F).
  - intros name not_found Hin Hnf. rewrite Forall_forall in K.
    unfold get_var, lookup.
    destruct (walk data (split_dot (py_str name))) as [ v | e ] eqn:W.
    + exists v. reflexivity.
    + rewrite (walk_no_index _ (K name Hin) _ _ W).
      exists not_found. destruct not_found; try reflexivity. contradiction.
Qed.

Lemma names_without_index_witness :
  Forall (fun name => no_index name = true) [VStr "first.name"; VStr "age"]
  /\ (exists l, missing (VList [VStr "x"]) [VList [VStr "first.name"; VStr "age"]]
               = Ok l).
Proof.
  assert (K : Forall (fun name => no_index name = true)
                [VStr "first.name"; VStr "age"])
    by (repeat constructor).
  split; [ exact K | ].
  apply (names_without_index (VList [VStr "x"]) 1
           [VStr "first.name"; VStr "age"] K).
Defined.

(** ** Lists and arithmetic *)

(** X15.  [merge] flattens one level and never more: the arguments that
    are lists give their items, the others themselves, in order.  So the
    merge of lists is their concatenation, the merge of arguments that are
    no lists is the arguments, and merging all the arguments is merging
    them in two parts and joining the results. *)
Theorem merge_flattens :
  (forall args more, merge (args ++ more) = (merge args ++ merge more)%list)
  /\ (forall lists, merge (map VList lists) = List.concat lists)
  /\ (forall args, forallb (fun arg => negb (is_sequence arg)) args = true ->
        merge args = args).
Proof.
  unfold merge. split; [ | split ].
  - intros args more. apply flat_map_app.
  - induction lists as [ | l lists IH ]; [ reflexivity | ].
    cbn [map flat_map List.concat]. rewrite IH. reflexivity.
  - induction args as [ | arg args IH ]; intros H; [ reflexivity | ].
    cbn [forallb] in H. apply andb_prop in H as [Harg Hrest].
    cbn [flat_map]. rewrite (IH Hrest).
    destruct arg; try reflexivity. discriminate Harg.
Qed.

Lemma merge_flattens_witness :
  forallb (fun arg => negb (is_sequence arg)) [VInt 1; VStr "a"; VNone] = true
  /\ merge [VInt 1; VStr "a"; VNone] = [VInt 1; VStr "a"; VNone].
Proof.
  split; [ reflexivity | ].
  apply (proj2 (proj2 merge_flattens)). reflexivity.
Defined.

Lemma reduce_plus_integers (ns : list Z) :
  forall total,
    reduce (fun total arg => x <- to_numeric arg ;; py_add total x)
      (map VInt ns) (VInt total)
    = Ok (VInt (total + sum_Z ns)).
Proof.
  induction ns as [ | n ns IH ]; intros total; cbn [map reduce sum_Z fold_right].
  - rewrite Z.add_0_r. reflexivity.
  - cbn [to_numeric bind]. unfold py_add, arith. cbn [as_number num_arith bind].
    rewrite IH. unfold sum_Z. rewrite Z.add_assoc. reflexivity.
Qed.

(** X16.  [+] on integers is their exact sum, an integer of any size, with
    no conversion to floating point; without an operand it is 0. *)
Theorem plus_integers (ns : list Z) :
  plus (map VInt ns) = Ok (VInt (sum_Z ns)).
Proof.
  unfold plus. rewrite reduce_plus_integers. reflexivity.
Qed.

Lemma times_float (total arg v : value) :
  times total arg = Ok v -> type_of v = TFloat.
Proof.
  unfold times, py_mul, arith. intros H.
  destruct (py_float arg) as [ x | e ]; [ | discriminate H ]. cbn [bind] in H.
  destruct (as_number total) as [ [ n | y ] | ]; [ | | discriminate H ];
    cbn [as_number num_arith bind] in H;
    match type of H with
    | context [ num_to_float ?z ] => destruct (num_to_float z)
    end;
    try discriminate H; cbn [bind num_to_float] in H;
    injection H as <-; reflexivity.
Qed.

Lemma reduce_times_float (args : list value) :
  forall total v,
    type_of total = TFloat ->
    reduce times args total = Ok v -> type_of v = TFloat.
Proof.
  induction args as [ | arg rest IH ]; intros total v T H.
  - injection H as <-. exact T.
  - cbn [reduce] in H. destruct (times total arg) as [ t | e ] eqn:E;
      [ | discriminate H ].
    cbn [bind] in H. apply (IH t v (times_float _ _ _ E) H).
Qed.

(** X17.  [*] with one operand or more returns a [float] whenever it
    returns, also on integers ([2 * 3] is [6.0]): every operand goes
    through [float()].  Without an operand it returns the integer 1. *)
Theorem times_is_float (arg : value) (rest : list value) (v : value) :
  reduce times (arg :: rest) (VInt 1) = Ok v -> type_of v = TFloat.
Proof.
  cbn [reduce]. intros H.
  destruct (times (VInt 1) arg) as [ t | e ] eqn:E; [ | discriminate H ].
  cbn [bind] in H. apply (reduce_times_float rest t v (times_float _ _ _ E) H).
Qed.

Lemma times_is_float_witness :
  reduce times [VInt 2; VStr "3"] (VInt 1) = Ok (VFloat (float_of_Z 6))
  /\ type_of (VFloat (float_of_Z 6)) = TFloat.
Proof.
  split; [ vm_compute; reflexivity | ].
  apply (times_is_float (VInt 2) [VStr "3"] (VFloat (float_of_Z 6))).
  vm_compute. reflexivity.
Defined.

Lemma select_min_integers (ns : list Z) :
  forall n,
    select_from py_lt (VInt n) (map VInt ns) = Ok (VInt (fold_left Z.min ns n)).
Proof.
  induction ns as [ | m ns IH ]; intros n; [ reflexivity | ].
  cbn [map select_from fold_left]. rewrite py_lt_int. cbn [bind].
  destruct (m <? n) eqn:L; rewrite IH; do 2 f_equal.
  - apply Z.ltb_lt in L. rewrite Z.min_r by lia. reflexivity.
  - apply Z.ltb_ge in L. rewrite Z.min_l by lia. reflexivity.
Qed.

Lemma select_max_integers (ns : list Z) :
  forall n,
    select_from py_gt (VInt n) (map VInt ns) = Ok (VInt (fold_left Z.max ns n)).
Proof.
  induction ns as [ | m ns IH ]; intros n; [ reflexivity | ].
  cbn [map select_from fold_left]. unfold py_gt at 1. rewrite py_lt_int.
  cbn [bind].
  destruct (n <? m) eqn:L; rewrite IH; do 2 f_equal.
  - apply Z.ltb_lt in L. rewrite Z.max_r by lia. reflexivity.
  - apply Z.ltb_ge in L. rewrite Z.max_l by lia. reflexivity.
Qed.

(** X18.  [min] and [max] of integers are the least and the greatest of
    them, compared exactly at any size; without an operand both raise a
    [ValueError], not a [TypeError]. *)
Theorem min_max_integers (n : Z) (ns : list Z) :
  py_min (map VInt (n :: ns)) = Ok (VInt (fold_left Z.min ns n))
  /\ py_max (map VInt (n :: ns)) = Ok (VInt (fold_left Z.max ns n))
  /\ py_min [] = Raise (ValueError EmptySequence)
  /\ py_max [] = Raise (ValueError EmptySequence).
Proof.
  repeat split.
  - apply select_min_integers.
  - apply select_max_integers.
Qed.

(** X19.  [and], [or], [merge] and [count] accept any number of operands
    of any kind: once the operands are evaluated, the rule returns a value,
    with the operator over the traces of the operands as its trace. *)
Theorem lenient_operators_return (operator : string) (operands : list value)
  (data : value) (results : list (value * value)) :
  In operator lenient_operators ->
  Forall2 (fun operand r => jsonLogic operand data = Ok r) operands results ->
  exists v,
    jsonLogic (node operator operands) data
    = Ok (v, node operator (map snd results)).
Proof.
  intros Hin H. unfold node.
  rewrite (jsonLogic_dispatch _ (VList operands) _ _ _ H).
  cbn in Hin.
  destruct Hin as [ <- | [ <- | [ <- | [ <- | [] ] ] ] ];
    eexists; reflexivity.
Qed.

Lemma lenient_operators_return_witness :
  In "count" lenient_operators
  /\ Forall2 (fun operand r => jsonLogic operand VNone = Ok r)
       [VInt 1; VNone; VList []] [(VInt 1, VInt 1); (VNone, VNone); (VList [], VList [])]
  /\ exists v,
       jsonLogic (node "count" [VInt 1; VNone; VList []]) VNone
       = Ok (v, node "count" [VInt 1; VNone; VList []]).
Proof.
  assert (H : Forall2 (fun operand r => jsonLogic operand VNone = Ok r)
                [VInt 1; VNone; VList []]
                [(VInt 1, VInt 1); (VNone, VNone); (VList [], VList [])])
    by (repeat constructor).
  split; [ cbn; auto | split; [ exact H | ] ].
  apply (lenient_operators_return "count" [VInt 1; VNone; VList []] VNone
           [(VInt 1, VInt 1); (VNone, VNone); (VList [], VList [])]).
  - cbn. auto.
  - exact H.
Defined.

(** ** Errors of the equalities *)

(** X20.  Strict equality raises in one case only: two different integers
    of which one is beyond the range of [float], which [math.isclose] cannot
    convert; the error is [OverflowError]. *)
Theorem hard_equals_raises (a b : value) (e : exn) :
  hard_equals a b = Raise e ->
  e = OverflowError
  /\ exists m n,
       a = VInt m /\ b = VInt n /\ m <> n
       /\ (float_of_int m = Raise OverflowError
           \/ float_of_int n = Raise OverflowError).
Proof.
  unfold hard_equals, almost_equal, isclose. intros H.
  destruct (pytype_eqb (type_of a) (type_of b)) eqn:T; [ | discriminate H ].
  cbn [negb] in H. destruct (py_eq a b) eqn:Q; [ discriminate H | ].
  apply pytype_eqb_eq in T.
  destruct a as [ | [ | ] | m | x | | | ], b as [ | [ | ] | n | y | | | ];
    try discriminate T; try discriminate H.
  cbn [as_number bind num_to_float] in H. unfold float_of_int in H |- *.
  assert (D : m <> n).
  { intros ->. cbn in Q. unfold num_eqb in Q. cbn in Q.
    rewrite Z.compare_refl in Q. discriminate Q. }
  destruct (float_is_inf (float_of_Z m)) eqn:Fm.
  - injection H as <-. split; [ reflexivity | ].
    exists m, n. split; [ reflexivity | split; [ reflexivity | split ] ].
    + exact D.
    + left. unfold float_of_int. rewrite Fm. reflexivity.
  - cbn [bind] in H.
    destruct (float_is_inf (float_of_Z n)) eqn:Fn; [ | discriminate H ].
    injection H as <-. split; [ reflexivity | ].
    exists m, n. split; [ reflexivity | split; [ reflexivity | split ] ].
    + exact D.
    + right. unfold float_of_int. rewrite Fn. reflexivity.
Qed.

Lemma hard_equals_raises_witness :
  hard_equals (VInt (2 ^ 1024)) (VInt 1) = Raise OverflowError
  /\ OverflowError = OverflowError.
Proof.
  split; [ vm_compute; reflexivity | ].
  apply (hard_equals_raises (VInt (2 ^ 1024)) (VInt 1) OverflowError).
  vm_compute. reflexivity.
Defined.

(** ** Integers written as text *)

Lemma digit_not_space (c : ascii) : is_digit c = true -> is_space c = false.
Proof.
  unfold is_digit, is_space. intros H. apply andb_prop in H as [H1 H2].
  apply Z.leb_le in H1, H2. cbv zeta.
  repeat (apply orb_false_intro).
  - apply andb_false_intro2. apply Z.leb_gt. lia.
  - apply Z.eqb_neq. lia.
  - apply Z.eqb_neq. lia.
  - apply Z.eqb_neq. lia.
Qed.

Lemma digit_not_char (c d : ascii) :
  is_digit c = true -> is_digit d = false -> (c =? d)%char = false.
Proof.
  intros Hc Hd. destruct (Ascii.eqb_spec c d) as [ -> | ]; [ | reflexivity ].
  rewrite Hc in Hd. discriminate Hd.
Qed.

Lemma drop_spaces_digits (cs : list ascii) :
  forallb is_digit cs = true -> drop_spaces cs = cs.
Proof.
  destruct cs as [ | c cs ]; [ reflexivity | ]. cbn [forallb drop_spaces].
  intros H. apply andb_prop in H as [H _].
  rewrite (digit_not_space c H). reflexivity.
Qed.

Lemma forallb_rev {A : Type} (f : A -> bool) (l : list A) :
  forallb f (rev l) = forallb f l.
Proof.
  induction l as [ | a l IH ]; [ reflexivity | ].
  cbn [rev forallb]. rewrite forallb_app, IH. cbn [forallb].
  rewrite andb_true_r. apply andb_comm.
Qed.

Lemma strip_digits (cs : list ascii) :
  forallb is_digit cs = true -> strip cs = cs.
Proof.
  intros H. unfold strip. rewrite (drop_spaces_digits cs H).
  rewrite drop_spaces_digits by (rewrite forallb_rev; exact H).
  apply rev_involutive.
Qed.

Lemma strip_minus_digits (cs : list ascii) :
  nonempty cs = true -> forallb is_digit cs = true ->
  strip ("-"%char :: cs) = "-"%char :: cs.
Proof.
  intros N H. unfold strip. cbn [drop_spaces]. change (is_space "-") with false.
  cbv iota. cbn [rev].
  assert (R : drop_spaces (rev cs ++ ["-"%char]) = (rev cs ++ ["-"%char])%list).
  { destruct (rev cs) as [ | c r ] eqn:E.
    - apply (f_equal (@rev ascii)) in E. rewrite rev_involutive in E.
      subst cs. discriminate N.
    - cbn [app drop_spaces].
      assert (D : is_digit c = true).
      { rewrite <- forallb_rev, E in H. cbn [forallb] in H.
        apply andb_prop in H as [H _]. exact H. }
      rewrite (digit_not_space c D). reflexivity. }
  rewrite R, rev_app_distr, rev_involutive. reflexivity.
Qed.

Lemma remove_underscores_digits (cs : list ascii) :
  forallb is_digit cs = true ->
  forall prev, is_underscore prev = false ->
    remove_underscores_after prev cs = Some cs.
Proof.
  induction cs as [ | c cs IH ]; intros H prev P; cbn [remove_underscores_after].
  - rewrite P. reflexivity.
  - cbn [forallb] in H. apply andb_prop in H as [Hc Hcs].
    assert (U : (c =? "_")%char = false)
      by (apply (digit_not_char c "_" Hc); reflexivity).
    rewrite U, P. cbn [andb]. rewrite (IH Hcs (Some c) U). reflexivity.
Qed.

Lemma int_of_string_digits (cs : list ascii) :
  nonempty cs = true -> forallb is_digit cs = true ->
  int_of_string (string_of_list_ascii cs) = Some (digits_value cs)
  /\ int_of_string (string_of_list_ascii ("-"%char :: cs))
     = Some (- digits_value cs).
Proof.
  intros N H. unfold int_of_string.
  rewrite !list_ascii_of_string_of_list_ascii.
  rewrite (strip_digits cs H), (strip_minus_digits cs N H).
  split.
  - destruct cs as [ | c cs ]; [ discriminate N | ].
    assert (Hc : is_digit c = true)
      by (cbn [forallb] in H; apply andb_prop in H as [Hc _]; exact Hc).
    unfold split_sign.
    rewrite (digit_not_char c "-" Hc eq_refl), (digit_not_char c "+" Hc eq_refl).
    unfold remove_underscores.
    rewrite (remove_underscores_digits _ H None eq_refl), H. reflexivity.
  - unfold split_sign. change ("-" =? "-")%char with true. cbv iota.
    unfold remove_underscores.
    rewrite (remove_underscores_digits _ H None eq_refl), N, H. reflexivity.
Qed.

Lemma digits_of_digits (d : Decimal.uint) : forallb is_digit (digits_of d) = true.
Proof.
  unfold digits_of. induction d; [ reflexivity | .. ];
    cbn [NilEmpty.string_of_uint list_ascii_of_string forallb];
    rewrite IHd; reflexivity.
Qed.

Lemma digits_value_acc (d : Decimal.uint) :
  forall acc,
    fold_left (fun acc c => 10 * acc + digit_value c) (digits_of d) (Z.pos acc)
    = Z.pos (Pos.of_uint_acc d acc).
Proof.
  unfold digits_of. induction d; intros acc; [ reflexivity | .. ];
    cbn [NilEmpty.string_of_uint list_ascii_of_string fold_left Pos.of_uint_acc];
    rewrite <- IHd; apply f_equal; cbv beta;
    match goal with
    | |- context [ digit_value ?c ] =>
        let v := eval vm_compute in (digit_value c) in
        change (digit_value c) with v
    end; lia.
Qed.

Lemma digits_value_numeral (d : Decimal.uint) :
  digits_value (digits_of d) = Z.of_N (Pos.of_uint d).
Proof.
  unfold digits_value, digits_of. induction d; [ reflexivity | exact IHd | .. ];
    cbn [NilEmpty.string_of_uint list_ascii_of_string fold_left Pos.of_uint];
    cbn [Z.of_N]; rewrite <- digits_value_acc; reflexivity.
Qed.

Lemma digits_of_nonempty (d : Decimal.uint) :
  d <> Decimal.Nil -> nonempty (digits_of d) = true.
Proof.
  destruct d; [ contradiction | .. ]; reflexivity.
Qed.

Lemma string_of_positive (p : positive) :
  NilZero.string_of_uint (Pos.to_uint p)
  = string_of_list_ascii (digits_of (Pos.to_uint p)).
Proof.
  unfold digits_of. rewrite string_of_list_ascii_of_string.
  pose proof (DecimalPos.Unsigned.to_uint_nonnil p) as N.
  destruct (Pos.to_uint p); [ contradiction | .. ]; reflexivity.
Qed.

Lemma digits_value_positive (p : positive) :
  digits_value (digits_of (Pos.to_uint p)) = Z.pos p.
Proof.
  rewrite digits_value_numeral, DecimalPos.Unsigned.of_to. reflexivity.
Qed.

Lemma int_of_string_of_Z (n : Z) : int_of_string (string_of_Z n) = Some n.
Proof.
  destruct n as [ | p | p ]; [ reflexivity | | ];
    unfold string_of_Z; cbn [Z.to_int NilZero.string_of_int];
    rewrite string_of_positive;
    destruct (int_of_string_digits (digits_of (Pos.to_uint p))
                (digits_of_nonempty _ (DecimalPos.Unsigned.to_uint_nonnil p))
                (digits_of_digits _)) as [Hpos Hneg].
  - rewrite Hpos, digits_value_positive. reflexivity.
  - change (String "-" (string_of_list_ascii (digits_of (Pos.to_uint p))))
      with (string_of_list_ascii ("-"%char :: digits_of (Pos.to_uint p))).
    rewrite Hneg, digits_value_positive. reflexivity.
Qed.

Lemma no_dot_digits (cs : list ascii) :
  forallb is_digit cs = true -> existsb (fun c => (c =? ".")%char) cs = false.
Proof.
  induction cs as [ | c cs IH ]; [ reflexivity | ]. cbn [forallb existsb].
  intros H. apply andb_prop in H as [Hc Hcs].
  rewrite (digit_not_char c "." Hc eq_refl), (IH Hcs). reflexivity.
Qed.

Lemma contains_dot_of_Z (n : Z) : contains_dot (string_of_Z n) = false.
Proof.
  destruct n as [ | p | p ]; [ reflexivity | | ];
    unfold string_of_Z, contains_dot; cbn [Z.to_int NilZero.string_of_int];
    rewrite string_of_positive.
  - rewrite list_ascii_of_string_of_list_ascii.
    apply no_dot_digits, digits_of_digits.
  - cbn [list_ascii_of_string existsb].
    rewrite list_ascii_of_string_of_list_ascii.
    change ("-" =? ".")%char with false. cbn [orb].
    apply no_dot_digits, digits_of_digits.
Qed.

Lemma split_dot_no_dot (s : string) :
  contains_dot s = false -> split_dot s = [s].
Proof.
  unfold contains_dot. induction s as [ | c s IH ]; [ reflexivity | ].
  cbn [list_ascii_of_string existsb split_dot]. intros H.
  apply orb_false_elim in H as [Hc Hs]. rewrite Hc, (IH Hs). reflexivity.
Qed.

(** X21.  The text that [str] gives for an integer converts back to that
    integer: [to_numeric] returns it as an [int], never as a [float], also
    beyond the range of [float], so the unary [+] of the text is the integer
    and the unary [-] is its opposite.  The integer is one that the
    interpreter converts to and from text. *)
Theorem to_numeric_integer_text (n : Z) :
  Z.abs n < 10 ^ max_str_digits ->
  to_numeric (VStr (py_str (VInt n))) = Ok (VInt n)
  /\ plus [VStr (py_str (VInt n))] = Ok (VInt n)
  /\ minus [VStr (py_str (VInt n))] = Ok (VInt (- n)).
Proof.
  intros _.
  assert (T : to_numeric (VStr (py_str (VInt n))) = Ok (VInt n)).
  { cbn [py_str py_repr to_numeric]. unfold py_int.
    rewrite contains_dot_of_Z, int_of_string_of_Z. reflexivity. }
  split; [ exact T | split ].
  - unfold plus. cbn [reduce]. rewrite T. reflexivity.
  - unfold minus. rewrite T. reflexivity.
Qed.

Lemma to_numeric_integer_text_witness :
  Z.abs (- 2 ^ 1100) < 10 ^ max_str_digits
  /\ to_numeric (VStr (py_str (VInt (- 2 ^ 1100)))) = Ok (VInt (- 2 ^ 1100)).
Proof.
  assert (H : Z.abs (- 2 ^ 1100) < 10 ^ max_str_digits)
    by (vm_compute; reflexivity).
  split; [ exact H | ].
  apply (to_numeric_integer_text (- 2 ^ 1100) H).
Defined.

Lemma getitem_int_list (items : list value) (i : Z) :
  getitem_int (VList items) i
  = let len := Z.of_nat (List.length items) in
    if (0 <=? i) && (i <? len) then Ok (nth (Z.to_nat i) items VNone)
    else if (- len <=? i) && (i <? 0)
         then Ok (nth (Z.to_nat (len + i)) items VNone)
         else Raise IndexError.
Proof.
  cbv zeta. unfold getitem_int, seq_index.
  set (len := Z.of_nat (List.length items)).
  assert (R : forall j, 0 <= j < len ->
                nth_error items (Z.to_nat j) = Some (nth (Z.to_nat j) items VNone)).
  { intros j Hj. apply nth_error_nth'. unfold len in Hj. lia. }
  destruct (i <? 0) eqn:Neg.
  - apply Z.ltb_lt in Neg.
    replace (0 <=? i) with false by (symmetry; apply Z.leb_gt; lia).
    cbn [andb]. rewrite andb_true_r.
    replace (i + len <? len) with true by (symmetry; apply Z.ltb_lt; lia).
    rewrite andb_true_r.
    replace (- len <=? i) with (0 <=? i + len)
      by (apply Bool.eq_true_iff_eq; rewrite !Z.leb_le; lia).
    destruct (0 <=? i + len) eqn:Low; [ | reflexivity ].
    apply Z.leb_le in Low. rewrite (Z.add_comm len i), R by lia. reflexivity.
  - apply Z.ltb_ge in Neg.
    replace (0 <=? i) with true by (symmetry; apply Z.leb_le; lia).
    cbn [andb]. rewrite andb_false_r.
    destruct (i <? len) eqn:High; [ | reflexivity ].
    apply Z.ltb_lt in High. rewrite R by lia. reflexivity.
Qed.

(** X22.  On a data context that is a list, [var] with an integer, or with
    the text of an integer, indexes the list: from the front for an index
    from 0, from the end for a negative index; and an index out of range
    raises [IndexError], with a default as without one.  The index is one
    that the interpreter converts to and from text. *)
Theorem var_list_index (items : list value) (i : Z) (not_found : value) :
  Z.abs i < 10 ^ max_str_digits ->
  let len := Z.of_nat (List.length items) in
  let item :=
    if (0 <=? i) && (i <? len) then Ok (nth (Z.to_nat i) items VNone)
    else if (- len <=? i) && (i <? 0)
         then Ok (nth (Z.to_nat (len + i)) items VNone)
         else Raise IndexError in
  get_var (VList items) (VInt i) not_found = item
  /\ get_var (VList items) (VStr (py_str (VInt i))) not_found = item.
Proof.
  intros _. cbv zeta.
  assert (L : lookup (VList items) (VInt i) = getitem_int (VList items) i).
  { unfold lookup. cbn [py_str py_repr].
    rewrite (split_dot_no_dot _ (contains_dot_of_Z i)).
    cbn [walk getitem_str]. unfold py_int. rewrite int_of_string_of_Z.
    cbn [bind]. destruct (getitem_int (VList items) i); reflexivity. }
  assert (G : get_var (VList items) (VInt i) not_found
              = getitem_int (VList items) i).
  { unfold get_var. rewrite L, getitem_int_list. cbv zeta.
    destruct ((0 <=? i) && (i <? Z.of_nat (List.length items)));
      [ reflexivity | ].
    destruct ((- Z.of_nat (List.length items) <=? i) && (i <? 0)); reflexivity. }
  rewrite <- getitem_int_list. split; exact G.
Qed.

Lemma var_list_index_witness :
  Z.abs (-1) < 10 ^ max_str_digits
  /\ get_var (VList [VStr "a"; VStr "b"; VStr "c"]) (VInt (-1)) (VStr "none")
     = Ok (VStr "c").
Proof.
  assert (H : Z.abs (-1) < 10 ^ max_str_digits) by (vm_compute; reflexivity).
  split; [ exact H | ].
  apply (var_list_index [VStr "a"; VStr "b"; VStr "c"] (-1) (VStr "none") H).
Defined.

(** ** The trace and the data context *)

Lemma depth_node (operator : string) (values : value)
  (others : list (string * value)) :
  depth (VDict ((operator, values) :: others)) = S (deepest (operands values)).
Proof.
  unfold deepest. destruct values; cbn [depth operands fold_right];
    try rewrite Nat.max_0_r; reflexivity.
Qed.

Lemma deepest_item (vals : list value) (k : nat) (val : value) :
  nth_error vals k = Some val -> (depth val <= deepest vals)%nat.
Proof.
  unfold deepest. revert k.
  induction vals as [ | a vals IH ]; intros [ | k ] H; try discriminate H;
    cbn [nth_error] in H; cbn [fold_right].
  - injection H as <-. apply Nat.le_max_l.
  - etransitivity; [ apply (IH k H) | apply Nat.le_max_r ].
Qed.

Lemma deepest_le (vals traces : list value) :
  Forall2 (fun val t => (depth t <= depth val)%nat) vals traces ->
  (deepest traces <= deepest vals)%nat.
Proof.
  unfold deepest. induction 1 as [ | val t vals traces H _ IH ];
    [ apply Nat.le_refl | ].
  cbn [fold_right]. apply Nat.max_le_compat; assumption.
Qed.

(** X23.  The trace is never nested deeper than the rule: an operation
    leaves a node over the traces of its operands, and an [if] the trace of
    one operand or the empty object. *)
Theorem trace_no_deeper (tests data v t : value) :
  jsonLogic tests data = Ok (v, t) -> (depth t <= depth tests)%nat.
Proof.
  revert data v t.
  induction tests as [ tests P | | operator values others IH ] using rule_ind;
    intros data v t H.
  - rewrite (jsonLogic_not_dict tests data P) in H. injection H as _ <-.
    apply Nat.le_refl.
  - discriminate H.
  - rewrite jsonLogic_activation in H. unfold activation in H.
    destruct (eval_operands (fun val => jsonLogic val (or_empty data))
                (operands values))
      as [ [new_values executed] | err ] eqn:E; [ | discriminate H ].
    cbn [bind] in H. destruct (eval_operands_results _ _ _ _ E) as [F L].
    assert (D : (deepest executed <= deepest (operands values))%nat).
    { apply deepest_le. clear E H. revert new_values executed F L.
      induction IH as [ | val vals Hval _ IHvals ];
        intros new_values executed F L.
      - destruct new_values, executed; try discriminate L;
          inversion F. constructor.
      - destruct new_values as [ | nv new_values ], executed as [ | e executed ];
          try discriminate L; inversion F as [ | ? ? ? ? Hr Hrest ]; subst.
        constructor.
        + apply (Hval _ _ _ Hr).
        + apply (IHvals new_values executed Hrest). injection L as L. exact L. }
    rewrite depth_node.
    destruct (dispatch_trace _ _ _ _ _ _ H) as [ -> | [ -> | (k & _ & Hk) ] ].
    + rewrite depth_node. cbn [operands]. apply le_n_S, D.
    + apply Nat.le_0_l.
    + apply Nat.le_le_succ_r.
      etransitivity; [ apply (deepest_item _ _ _ Hk) | exact D ].
Qed.

Lemma trace_no_deeper_witness :
  jsonLogic (if_rule [VDict [("<", VList [VInt 1; VInt 2])]; VStr "yes"; VStr "no"])
    VNone
  = Ok (VStr "yes", VStr "yes")
  /\ (depth (VStr "yes")
      <= depth (if_rule [VDict [("<", VList [VInt 1; VInt 2])];
                         VStr "yes"; VStr "no"]))%nat.
Proof.
  split; [ vm_compute; reflexivity | ].
  apply (trace_no_deeper
           (if_rule [VDict [("<", VList [VInt 1; VInt 2])]; VStr "yes"; VStr "no"])
           VNone (VStr "yes") (VStr "yes")).
  vm_compute. reflexivity.
Defined.

Lemma data_free_node (operator : string) (values : value)
  (others : list (string * value)) :
  data_free (VDict ((operator, values) :: others)) = true ->
  reads_data operator = false
  /\ forallb data_free (operands values) = true.
Proof.
  cbn [data_free]. intros H. apply andb_prop in H as [R V].
  split; [ destruct (reads_data operator); [ discriminate R | reflexivity ] | ].
  destruct values; cbn [operands forallb]; try reflexivity; try exact V.
  rewrite V. reflexivity.
Qed.

Lemma dispatch_data_free (operator : string) (data data' : value)
  (new_values executed : list value) :
  reads_data operator = false ->
  dispatch operator data new_values executed
  = dispatch operator data' new_values executed.
Proof.
  unfold reads_data, dispatch. intros R.
  apply orb_false_elim in R as [R Hsome].
  apply orb_false_elim in R as [Hvar Hmissing].
  rewrite Hvar, Hmissing, Hsome. reflexivity.
Qed.

(** X24.  Only [var], [missing] and [missing_some] read the data context:
    a rule without them evaluates to the same value and trace, or raises
    the same error, on every data context. *)
Theorem data_free_rule (tests data data' : value) :
  data_free tests = true -> jsonLogic tests data = jsonLogic tests data'.
Proof.
  revert data data'.
  induction tests as [ tests P | | operator values others IH ] using rule_ind;
    intros data data' H.
  - rewrite !(jsonLogic_not_dict tests _ P). reflexivity.
  - reflexivity.
  - destruct (data_free_node _ _ _ H) as [R V].
    rewrite !jsonLogic_activation. unfold activation.
    assert (E : eval_operands (fun val => jsonLogic val (or_empty data))
                  (operands values)
                = eval_operands (fun val => jsonLogic val (or_empty data'))
                    (operands values)).
    { apply eval_operands_ext. rewrite forallb_forall in V.
      rewrite Forall_forall in IH |- *. intros val Hin.
      apply (IH val Hin). apply (V val Hin). }
    rewrite E.
    destruct (eval_operands (fun val => jsonLogic val (or_empty data'))
                (operands values)) as [ [new_values executed] | err ];
      [ | reflexivity ].
    cbn [bind]. apply (dispatch_data_free _ _ _ _ _ R).
Qed.

Lemma data_free_rule_witness :
  data_free (VDict [("+", VList [VInt 1; VDict [("*", VList [VStr "2"; VInt 3])]])])
  = true
  /\ jsonLogic
       (VDict [("+", VList [VInt 1; VDict [("*", VList [VStr "2"; VInt 3])]])])
       (VDict [("a", VInt 1)])
     = jsonLogic
         (VDict [("+", VList [VInt 1; VDict [("*", VList [VStr "2"; VInt 3])]])])
         VNone.
Proof.
  split; [ reflexivity | ].
  apply (data_free_rule
           (VDict [("+", VList [VInt 1; VDict [("*", VList [VStr "2"; VInt 3])]])])
           (VDict [("a", VInt 1)]) VNone).
  reflexivity.
Defined.
